(** * bixi_stats: the yearly aggregation and the station map of [app.py]

    A shallow embedding of [charger_donnees], [creer_carte] and the year
    selection of [main], with the pandas, shapely, folium and streamlit
    operations they call written out as far as the program depends on them.
    [charger_donnees] is a function of the year and of the files under the
    working directory; the memoisation of [st.cache_data] and the rendering
    of the page are not part of the model. *)

From Stdlib Require Import ZArith QArith Qabs Qpower Qcanon Lia Lra Psatz.
From Stdlib Require Import Bool List String Ascii DecimalString Permutation Sorted.
Import ListNotations.

Set Implicit Arguments.
Set Warnings "-register-all".

(** ** binary64 arithmetic

    Python's [float] and numpy's [float64] are IEEE-754 binary64.  A finite
    value is kept as the rational it denotes, in lowest terms; every operation
    rounds the exact result to the nearest 53-bit significand, ties to even.
    The exponent range is not bounded: no quantity of this program comes near
    overflow or the subnormal range. *)
Module Float.

Local Open Scope Q_scope.

(** Nearest integer to [y], ties to the even one. *)
Definition Qrne (y : Q) : Z :=
  let a := Qnum y in
  let b := Z.pos (Qden y) in
  let q := (a / b)%Z in
  let r := (a mod b)%Z in
  match (2 * r ?= b)%Z with
  | Lt => q
  | Gt => (q + 1)%Z
  | Eq => if Z.even q then q else (q + 1)%Z
  end.

(** [floor (log2 x)] for [0 < x]. *)
Definition Qilog2 (x : Q) : Z :=
  let k := (Z.log2 (Qnum x) - Z.log2 (Z.pos (Qden x)))%Z in
  if Qle_bool (2 ^ k) x then k else (k - 1)%Z.

(** Exponent of the unit in the last place of the binade of [x]. *)
Definition ulp_exp (x : Q) : Z := (Qilog2 (Qabs x) - 52)%Z.

(** Round to nearest, ties to even, 53 bits of precision. *)
Definition rnd (x : Q) : Q :=
  if Qeq_bool x 0 then 0
  else
    let e := ulp_exp x in
    Qred (inject_Z (Qrne (x * 2 ^ (- e))) * 2 ^ e).

Inductive float64 : Type :=
| Fin (q : Q)
| NaN.

Definition of_Z (z : Z) : float64 := Fin (rnd (inject_Z z)).
Definition of_nat (n : nat) : float64 := of_Z (Z.of_nat n).
(** A decimal literal of the source text denotes the nearest binary64. *)
Definition lit (q : Q) : float64 := Fin (rnd q).

Definition fadd (x y : float64) : float64 :=
  match x, y with
  | Fin a, Fin b => Fin (rnd (a + b))
  | _, _ => NaN
  end.

Definition fmul (x y : float64) : float64 :=
  match x, y with
  | Fin a, Fin b => Fin (rnd (a * b))
  | _, _ => NaN
  end.

(** numpy's true division of two finite values with a non-zero divisor; the
    divisions of the program that can meet a zero divisor are guarded where
    they are made ([ZeroDivisionError] for Python integers, the empty mean). *)
Definition fdiv (x y : float64) : float64 :=
  match x, y with
  | Fin a, Fin b => if Qeq_bool b 0 then NaN else Fin (rnd (a / b))
  | _, _ => NaN
  end.

Definition feqb (x y : float64) : bool :=
  match x, y with
  | Fin a, Fin b => Qeq_bool a b
  | _, _ => false
  end.

End Float.

Import Float.
Local Open Scope string_scope.
Local Open Scope list_scope.

(** ** Python strings and lists *)

Fixpoint startswith (s p : string) : bool :=
  match p, s with
  | EmptyString, _ => true
  | String c p', String d s' => Ascii.eqb c d && startswith s' p'
  | String _ _, EmptyString => false
  end.

Definition endswith (s p : string) : bool :=
  let n := String.length s in
  let k := String.length p in
  (k <=? n)%nat && String.eqb (substring (n - k) k s) p.

(** [c in s] for a one-character [c]. *)
Fixpoint contains_char (c : ascii) (s : string) : bool :=
  match s with
  | EmptyString => false
  | String d s' => Ascii.eqb c d || contains_char c s'
  end.

Fixpoint join (sep : string) (l : list string) : string :=
  match l with
  | [] => EmptyString
  | [x] => x
  | x :: r => (x ++ sep ++ join sep r)%string
  end.

(** [list.sort()] on strings: the order is that of the code points, which on
    UTF-8 text is the order of the bytes. *)
Fixpoint insert_sorted (x : string) (l : list string) : list string :=
  match l with
  | [] => [x]
  | y :: r => if String.leb x y then x :: l else y :: insert_sorted x r
  end.

Definition sort (l : list string) : list string :=
  fold_right insert_sorted [] l.

(** ** Exceptions *)

Inductive exn_class : Type :=
| FileNotFoundError
| NotADirectoryError
| IsADirectoryError
| KeyError
| ValueError
| TypeError
| AttributeError
| ZeroDivisionError
| ParserError
| EmptyDataError
| StreamlitAPIException.

Record exn : Type := Exn { cls : exn_class; msg : string }.

Inductive result (A : Type) : Type :=
| Ok (a : A)
| Raise (e : exn).
Arguments Ok {A} a.
Arguments Raise {A} e.

Definition bind {A B : Type} (r : result A) (k : A -> result B) : result B :=
  match r with
  | Ok a => k a
  | Raise e => Raise e
  end.

Declare Scope py_scope.
Delimit Scope py_scope with py.
Notation "x <- r ;; k" := (bind r (fun x => k))
  (at level 61, r at next level, right associativity) : py_scope.
Notation "' p <- r ;; k" := (bind r (fun v => let p := v in k))
  (at level 61, p pattern, r at next level, right associativity) : py_scope.
Local Open Scope py_scope.

Fixpoint mapM {A B : Type} (f : A -> result B) (l : list A) : result (list B) :=
  match l with
  | [] => Ok []
  | a :: r => b <- f a ;; bs <- mapM f r ;; Ok (b :: bs)
  end.

(** [l.index(x)] *)
Fixpoint list_index (x : string) (l : list string) : result nat :=
  match l with
  | [] => Raise (Exn ValueError ("'" ++ x ++ "' is not in list")%string)
  | y :: r => if String.eqb y x then Ok O else i <- list_index x r ;; Ok (S i)
  end.

(** ** The file system under the working directory *)

Inductive node : Type :=
| File (content : string)
| Dir (entries : list (string * node)).

Fixpoint lookup {A : Type} (k : string) (l : list (string * A)) : option A :=
  match l with
  | [] => None
  | (k', v) :: r => if String.eqb k' k then Some v else lookup k r
  end.

(** A path is kept as its components below the working directory, which is
    what [os.path.join] builds here. *)
Definition path := list string.

Fixpoint resolve (n : node) (p : path) : option node :=
  match p with
  | [] => Some n
  | c :: p' =>
      match n with
      | File _ => None
      | Dir es => match lookup c es with
                  | Some n' => resolve n' p'
                  | None => None
                  end
      end
  end.

Definition path_str (p : path) : string := join "/" ("." :: p).

Definition no_such_file (p : path) : exn :=
  Exn FileNotFoundError
      ("[Errno 2] No such file or directory: '" ++ path_str p ++ "'")%string.

Definition os_listdir (cwd : node) (p : path) : result (list string) :=
  match resolve cwd p with
  | None => Raise (no_such_file p)
  | Some (File _) =>
      Raise (Exn NotADirectoryError
                 ("[Errno 20] Not a directory: '" ++ path_str p ++ "'")%string)
  | Some (Dir es) => Ok (map fst es)
  end.

Definition os_path_isdir (cwd : node) (p : path) : bool :=
  match resolve cwd p with
  | Some (Dir _) => true
  | _ => false
  end.

Definition read_text (cwd : node) (p : path) : result string :=
  match resolve cwd p with
  | None => Raise (no_such_file p)
  | Some (Dir _) =>
      Raise (Exn IsADirectoryError
                 ("[Errno 21] Is a directory: '" ++ path_str p ++ "'")%string)
  | Some (File c) => Ok c
  end.

(** ** pandas values

    A cell of a frame: an integer, a float (the missing value is the float
    NaN), a string, or a timestamp counted in nanoseconds since the epoch
    (missing: NaT). *)
Inductive cell : Type :=
| VInt (z : Z)
| VFloat (f : float64)
| VStr (s : string)
| VTime (ns : Z)
| VNaT.

Definition nan : cell := VFloat NaN.

(** A frame, by its column labels and its rows; a row maps labels to cells,
    and a label it does not hold reads as NaN. *)
Record DataFrame : Type :=
  { columns : list string; records : list (list (string * cell)) }.

Definition has_column (df : DataFrame) (c : string) : bool :=
  existsb (String.eqb c) (columns df).

Definition field (c : string) (r : list (string * cell)) : cell :=
  match lookup c r with
  | Some v => v
  | None => nan
  end.

Definition key_error (c : string) : exn :=
  Exn KeyError ("'" ++ c ++ "'")%string.

(** [df[c]] *)
Definition getitem (df : DataFrame) (c : string) : result (list cell) :=
  if has_column df c then Ok (map (field c) (records df))
  else Raise (key_error c).

Fixpoint set_field (c : string) (v : cell) (r : list (string * cell))
  : list (string * cell) :=
  match r with
  | [] => [(c, v)]
  | (k, w) :: r' =>
      if String.eqb k c then (c, v) :: r' else (k, w) :: set_field c v r'
  end.

(** [df[c] = vals], for a series [vals] computed from the columns of [df]. *)
Definition setitem (df : DataFrame) (c : string) (vals : list cell) : DataFrame :=
  {| columns := if has_column df c then columns df else columns df ++ [c];
     records := map (fun rv => set_field c (snd rv) (fst rv))
                    (combine (records df) vals) |}.

Definition len (df : DataFrame) : nat := List.length (records df).

(** [df[mask]] *)
Definition boolean_index (df : DataFrame) (mask : list bool) : DataFrame :=
  {| columns := columns df;
     records := map fst (filter snd (combine (records df) mask)) |}.

Definition union_columns (a b : list string) : list string :=
  a ++ filter (fun c => negb (existsb (String.eqb c) a)) b.

(** [pd.concat(dfs, ignore_index=True)]: the rows of the frames one after the
    other, under the union of their columns. *)
Definition pd_concat (dfs : list DataFrame) : result DataFrame :=
  match dfs with
  | [] => Raise (Exn ValueError "No objects to concatenate")
  | _ => Ok {| columns := fold_left union_columns (map columns dfs) [];
               records := flat_map records dfs |}
  end.

Definition to_float (c : cell) : option float64 :=
  match c with
  | VInt z => Some (of_Z z)
  | VFloat f => Some f
  | _ => None
  end.

Definition is_nan (f : float64) : bool :=
  match f with
  | NaN => true
  | Fin _ => false
  end.

Definition numeric (c : cell) : result float64 :=
  match to_float c with
  | Some f => Ok f
  | None => Raise (Exn TypeError "Could not convert to numeric")
  end.

(** [Series.mean()]: the missing values are skipped; the sum is accumulated in
    float64, here from left to right. *)
Definition series_mean (l : list cell) : result float64 :=
  nums <- mapM numeric l ;;
  let present := filter (fun f => negb (is_nan f)) nums in
  match present with
  | [] => Ok NaN
  | _ => Ok (fdiv (fold_left fadd present (Fin 0)) (of_nat (List.length present)))
  end.

(** [a == b] on two cells. *)
Definition cell_eqb (a b : cell) : bool :=
  match a, b with
  | VInt x, VInt y => Z.eqb x y
  | VStr s, VStr t => String.eqb s t
  | VTime x, VTime y => Z.eqb x y
  | _, _ =>
      match to_float a, to_float b with
      | Some x, Some y => feqb x y
      | _, _ => false
      end
  end.

(** [s1 == s2] on two columns of one frame. *)
Definition series_eq (a b : list cell) : list bool :=
  map (fun xy => cell_eqb (fst xy) (snd xy)) (combine a b).

(** [s == k] for an integer [k]. *)
Definition series_eq_int (a : list cell) (k : Z) : list bool :=
  map (fun x => cell_eqb x (VInt k)) a.

Definition ns_per_hour : Z := 3600000000000.

Definition hour_of (ns : Z) : Z := ((ns / ns_per_hour) mod 24)%Z.

(** [s.dt.hour] *)
Definition dt_hour (l : list cell) : result (list cell) :=
  mapM (fun c =>
          match c with
          | VTime ns => Ok (VInt (hour_of ns))
          | VNaT => Ok nan
          | _ => Raise (Exn AttributeError
                            "Can only use .dt accessor with datetimelike values")
          end) l.

(** [bins.searchsorted(x, side='left')] on increasing [bins]. *)
Fixpoint searchsorted_left (bins : list Q) (x : Q) : nat :=
  match bins with
  | [] => O
  | b :: r => if Qle_bool x b then O else S (searchsorted_left r x)
  end.

(** [pd.cut] on one value, with the default [right=True]: the index of the bin
    comes from the left search, [include_lowest] moves the first edge into the
    first bin, and a value outside every bin is missing. *)
Definition cut_value (bins : list Z) (labels : list string)
           (include_lowest : bool) (x : Q) : cell :=
  let qbins := map inject_Z bins in
  let ids := searchsorted_left qbins x in
  let ids := if include_lowest && Qeq_bool x (hd 0%Q qbins) then 1%nat else ids in
  if (ids =? List.length bins)%nat || (ids =? 0)%nat then nan
  else match nth_error labels (ids - 1) with
       | Some l => VStr l
       | None => nan
       end.

Definition cut_cell (bins : list Z) (labels : list string)
           (include_lowest : bool) (c : cell) : result cell :=
  match c with
  | VInt z => Ok (cut_value bins labels include_lowest (inject_Z z))
  | VFloat (Fin q) => Ok (cut_value bins labels include_lowest q)
  | VFloat NaN => Ok nan
  | _ => Raise (Exn TypeError "'<' not supported between instances")
  end.

Definition pd_cut (l : list cell) (bins : list Z) (labels : list string)
           (include_lowest : bool) : result (list cell) :=
  mapM (cut_cell bins labels include_lowest) l.

(** [s.value_counts()] on a categorical column: one count per category, the
    missing values left out.  pandas lists the categories by decreasing
    count; the result is read by label, and is kept here in category order. *)
Definition value_counts (categories : list string) (l : list cell)
  : list (string * nat) :=
  map (fun lab => (lab, List.length (filter (cell_eqb (VStr lab)) l))) categories.

(** Python's [a / b] on two integers. *)
Definition py_truediv (a b : nat) : result float64 :=
  match b with
  | O => Raise (Exn ZeroDivisionError "division by zero")
  | _ => Ok (Fin (rnd (inject_Z (Z.of_nat a) / inject_Z (Z.of_nat b))))
  end.

(** ** shapely and geopandas *)

Record Point : Type := { px : float64; py : float64 }.

(** [Point((x, y))] *)
Definition point_of (xy : cell * cell) : result Point :=
  x <- numeric (fst xy) ;;
  y <- numeric (snd xy) ;;
  Ok {| px := x; py := y |}.

Record GeoDataFrame : Type :=
  { frame : DataFrame; geometry : list Point }.

(** ** What the program takes from its libraries as given

    The CSV reader and the timestamp parser of pandas, and Python's [str] on a
    cell.  The program relies on the parser returning one timestamp per value
    and on [str] leaving a string as it is. *)
Class Externals : Type :=
  { parse_csv : string -> string -> result DataFrame;
    to_datetime : list cell -> result (list cell);
    to_datetime_length :
      forall l l', to_datetime l = Ok l' -> List.length l' = List.length l;
    py_str : cell -> string;
    py_str_VStr : forall s, py_str (VStr s) = s }.

(** ** folium *)

Record TileLayer : Type :=
  { tiles : string; attr : string; tile_name : string; tile_control : bool }.

Record CircleMarker : Type :=
  { location : float64 * float64;
    radius : Z;
    popup : string;
    color : string;
    fill : bool;
    fill_color : string;
    fill_opacity : float64;
    weight : Z }.

Record MarkerCluster : Type :=
  { cluster_name : string;
    overlay : bool;
    cluster_control : bool;
    markers : list CircleMarker }.

Inductive layer : Type :=
| Tile (t : TileLayer)
| Cluster (m : MarkerCluster)
| LayerControl (position : string).

(** [folium.Map]: its centre, its zoom, its default tiles if any, and the
    children added to it, in the order of the [add_to] calls. *)
Record Map : Type :=
  { map_location : float64 * float64;
    zoom_start : Z;
    map_tiles : option string;
    children : list layer }.

Definition add_to (l : layer) (m : Map) : Map :=
  {| map_location := map_location m;
     zoom_start := zoom_start m;
     map_tiles := map_tiles m;
     children := children m ++ [l] |}.

(** The check a marker makes of its location, a pair of floats here: a NaN
    among the two is refused. *)
Definition validate_location (loc : float64 * float64)
  : result (float64 * float64) :=
  if is_nan (fst loc) || is_nan (snd loc)
  then Raise (Exn ValueError "Location values cannot contain NaNs.")
  else Ok loc.

(** ** streamlit *)

Inductive st_event : Type :=
| StError (message : string).

(** ** The program *)

Definition BIXI_blue : string := "#2D2E83".
Definition BIXI_red : string := "#BC1E45".
Definition BIXI_white : string := "#FFFFFF".
Definition BIXI_light_gray : string := "#F8F9FA".

Record resultats : Type :=
  { stations : GeoDataFrame;
    duree_moyenne : float64;
    proportion_boucle : float64;
    membres : nat;
    occasionnels : nat;
    repartition_periodes : list (string * float64) }.

Definition bins : list Z := [0; 6; 12; 18; 24]%Z.
Definition labels : list string := ["0h-6h"; "6h-12h"; "12h-18h"; "18h-24h"].

Section App.

Context {E : Externals}.

(** The working directory of the process. *)
Variable cwd : node.

(** [pd.read_csv(p, sep=sep)] *)
Definition pd_read_csv (p : path) (sep : string) : result DataFrame :=
  text <- read_text cwd p ;;
  parse_csv sep text.

Definition chemin_bixis : path := ["bixis"].

(** The station file, read with the default separator and, when that gives a
    single column whose label holds a semicolon, read again with it. *)
Definition charger_stations (stations_path : path) : result DataFrame :=
  df_stations <- pd_read_csv stations_path "," ;;
  if (List.length (columns df_stations) =? 1)%nat
     && contains_char ";" (hd "" (columns df_stations))
  then pd_read_csv stations_path ";"
  else Ok df_stations.

(** The point geometry of the stations, from [zip(longitude, latitude)]. *)
Definition attacher_geometrie (df_stations : DataFrame) : result GeoDataFrame :=
  lon <- getitem df_stations "longitude" ;;
  lat <- getitem df_stations "latitude" ;;
  geometry <- mapM point_of (combine lon lat) ;;
  Ok {| frame := df_stations; geometry := geometry |}.

Definition est_fichier_trajets (f : string) : bool :=
  endswith f ".csv" && negb (startswith f "Stations").

(** The part of [charger_donnees] that reads the files of the year: the
    stations with their geometry and the trips of all trip files, with their
    two dates parsed. *)
Definition charger_fichiers (annee : string)
  : result (GeoDataFrame * DataFrame) :=
  let chemin_annee := chemin_bixis ++ [annee] in
  let stations_file := ("Stations_" ++ annee ++ ".csv")%string in
  let stations_path := chemin_annee ++ [stations_file] in
  df_stations <- charger_stations stations_path ;;
  gdf_stations <- attacher_geometrie df_stations ;;
  noms <- os_listdir cwd chemin_annee ;;
  let fichiers := filter est_fichier_trajets noms in
  df_list <- mapM (fun fichier => pd_read_csv (chemin_annee ++ [fichier]) ",")
                  fichiers ;;
  df_annee <- pd_concat df_list ;;
  start_date <- getitem df_annee "start_date" ;;
  start_date <- to_datetime start_date ;;
  let df_annee := setitem df_annee "start_date" start_date in
  end_date <- getitem df_annee "end_date" ;;
  end_date <- to_datetime end_date ;;
  let df_annee := setitem df_annee "end_date" end_date in
  Ok (gdf_stations, df_annee).

(** The part of [charger_donnees] that computes the statistics. *)
Definition statistiques (gdf_stations : GeoDataFrame) (df_annee : DataFrame)
  : result resultats :=
  duration_sec <- getitem df_annee "duration_sec" ;;
  moyenne <- series_mean duration_sec ;;
  let duree_moyenne := fdiv moyenne (of_Z 60) in
  start_code <- getitem df_annee "start_station_code" ;;
  end_code <- getitem df_annee "end_station_code" ;;
  let trajets_boucle := boolean_index df_annee (series_eq start_code end_code) in
  proportion <- py_truediv (len trajets_boucle) (len df_annee) ;;
  let proportion_boucle := fmul proportion (of_Z 100) in
  is_member <- getitem df_annee "is_member" ;;
  let membres := len (boolean_index df_annee (series_eq_int is_member 1)) in
  is_member <- getitem df_annee "is_member" ;;
  let occasionnels := len (boolean_index df_annee (series_eq_int is_member 0)) in
  start_date <- getitem df_annee "start_date" ;;
  hour <- dt_hour start_date ;;
  let df_annee := setitem df_annee "hour" hour in
  hour <- getitem df_annee "hour" ;;
  period <- pd_cut hour bins labels true ;;
  let df_annee := setitem df_annee "period" period in
  period <- getitem df_annee "period" ;;
  let compte_periodes := value_counts labels period in
  let repartition :=
    map (fun lc => (fst lc,
                    fmul (fdiv (of_nat (snd lc)) (of_nat (len df_annee)))
                         (of_Z 100)))
        compte_periodes in
  Ok {| stations := gdf_stations;
        duree_moyenne := duree_moyenne;
        proportion_boucle := proportion_boucle;
        membres := membres;
        occasionnels := occasionnels;
        repartition_periodes := repartition |}.

(** The body of the [try] block. *)
Definition charger_corps (annee : string) : result resultats :=
  fichiers <- charger_fichiers annee ;;
  statistiques (fst fichiers) (snd fichiers).

(** [charger_donnees]: what it returns, and what it shows through
    [st.error]. *)
Definition charger_donnees (annee : string) : option resultats * list st_event :=
  match charger_corps annee with
  | Ok r => (Some r, [])
  | Raise e =>
      (None,
       [StError ("Erreur lors du chargement des données: " ++ msg e)%string])
  end.

(** The four tile layers [creer_carte] adds, in the order it adds them. *)
Definition fonds_de_carte : list TileLayer :=
  [ {| tiles := "https://mt1.google.com/vt/lyrs=s&x={x}&y={y}&z={z}";
       attr := "© Google Maps"; tile_name := "Satellite";
       tile_control := true |};
    {| tiles := "https://mt1.google.com/vt/lyrs=p&x={x}&y={y}&z={z}";
       attr := "© Google Maps"; tile_name := "Terrain";
       tile_control := true |};
    {| tiles := "cartodbdark_matter";
       attr := "© OpenStreetMap contributors"; tile_name := "Sombre";
       tile_control := true |};
    {| tiles := "cartodbpositron";
       attr := "© OpenStreetMap contributors"; tile_name := "OpenStreetMap";
       tile_control := true |} ].

(** [station[c]] on a row of [iterrows]. *)
Definition row_getitem (df : DataFrame) (r : list (string * cell)) (c : string)
  : result cell :=
  if has_column df c then Ok (field c r) else Raise (key_error c).

(** The marker of one station.  The arguments of [folium.CircleMarker] are
    evaluated first, the name of the station among them; the marker then
    validates its location. *)
Definition marqueur (gdf_stations : GeoDataFrame)
           (station : list (string * cell) * Point) : result CircleMarker :=
  let geom := snd station in
  let location := (py geom, px geom) in
  nom <- row_getitem (frame gdf_stations) (fst station) "name" ;;
  location <- validate_location location ;;
  Ok {| location := location;
        radius := 10;
        popup := ("<b>" ++ py_str nom ++ "</b>")%string;
        color := BIXI_red;
        fill := true;
        fill_color := BIXI_red;
        fill_opacity := lit (7 # 10);
        weight := 2 |}.

Definition creer_carte (gdf_stations : GeoDataFrame) : result Map :=
  let carte := {| map_location := (lit (455236 # 10000), lit (- 735985 # 10000));
                  zoom_start := 12;
                  map_tiles := None;
                  children := [] |} in
  let carte := fold_left (fun m t => add_to (Tile t) m) fonds_de_carte carte in
  ms <- mapM (marqueur gdf_stations)
             (combine (records (frame gdf_stations)) (geometry gdf_stations)) ;;
  let marker_cluster := {| cluster_name := "Stations BIXI";
                           overlay := true;
                           cluster_control := true;
                           markers := ms |} in
  let carte := add_to (Cluster marker_cluster) carte in
  let carte := add_to (LayerControl "topright") carte in
  Ok carte.

(** The years offered by [main]: the directories under [./bixis], sorted. *)
Definition annees_disponibles : result (list string) :=
  noms <- os_listdir cwd chemin_bixis ;;
  Ok (sort (filter (fun d => os_path_isdir cwd (chemin_bixis ++ [d])) noms)).

(** The option [st.selectbox] shows selected when the page is first drawn. *)
Definition st_selectbox (options : list string) (index : nat) : result string :=
  match nth_error options index with
  | Some o => Ok o
  | None =>
      Raise (Exn StreamlitAPIException
                 "Selectbox index must be between 0 and length of options")
  end.

(** The year [main] starts with.  [main] has no handler around it: an
    exception here ends the run. *)
Definition annee_selectionnee : result string :=
  annees <- annees_disponibles ;;
  index <- list_index "2014" annees ;;
  st_selectbox annees index.

End App.

(** ** A reference instance of the library functions

    A reader for the plain fragment of CSV (unquoted cells, no row longer than
    the header, numbers in decimal notation without exponent, the empty cell
    as the only missing value), a parser for timestamps written
    [YYYY-MM-DD HH:MM] or [YYYY-MM-DD HH:MM:SS], and [str] on strings,
    integers and missing values (a float is written with all its digits and a
    timestamp as its count of nanoseconds; no label of the runs below is
    either).  The concrete runs below go through it. *)
Module Reference.

Definition newline : ascii := "010"%char.

Fixpoint split_on (c : ascii) (s : string) : list string :=
  match s with
  | EmptyString => [EmptyString]
  | String d s' =>
      match split_on c s' with
      | [] => [String d EmptyString]
      | w :: ws =>
          if Ascii.eqb d c then EmptyString :: w :: ws else String d w :: ws
      end
  end.

Definition digit_of (c : ascii) : option Z :=
  let n := nat_of_ascii c in
  if (48 <=? n)%nat && (n <=? 57)%nat then Some (Z.of_nat (n - 48)) else None.

Fixpoint parse_digits (s : string) (acc : Z) : option Z :=
  match s with
  | EmptyString => Some acc
  | String c s' =>
      match digit_of c with
      | Some d => parse_digits s' (10 * acc + d)%Z
      | None => None
      end
  end.

Definition parse_nat (s : string) : option Z :=
  match s with
  | EmptyString => None
  | _ => parse_digits s 0%Z
  end.

Definition parse_int (s : string) : option Z :=
  match s with
  | String "-" r => option_map Z.opp (parse_nat r)
  | _ => parse_nat s
  end.

Definition parse_unsigned_decimal (s : string) : option Q :=
  match split_on "." s with
  | [i] => option_map inject_Z (parse_nat i)
  | [i; f] =>
      match parse_nat i, parse_nat f with
      | Some a, Some b =>
          let p := (10 ^ Z.of_nat (String.length f))%Z in
          Some (Qmake (a * p + b) (Z.to_pos p))
      | _, _ => None
      end
  | _ => None
  end.

Definition parse_decimal (s : string) : option Q :=
  match s with
  | String "-" r => option_map Qopp (parse_unsigned_decimal r)
  | _ => parse_unsigned_decimal s
  end.

Definition is_empty (s : string) : bool :=
  match s with
  | EmptyString => true
  | _ => false
  end.

Definition is_some {A : Type} (o : option A) : bool :=
  match o with
  | Some _ => true
  | None => false
  end.

(** The cells of one column, typed as pandas types a column: integers when
    every cell is one, floats when every cell is a number or empty, strings
    otherwise. *)
Definition infer_column (vals : list string) : list cell :=
  if forallb (fun s => is_some (parse_int s)) vals then
    map (fun s => match parse_int s with Some z => VInt z | None => nan end) vals
  else if forallb (fun s => is_empty s || is_some (parse_decimal s)) vals then
    map (fun s => match parse_decimal s with
                  | Some q => VFloat (lit q)
                  | None => nan
                  end) vals
  else
    map (fun s => if is_empty s then nan else VStr s) vals.

Definition csv_error (m : string) : exn := Exn ParserError m.

Definition read_table (sep : ascii) (text : string)
  : result (list string * list (list string)) :=
  match filter (fun l => negb (is_empty l)) (split_on newline text) with
  | [] => Raise (Exn EmptyDataError "No columns to parse from file")
  | h :: ls =>
      let header := split_on sep h in
      let rows := map (split_on sep) ls in
      if forallb (fun r => (List.length r <=? List.length header)%nat) rows
      then Ok (header, rows)
      else Raise (csv_error "Error tokenizing data")
  end.

Definition column_cells (rows : list (list string)) (j : nat) : list cell :=
  infer_column (map (fun r => nth j r EmptyString) rows).

Definition frame_of_table (header : list string) (rows : list (list string))
  : DataFrame :=
  let cols := map (column_cells rows) (seq 0 (List.length header)) in
  {| columns := header;
     records :=
       map (fun i => combine header (map (fun col => nth i col nan) cols))
           (seq 0 (List.length rows)) |}.

Definition parse_csv (sep : string) (text : string) : result DataFrame :=
  match sep with
  | String c EmptyString =>
      t <- read_table c text ;;
      Ok (frame_of_table (fst t) (snd t))
  | _ => Raise (Exn ValueError "separator outside the plain fragment")
  end.

Definition is_leap (y : Z) : bool :=
  ((y mod 4 =? 0) && negb (y mod 100 =? 0) || (y mod 400 =? 0))%Z.

Definition days_in_month (y m : Z) : Z :=
  (if m =? 2 then (if is_leap y then 29 else 28)
   else if (m =? 4) || (m =? 6) || (m =? 9) || (m =? 11) then 30
   else 31)%Z.

(** Days from 1970-01-01 to the given civil date. *)
Definition days_from_civil (y m d : Z) : Z :=
  (let y' := if m <=? 2 then y - 1 else y in
   let era := y' / 400 in
   let yoe := y' - era * 400 in
   let mp := if 2 <? m then m - 3 else m + 9 in
   let doy := (153 * mp + 2) / 5 + d - 1 in
   let doe := yoe * 365 + yoe / 4 - yoe / 100 + doy in
   era * 146097 + doe - 719468)%Z.

Definition timestamp (y m d h mi s : Z) : option Z :=
  (if (1 <=? m) && (m <=? 12) && (1 <=? d) && (d <=? days_in_month y m)
      && (h <=? 23) && (mi <=? 59) && (s <=? 59)
   then Some ((((days_from_civil y m d * 24 + h) * 60 + mi) * 60 + s)
              * 1000000000)
   else None)%Z.

Definition parse_timestamp (s : string) : option Z :=
  match split_on " " s with
  | [date; time] =>
      match map parse_nat (split_on "-" date), map parse_nat (split_on ":" time) with
      | [Some y; Some m; Some d], [Some h; Some mi] => timestamp y m d h mi 0
      | [Some y; Some m; Some d], [Some h; Some mi; Some sec] =>
          timestamp y m d h mi sec
      | _, _ => None
      end
  | _ => None
  end.

Definition datetime_of_cell (c : cell) : result cell :=
  match c with
  | VStr s =>
      match parse_timestamp s with
      | Some ns => Ok (VTime ns)
      | None => Raise (Exn ValueError ("Unknown datetime string format: " ++ s)%string)
      end
  | VTime ns => Ok (VTime ns)
  | VNaT => Ok VNaT
  | VFloat NaN => Ok VNaT
  | _ => Raise (Exn TypeError "not convertible to datetime")
  end.

Definition to_datetime (l : list cell) : result (list cell) :=
  mapM datetime_of_cell l.

Definition string_of_Z (z : Z) : string := NilZero.string_of_int (Z.to_int z).

Fixpoint pad_zeros (n : nat) (s : string) : string :=
  match n with
  | O => s
  | S n' => if (String.length s <? n)%nat then pad_zeros n' ("0" ++ s)%string else s
  end.

Fixpoint strip_zeros_rev (s : list ascii) : list ascii :=
  match s with
  | "0"%char :: r => strip_zeros_rev r
  | _ => s
  end.

Definition strip_trailing_zeros (s : string) : string :=
  string_of_list_ascii (rev (strip_zeros_rev (rev (list_ascii_of_string s)))).

(** All the digits of a finite float: its denominator is a power of two. *)
Definition string_of_Q (q : Q) : string :=
  let k := Z.log2 (Z.pos (Qden q)) in
  let n := (Z.abs (Qnum q) * 5 ^ k)%Z in
  let p := (10 ^ k)%Z in
  let frac := strip_trailing_zeros
                (pad_zeros (Z.to_nat k) (string_of_Z (n mod p))) in
  ((if (Qnum q <? 0)%Z then "-" else "")
   ++ string_of_Z (n / p) ++ "." ++ (if is_empty frac then "0" else frac))%string.

Definition py_str (c : cell) : string :=
  match c with
  | VStr s => s
  | VInt z => string_of_Z z
  | VFloat (Fin q) => string_of_Q q
  | VFloat NaN => "nan"
  | VTime ns => string_of_Z ns
  | VNaT => "NaT"
  end.

End Reference.

#[export] Instance reference : Externals.
Proof.
  refine {| parse_csv := Reference.parse_csv;
            to_datetime := Reference.to_datetime;
            py_str := Reference.py_str |}.
  - unfold Reference.to_datetime.
    induction l as [|c l IH]; intros l' H; simpl in H.
    + injection H as <-. reflexivity.
    + destruct (Reference.datetime_of_cell c); simpl in H; [|discriminate].
      destruct (mapM Reference.datetime_of_cell l) as [bs|]; simpl in H;
        [|discriminate].
      injection H as <-. simpl. f_equal. apply IH. reflexivity.
  - reflexivity.
Defined.

(** ** Sample data *)

Definition lines (l : list string) : string :=
  join (String Reference.newline EmptyString) l.

Definition stations_2014_csv : string :=
  lines [ "code,name,latitude,longitude";
          "6001,Metcalfe / Square Dorchester,45.5,-73.5703125";
          "6002,Parc Jeanne-Mance,45.515625,-73.59375" ].

Definition stations_2014_semicolon_csv : string :=
  lines [ "code;name;latitude;longitude";
          "6001;Metcalfe / Square Dorchester;45.5;-73.5703125";
          "6002;Parc Jeanne-Mance;45.515625;-73.59375" ].

Definition trajets_2014_04_csv : string :=
  lines [ "start_date,start_station_code,end_date,end_station_code,duration_sec,is_member";
          "2014-04-15 00:01,A,2014-04-15 00:11,A,600,1";
          "2014-04-15 06:30,A,2014-04-15 06:50,B,1200,0" ].

Definition cwd_2014 : node :=
  Dir [ ("bixis",
         Dir [ ("2014",
                Dir [ ("Stations_2014.csv", File stations_2014_csv);
                      ("OD_2014-04.csv", File trajets_2014_04_csv) ]) ]) ].

(** ** The records of the data model

    A trip and a station as the files of a year give them, and what it means
    for a frame to hold them. *)

Inductive station_code : Type :=
| CodeInt (z : Z)
| CodeStr (s : string).

Definition cell_of_code (c : station_code) : cell :=
  match c with
  | CodeInt z => VInt z
  | CodeStr s => VStr s
  end.

Definition code_eqb (a b : station_code) : bool :=
  match a, b with
  | CodeInt x, CodeInt y => Z.eqb x y
  | CodeStr s, CodeStr t => String.eqb s t
  | _, _ => false
  end.

Record Trip : Type :=
  { start_date : Z;
    start_station_code : station_code;
    end_date : Z;
    end_station_code : station_code;
    duration_sec : Z;
    is_member : Z }.

(** The frame [df], its dates parsed, holds the trips [ts], row by row. *)
Definition trips_of (df : DataFrame) (ts : list Trip) : Prop :=
  getitem df "start_date" = Ok (map (fun t => VTime (start_date t)) ts)
  /\ getitem df "start_station_code"
     = Ok (map (fun t => cell_of_code (start_station_code t)) ts)
  /\ getitem df "end_station_code"
     = Ok (map (fun t => cell_of_code (end_station_code t)) ts)
  /\ getitem df "duration_sec" = Ok (map (fun t => VInt (duration_sec t)) ts)
  /\ getitem df "is_member" = Ok (map (fun t => VInt (is_member t)) ts).

Definition est_boucle (t : Trip) : bool :=
  code_eqb (start_station_code t) (end_station_code t).

Definition nb_boucles (ts : list Trip) : nat :=
  List.length (filter est_boucle ts).

(** The number of trips whose membership flag is [k]. *)
Definition nb_flag (k : Z) (ts : list Trip) : nat :=
  List.length (filter (fun t => Z.eqb (is_member t) k) ts).

(** The mean of integers as [Series.mean] computes it. *)
Definition moyenne (l : list Z) : float64 :=
  fdiv (fold_left fadd (map of_Z l) (Fin 0)) (of_nat (List.length l)).

(** The bucket the program gives a trip. *)
Definition periode (t : Trip) : cell :=
  cut_value bins labels true (inject_Z (hour_of (start_date t))).

Definition nb_periode (lab : string) (ts : list Trip) : nat :=
  List.length (filter (fun t => cell_eqb (VStr lab) (periode t)) ts).

(** [(count / total) * 100] on the counts of a series. *)
Definition pourcentage (count total : nat) : float64 :=
  fmul (fdiv (of_nat count) (of_nat total)) (of_Z 100).

Definition value_of (f : float64) : Q :=
  match f with
  | Fin q => q
  | NaN => 0%Q
  end.

Record Station : Type :=
  { code : Z; name : string; latitude : float64; longitude : float64 }.

(** The station frame [df] holds the stations [ss], row by row. *)
Definition stations_of (df : DataFrame) (ss : list Station) : Prop :=
  getitem df "name" = Ok (map (fun s => VStr (name s)) ss)
  /\ getitem df "latitude" = Ok (map (fun s => VFloat (latitude s)) ss)
  /\ getitem df "longitude" = Ok (map (fun s => VFloat (longitude s)) ss).

(** The geometry [attacher_geometrie] gives a station. *)
Definition point_of_station (s : Station) : Point :=
  {| px := longitude s; py := latitude s |}.

(** The stations [ss] as [creer_carte] receives them. *)
Definition geo_stations_of (gdf : GeoDataFrame) (ss : list Station) : Prop :=
  getitem (frame gdf) "name" = Ok (map (fun s => VStr (name s)) ss)
  /\ geometry gdf = map point_of_station ss.

Definition marqueur_de (s : Station) : CircleMarker :=
  {| location := (latitude s, longitude s);
     radius := 10;
     popup := ("<b>" ++ name s ++ "</b>")%string;
     color := BIXI_red;
     fill := true;
     fill_color := BIXI_red;
     fill_opacity := lit (7 # 10);
     weight := 2 |}.

(** The map around a list of markers. *)
Definition carte_de (ms : list CircleMarker) : Map :=
  {| map_location := (lit (455236 # 10000), lit (- 735985 # 10000));
     zoom_start := 12;
     map_tiles := None;
     children :=
       map Tile fonds_de_carte
       ++ [ Cluster {| cluster_name := "Stations BIXI"; overlay := true;
                       cluster_control := true; markers := ms |};
            LayerControl "topright" ] |}.

Definition tile_layers (m : Map) : list TileLayer :=
  flat_map (fun l => match l with Tile t => [t] | _ => [] end) (children m).

Definition clusters (m : Map) : list MarkerCluster :=
  flat_map (fun l => match l with Cluster c => [c] | _ => [] end) (children m).

(** The exact proportion [c / n]. *)
Definition ratio (c n : nat) : Q :=
  (inject_Z (Z.of_nat c) / inject_Z (Z.of_nat n))%Q.

(** What [statistiques] returns on the trips [ts]. *)
Definition resultats_de (gdf : GeoDataFrame) (ts : list Trip) : resultats :=
  {| stations := gdf;
     duree_moyenne := fdiv (moyenne (map duration_sec ts)) (of_Z 60);
     proportion_boucle :=
       fmul (Fin (rnd (ratio (nb_boucles ts) (List.length ts)))) (of_Z 100);
     membres := nb_flag 1 ts;
     occasionnels := nb_flag 0 ts;
     repartition_periodes :=
       map (fun lab => (lab, pourcentage (nb_periode lab ts) (List.length ts)))
           labels |}.

(** The label [pd.cut] gives an hour of the day under the bins and the
    options of the program: the bins are closed on the right, and the first
    one takes its left edge too. *)
Definition etiquette (h : Z) : string :=
  (if h <=? 6 then "0h-6h"
   else if h <=? 12 then "6h-12h"
   else if h <=? 18 then "12h-18h"
   else "18h-24h")%Z.

(** The exact sum of finite floats. *)
Definition somme (l : list float64) : Q :=
  fold_right Qplus 0%Q (map value_of l).

(** A semicolon-delimited file read as such, in one attempt. *)
Definition lecture_point_virgule {E : Externals} (cwd : node) (p : path)
  : result DataFrame :=
  pd_read_csv cwd p ";".

Definition record_of_trip (t : Trip) : list (string * cell) :=
  [ ("start_date", VTime (start_date t));
    ("start_station_code", cell_of_code (start_station_code t));
    ("end_date", VTime (end_date t));
    ("end_station_code", cell_of_code (end_station_code t));
    ("duration_sec", VInt (duration_sec t));
    ("is_member", VInt (is_member t)) ].

Definition frame_of_trips (ts : list Trip) : DataFrame :=
  {| columns := [ "start_date"; "start_station_code"; "end_date";
                  "end_station_code"; "duration_sec"; "is_member" ];
     records := map record_of_trip ts |}.

Definition record_of_station (s : Station) : list (string * cell) :=
  [ ("code", VInt (code s));
    ("name", VStr (name s));
    ("latitude", VFloat (latitude s));
    ("longitude", VFloat (longitude s)) ].

Definition frame_of_stations (ss : list Station) : DataFrame :=
  {| columns := [ "code"; "name"; "latitude"; "longitude" ];
     records := map record_of_station ss |}.

(** The sample data as records. *)
Definition trajets_2014 : list Trip :=
  [ {| start_date := 1397520060000000000; start_station_code := CodeStr "A";
       end_date := 1397520660000000000; end_station_code := CodeStr "A";
       duration_sec := 600; is_member := 1 |};
    {| start_date := 1397543400000000000; start_station_code := CodeStr "A";
       end_date := 1397544600000000000; end_station_code := CodeStr "B";
       duration_sec := 1200; is_member := 0 |} ].

Definition stations_2014 : list Station :=
  [ {| code := 6001; name := "Metcalfe / Square Dorchester";
       latitude := lit (455 # 10); longitude := lit (- 735703125 # 10000000) |};
    {| code := 6002; name := "Parc Jeanne-Mance";
       latitude := lit (45515625 # 1000000); longitude := lit (- 7359375 # 100000) |} ].

Definition gdf_2014 : GeoDataFrame :=
  {| frame := frame_of_stations stations_2014;
     geometry := map point_of_station stations_2014 |}.

Definition cwd_point_virgule : node :=
  Dir [ ("bixis",
         Dir [ ("2014",
                Dir [ ("Stations_2014.csv", File stations_2014_semicolon_csv);
                      ("OD_2014-04.csv", File trajets_2014_04_csv) ]) ]) ].

Definition cwd_sans_trajets : node :=
  Dir [ ("bixis",
         Dir [ ("2014",
                Dir [ ("Stations_2014.csv", File stations_2014_csv) ]) ]) ].

Definition cwd_sans_stations : node :=
  Dir [ ("bixis",
         Dir [ ("2014",
                Dir [ ("OD_2014-04.csv", File trajets_2014_04_csv) ]) ]) ].

Definition cwd_2015 : node :=
  Dir [ ("bixis",
         Dir [ ("2015",
                Dir [ ("Stations_2015.csv", File stations_2014_csv);
                      ("OD_2015-04.csv", File trajets_2014_04_csv) ]);
               ("LISEZMOI.txt", File "BIXI") ]) ].

(** The exact sum of integers. *)
Definition total (l : list Z) : Z := fold_right Z.add 0%Z l.

(** What the example of two trips says of a trip, its dates apart. *)
Definition sans_dates (t : Trip) : Z * Z * station_code * station_code :=
  (duration_sec t, is_member t, start_station_code t, end_station_code t).

(** ** Counting the dated rows of a start-date column *)

Definition est_date (c : cell) : bool :=
  match c with
  | VTime _ => true
  | _ => false
  end.

(** The dated rows of a column the program puts under the label [lab]. *)
Definition dates_dans (lab : string) (starts : list cell) : nat :=
  List.length
    (filter (fun c => match c with
                      | VTime ns => String.eqb lab (etiquette (hour_of ns))
                      | _ => false
                      end) starts).

Definition nb_dates (starts : list cell) : nat :=
  List.length (filter est_date starts).

(** ** Further sample data *)

Definition trajets_sans_date_csv : string :=
  lines [ "start_date,start_station_code,end_date,end_station_code,duration_sec,is_member";
          "2014-04-15 00:01,A,2014-04-15 00:11,A,600,1";
          ",A,2014-04-15 06:50,B,1200,0" ].

Definition trajets_vides_csv : string :=
  "start_date,start_station_code,end_date,end_station_code,duration_sec,is_member".

Definition stations_sans_longitude_csv : string :=
  lines [ "code,name,latitude";
          "6001,Metcalfe / Square Dorchester,45.5" ].

Definition stations_sans_nom_csv : string :=
  lines [ "code,latitude,longitude";
          "6001,45.5,-73.5703125" ].

Definition annee_2014 (fichiers : list (string * node)) : node :=
  Dir [ ("bixis", Dir [ ("2014", Dir fichiers) ]) ].

Definition cwd_sans_date : node :=
  annee_2014 [ ("Stations_2014.csv", File stations_2014_csv);
               ("OD_2014-04.csv", File trajets_sans_date_csv) ].

Definition cwd_trajets_vides : node :=
  annee_2014 [ ("Stations_2014.csv", File stations_2014_csv);
               ("OD_2014-04.csv", File trajets_vides_csv) ].

Definition cwd_sans_longitude : node :=
  annee_2014 [ ("Stations_2014.csv", File stations_sans_longitude_csv);
               ("OD_2014-04.csv", File trajets_2014_04_csv) ].

Definition cwd_sans_nom : node :=
  annee_2014 [ ("Stations_2014.csv", File stations_sans_nom_csv);
               ("OD_2014-04.csv", File trajets_2014_04_csv) ].

Definition cwd_autres_fichiers : node :=
  annee_2014 [ ("LISEZMOI.txt", File "BIXI 2014");
               ("Stations_2014.csv", File stations_2014_csv);
               ("Stations_anciennes.csv", File "code,name");
               ("OD_2014-04.csv", File trajets_2014_04_csv);
               ("notes.csv.bak", File "x") ].

Definition cwd_deux_fichiers : node :=
  annee_2014 [ ("OD_2014-05.csv", File trajets_2014_04_csv);
               ("Stations_2014.csv", File stations_2014_csv);
               ("OD_2014-04.csv", File trajets_2014_04_csv) ].

Definition cwd_plusieurs_annees : node :=
  Dir [ ("bixis",
         Dir [ ("2016", Dir []); ("LISEZMOI.txt", File "BIXI");
               ("2014", Dir []); ("2015", Dir []) ]) ].

Definition est_sans_date (c : cell) : bool :=
  match c with
  | VNaT => true
  | _ => false
  end.

Definition nb_sans_date (starts : list cell) : nat :=
  List.length (filter est_sans_date starts).

(** What [dt.hour] and [pd.cut] make of a cell of dates. *)
Definition heure_de (c : cell) : cell :=
  match c with
  | VTime ns => VInt (hour_of ns)
  | _ => nan
  end.

Definition periode_de (c : cell) : cell :=
  match c with
  | VTime ns => VStr (etiquette (hour_of ns))
  | _ => nan
  end.




(** The marker [creer_carte] makes of a row and its point, the label being
    [str] of the cell under [name]. *)
Definition marqueur_de_ligne {E : Externals}
           (station : list (string * cell) * Point) : CircleMarker :=
  {| location := (py (snd station), px (snd station));
     radius := 10;
     popup := ("<b>" ++ py_str (field "name" (fst station)) ++ "</b>")%string;
     color := BIXI_red;
     fill := true;
     fill_color := BIXI_red;
     fill_opacity := lit (7 # 10);
     weight := 2 |}.

Definition croissant (a b : string) : Prop := String.leb a b = true.

Definition trajets_boucles_csv : string :=
  lines [ "start_date,start_station_code,end_date,end_station_code,duration_sec,is_member";
          "2014-04-15 00:01,6001,2014-04-15 00:11,6001,600,1";
          "2014-04-15 06:30,6002,2014-04-15 06:50,6002,1200,0";
          "2014-04-15 13:05,6001,2014-04-15 13:25,6001,1200,2" ].

Definition cwd_boucles : node :=
  annee_2014 [ ("Stations_2014.csv", File stations_2014_csv);
               ("OD_2014-04.csv", File trajets_boucles_csv) ].

Definition trajets_boucles : list Trip :=
  [ {| start_date := 1397520060000000000; start_station_code := CodeInt 6001;
       end_date := 1397520660000000000; end_station_code := CodeInt 6001;
       duration_sec := 600; is_member := 1 |};
    {| start_date := 1397543400000000000; start_station_code := CodeInt 6002;
       end_date := 1397544600000000000; end_station_code := CodeInt 6002;
       duration_sec := 1200; is_member := 0 |};
    {| start_date := 1397567100000000000; start_station_code := CodeInt 6001;
       end_date := 1397568300000000000; end_station_code := CodeInt 6001;
       duration_sec := 1200; is_member := 2 |} ].

Definition cwd_dossier_csv : node :=
  annee_2014 [ ("Stations_2014.csv", File stations_2014_csv);
               ("archives.csv", Dir []);
               ("OD_2014-04.csv", File trajets_2014_04_csv) ].

(** What [charger_donnees] gives when its body raises an exception whose
    text is [m]. *)
Definition erreur_affichee (m : string) : option resultats * list st_event :=
  (None, [StError ("Erreur lors du chargement des données: " ++ m)%string]).

(** ** Stations and points with both coordinates *)

(** Neither coordinate of the station is missing. *)
Definition a_ses_coordonnees (s : Station) : bool :=
  negb (is_nan (latitude s)) && negb (is_nan (longitude s)).

Definition point_complet (p : Point) : bool :=
  negb (is_nan (py p)) && negb (is_nan (px p)).

Definition stations_sans_latitude_csv : string :=
  lines [ "code,name,latitude,longitude";
          "6001,Metcalfe / Square Dorchester,45.5,-73.5703125";
          "6002,Parc Jeanne-Mance,,-73.59375" ].

Definition cwd_sans_latitude : node :=
  annee_2014 [ ("Stations_2014.csv", File stations_sans_latitude_csv);
               ("OD_2014-04.csv", File trajets_2014_04_csv) ].

Definition stations_sans_latitude : list Station :=
  [ {| code := 6001; name := "Metcalfe / Square Dorchester";
       latitude := lit (455 # 10); longitude := lit (- 735703125 # 10000000) |};
    {| code := 6002; name := "Parc Jeanne-Mance";
       latitude := NaN; longitude := lit (- 7359375 # 100000) |} ].

(** ** Trips whose start date may be missing *)

(** The start of a trip as the frame holds it once the dates are parsed:
    an instant, or none. *)
Definition cell_of_debut (d : option Z) : cell :=
  match d with
  | Some ns => VTime ns
  | None => VNaT
  end.

Definition a_un_debut (d : option Z) : bool :=
  match d with
  | Some _ => true
  | None => false
  end.

(** The frame [df], its dates parsed, holds the trips [ts], row by row, with
    the start dates [debuts] in place of theirs. *)
Definition trips_of_debuts (df : DataFrame) (debuts : list (option Z))
           (ts : list Trip) : Prop :=
  getitem df "start_date" = Ok (map cell_of_debut debuts)
  /\ getitem df "start_station_code"
     = Ok (map (fun t => cell_of_code (start_station_code t)) ts)
  /\ getitem df "end_station_code"
     = Ok (map (fun t => cell_of_code (end_station_code t)) ts)
  /\ getitem df "duration_sec" = Ok (map (fun t => VInt (duration_sec t)) ts)
  /\ getitem df "is_member" = Ok (map (fun t => VInt (is_member t)) ts).

(** The instant [ns] lies in the hour [h] of some day [d], the days being
    counted from the epoch. *)
Definition dans_heure (ns h : Z) : Prop :=
  (0 <= h < 24)%Z
  /\ exists d : Z,
       ((d * 24 + h) * ns_per_hour <= ns < (d * 24 + h + 1) * ns_per_hour)%Z.

(** [h] is the hour of the start [d], when there is one. *)
Definition heure_de_debut (d h : option Z) : Prop :=
  match d, h with
  | Some ns, Some h => dans_heure ns h
  | None, None => True
  | _, _ => False
  end.

(** The rows that start in one of the hours [a] to [b], both included. *)
Definition nb_heures (a b : Z) (hs : list (option Z)) : nat :=
  List.length
    (filter (fun h => match h with
                      | Some h => (a <=? h)%Z && (h <=? b)%Z
                      | None => false
                      end) hs).

(** The percentage of [c] rows among [n] sits in the float [v]. *)
Definition est_pourcentage (c n : nat) (v : float64) : Prop :=
  exists q, v = Fin q
            /\ (0 <= q <= 100)%Q
            /\ (Qabs (q - 100 * ratio c n) <= 1 # 1000)%Q.

Definition trajets_mixtes_csv : string :=
  lines [ "start_date,start_station_code,end_date,end_station_code,duration_sec,is_member";
          "2014-04-15 00:01,6001,2014-04-15 00:11,6001,600,1";
          ",6002,2014-04-15 06:50,6002,1200,0";
          "2014-04-15 06:30,6002,2014-04-15 06:50,6002,1200,0";
          "2014-04-15 13:05,6001,2014-04-15 13:25,6001,1200,2" ].

Definition cwd_mixte : node :=
  annee_2014 [ ("Stations_2014.csv", File stations_2014_csv);
               ("OD_2014-04.csv", File trajets_mixtes_csv) ].

Definition trajets_mixtes : list Trip :=
  [ {| start_date := 1397520060000000000; start_station_code := CodeInt 6001;
       end_date := 1397520660000000000; end_station_code := CodeInt 6001;
       duration_sec := 600; is_member := 1 |};
    {| start_date := 0; start_station_code := CodeInt 6002;
       end_date := 1397544600000000000; end_station_code := CodeInt 6002;
       duration_sec := 1200; is_member := 0 |};
    {| start_date := 1397543400000000000; start_station_code := CodeInt 6002;
       end_date := 1397544600000000000; end_station_code := CodeInt 6002;
       duration_sec := 1200; is_member := 0 |};
    {| start_date := 1397567100000000000; start_station_code := CodeInt 6001;
       end_date := 1397568300000000000; end_station_code := CodeInt 6001;
       duration_sec := 1200; is_member := 2 |} ].

Definition debuts_mixtes : list (option Z) :=
  [ Some 1397520060000000000%Z; None;
    Some 1397543400000000000%Z; Some 1397567100000000000%Z ].

(** * Facts *)

(** ** Rounding *)
Module FloatFacts.

Local Open Scope Q_scope.

Lemma Qrne_cases (y : Q) :
  let a := Qnum y in let b := Z.pos (Qden y) in
  (2 * (Qrne y * b - a) <= b /\ - b <= 2 * (Qrne y * b - a))%Z.
Proof.
  unfold Qrne. cbv zeta.
  set (a := Qnum y). set (b := Z.pos (Qden y)).
  assert (Hb : (0 < b)%Z) by (unfold b; lia).
  pose proof (Z.div_mod a b ltac:(lia)) as Hdm.
  pose proof (Z.mod_pos_bound a b Hb) as Hr.
  destruct (Z.compare_spec (2 * (a mod b)) b) as [H|H|H];
    [destruct (Z.even (a / b))| |]; nia.
Qed.

Lemma Qrne_le (y : Q) (k : Z) : y <= inject_Z k -> (Qrne y <= k)%Z.
Proof.
  intros H. unfold Qle in H. simpl in H. rewrite Z.mul_1_r in H.
  unfold Qrne.
  set (a := Qnum y) in *. set (b := Z.pos (Qden y)) in *.
  assert (Hb : (0 < b)%Z) by (unfold b; lia).
  pose proof (Z.div_mod a b ltac:(lia)) as Hdm.
  pose proof (Z.mod_pos_bound a b Hb) as Hr.
  destruct (Z.compare_spec (2 * (a mod b)) b) as [E|E|E];
    [destruct (Z.even (a / b))| |]; nia.
Qed.

Lemma Qrne_ge (y : Q) (k : Z) : inject_Z k <= y -> (k <= Qrne y)%Z.
Proof.
  intros H. unfold Qle in H. simpl in H. rewrite Z.mul_1_r in H.
  unfold Qrne.
  set (a := Qnum y) in *. set (b := Z.pos (Qden y)) in *.
  assert (Hb : (0 < b)%Z) by (unfold b; lia).
  pose proof (Z.div_mod a b ltac:(lia)) as Hdm.
  pose proof (Z.mod_pos_bound a b Hb) as Hr.
  destruct (Z.compare_spec (2 * (a mod b)) b) as [E|E|E];
    [destruct (Z.even (a / b))| |]; nia.
Qed.

Lemma Qrne_err (y : Q) : Qabs (inject_Z (Qrne y) - y) <= 1 # 2.
Proof.
  pose proof (Qrne_cases y) as H. cbv zeta in H.
  apply Qabs_Qle_condition.
  destruct y as [a b]. cbn [Qnum Qden] in H.
  set (m := Qrne (a # b)) in *.
  unfold Qle, Qminus, Qplus, Qopp, inject_Z; cbn [Qnum Qden].
  split; nia.
Qed.

Lemma pow2_pos (e : Z) : 0 < 2 ^ e.
Proof. apply Qpower_0_lt. reflexivity. Qed.

Lemma pow2_nonneg_exp (e : Z) : (0 <= e)%Z -> 2 ^ e == inject_Z (2 ^ e).
Proof. intros H. rewrite Zpower_Qpower by assumption. reflexivity. Qed.

Lemma pow2_cancel (e : Z) : 2 ^ (- e) * 2 ^ e == 1.
Proof.
  rewrite <- Qpower_plus by discriminate.
  replace (- e + e)%Z with 0%Z by lia. reflexivity.
Qed.

Lemma Qilog2_low (x : Q) : 0 < x -> 2 ^ Qilog2 x <= x.
Proof.
  intros Hx. unfold Qilog2.
  set (k := (Z.log2 (Qnum x) - Z.log2 (Z.pos (Qden x)))%Z).
  destruct (Qle_bool (2 ^ k) x) eqn:E.
  - now apply Qle_bool_iff.
  - destruct x as [n d]. cbn [Qnum Qden] in *.
    assert (Hn : (0 < n)%Z) by (unfold Qlt in Hx; simpl in Hx; lia).
    pose proof (Z.log2_spec n Hn) as [Hn1 _].
    pose proof (Z.log2_spec (Z.pos d) ltac:(lia)) as [_ Hd2].
    pose proof (Z.log2_nonneg n) as Ln.
    pose proof (Z.log2_nonneg (Z.pos d)) as Ld.
    assert (H1 : inject_Z (2 ^ Z.log2 n) <= inject_Z n) by (rewrite <- Zle_Qle; lia).
    assert (H2 : inject_Z (Z.pos d) <= inject_Z (2 ^ Z.succ (Z.log2 (Z.pos d))))
      by (rewrite <- Zle_Qle; lia).
    rewrite <- !pow2_nonneg_exp in H1, H2 by lia.
    replace (k - 1)%Z with (Z.log2 n + - Z.succ (Z.log2 (Z.pos d)))%Z by (unfold k; lia).
    rewrite Qpower_plus by discriminate.
    rewrite Qpower_opp.
    pose proof (pow2_pos (Z.log2 n)) as P1.
    pose proof (pow2_pos (Z.succ (Z.log2 (Z.pos d)))) as P2.
    set (A := 2 ^ Z.log2 n) in *. set (B := 2 ^ Z.succ (Z.log2 (Z.pos d))) in *.
    assert (Hxe : n # d == inject_Z n / inject_Z (Z.pos d)).
    { rewrite (Qmake_Qdiv n d). reflexivity. }
    rewrite Hxe.
    assert (Hd0 : 0 < inject_Z (Z.pos d)) by (unfold Qlt; simpl; lia).
    set (N := inject_Z n) in *. set (D := inject_Z (Z.pos d)) in *.
    apply Qle_shift_div_l; [assumption|].
    assert (P3 : 0 < A * / B).
    { apply Qmult_lt_0_compat; [assumption|]. now apply Qinv_lt_0_compat. }
    apply Qle_trans with (A * / B * B).
    + apply Qmult_le_l; assumption.
    + assert (E2 : A * / B * B == A) by (field; lra).
      rewrite E2. exact H1.
Qed.

Lemma rnd_nonneg (x : Q) : 0 <= x -> 0 <= rnd x.
Proof.
  intros Hx. unfold rnd.
  destruct (Qeq_bool x 0); [apply Qle_refl|].
  rewrite Qred_correct.
  apply Qmult_le_0_compat; [|apply Qlt_le_weak, pow2_pos].
  change 0 with (inject_Z 0). rewrite <- Zle_Qle.
  apply Qrne_ge. simpl.
  apply Qmult_le_0_compat; [assumption|apply Qlt_le_weak, pow2_pos].
Qed.

Lemma Qabs_nonneg_eq (x : Q) : 0 <= x -> Qabs x = x.
Proof.
  destruct x as [n d]. unfold Qle, Qabs. cbn [Qnum Qden]. intros H.
  f_equal. apply Z.abs_eq. lia.
Qed.

Lemma ulp_exp_low (x : Q) : 0 < x -> 2 ^ 52 * 2 ^ ulp_exp x <= x.
Proof.
  intros Hx. unfold ulp_exp. rewrite (Qabs_nonneg_eq (x := x)) by lra.
  rewrite <- Qpower_plus by discriminate.
  replace (52 + (Qilog2 x - 52))%Z with (Qilog2 x) by lia.
  now apply Qilog2_low.
Qed.

Lemma ulp_exp_nonpos (x : Q) (z : Z) :
  0 < x -> x <= inject_Z z -> (z < 2 ^ 53)%Z -> (ulp_exp x <= 0)%Z.
Proof.
  intros Hx Hz Hb.
  pose proof (ulp_exp_low Hx) as H.
  destruct (Z_le_gt_dec (ulp_exp x) 0) as [|Hgt]; [assumption|exfalso].
  assert (H1 : 2 ^ 1 <= 2 ^ ulp_exp x).
  { apply Qpower_le_compat_l; [lia|lra]. }
  assert (H2 : inject_Z z < inject_Z (2 ^ 53)) by (rewrite <- Zlt_Qlt; assumption).
  change (inject_Z (2 ^ 53)) with (2 ^ 52 * 2 ^ 1) in H2.
  set (U := 2 ^ ulp_exp x) in *.
  assert (H3 : 2 ^ 52 * 2 ^ 1 <= 2 ^ 52 * U).
  { apply Qmult_le_l; [reflexivity|assumption]. }
  lra.
Qed.

Lemma rnd_le_Z (x : Q) (z : Z) :
  0 <= x -> x <= inject_Z z -> (z < 2 ^ 53)%Z -> rnd x <= inject_Z z.
Proof.
  intros Hx Hz Hb. unfold rnd.
  destruct (Qeq_bool x 0) eqn:E0.
  - apply Qeq_bool_eq in E0. lra.
  - apply Qeq_bool_neq in E0.
    assert (Hpos : 0 < x) by lra.
    pose proof (ulp_exp_nonpos Hpos Hz Hb) as He.
    set (e := ulp_exp x) in *.
    rewrite Qred_correct.
    assert (Hk : x * 2 ^ (- e) <= inject_Z (z * 2 ^ (- e))).
    { rewrite inject_Z_mult, <- pow2_nonneg_exp by lia.
      apply Qmult_le_compat_r; [assumption|apply Qlt_le_weak, pow2_pos]. }
    apply Qrne_le in Hk.
    rewrite Zle_Qle, inject_Z_mult, <- pow2_nonneg_exp in Hk by lia.
    pose proof (pow2_pos e) as Pe.
    pose proof (pow2_cancel e) as Pc.
    set (m := inject_Z (Qrne (x * 2 ^ (- e)))) in *.
    apply Qle_trans with (inject_Z z * 2 ^ (- e) * 2 ^ e).
    + apply Qmult_le_compat_r; [assumption|lra].
    + rewrite <- Qmult_assoc, Pc. lra.
Qed.

Lemma rnd_ge_Z (x : Q) (z : Z) :
  0 < x -> inject_Z z <= x -> (x <= inject_Z (2 ^ 53 - 1)) -> inject_Z z <= rnd x.
Proof.
  intros Hx Hz Hb. unfold rnd.
  destruct (Qeq_bool x 0) eqn:E0.
  - apply Qeq_bool_eq in E0. lra.
  - pose proof (@ulp_exp_nonpos x (2 ^ 53 - 1) Hx Hb ltac:(lia)) as He.
    set (e := ulp_exp x) in *.
    rewrite Qred_correct.
    assert (Hk : inject_Z (z * 2 ^ (- e)) <= x * 2 ^ (- e)).
    { rewrite inject_Z_mult, <- pow2_nonneg_exp by lia.
      apply Qmult_le_compat_r; [assumption|apply Qlt_le_weak, pow2_pos]. }
    apply Qrne_ge in Hk.
    rewrite Zle_Qle, inject_Z_mult, <- pow2_nonneg_exp in Hk by lia.
    pose proof (pow2_pos e) as Pe.
    pose proof (pow2_cancel e) as Pc.
    set (m := inject_Z (Qrne (x * 2 ^ (- e)))) in *.
    apply Qle_trans with (inject_Z z * 2 ^ (- e) * 2 ^ e).
    + rewrite <- Qmult_assoc, Pc. lra.
    + apply Qmult_le_compat_r; [assumption|lra].
Qed.

Lemma rnd_canon (x : Q) : Qred (rnd x) = rnd x.
Proof.
  unfold rnd. destruct (Qeq_bool x 0); [reflexivity|apply Qred_involutive].
Qed.

Lemma rnd_Z (z : Z) : (0 <= z < 2 ^ 53)%Z -> rnd (inject_Z z) = inject_Z z.
Proof.
  intros [H0 H1].
  assert (E : rnd (inject_Z z) == inject_Z z).
  { destruct (Z.eq_dec z 0) as [->|Hz]; [reflexivity|].
    apply Qle_antisym.
    - apply rnd_le_Z; [ change 0 with (inject_Z 0); rewrite <- Zle_Qle; lia | apply Qle_refl | assumption ].
    - apply rnd_ge_Z; [ change 0 with (inject_Z 0); rewrite <- Zlt_Qlt; lia | apply Qle_refl | rewrite <- Zle_Qle; lia ]. }
  rewrite <- rnd_canon, (Qred_complete _ _ E).
  apply Qred_identity. simpl. apply Z.gcd_1_r.
Qed.

Lemma rnd_rel_err (x : Q) : 0 <= x -> Qabs (rnd x - x) <= x * (1 # 2 ^ 53).
Proof.
  intros Hx. unfold rnd.
  destruct (Qeq_bool x 0) eqn:E0.
  - apply Qeq_bool_eq in E0. rewrite E0. discriminate.
  - apply Qeq_bool_neq in E0.
    assert (Hpos : 0 < x) by lra.
    pose proof (ulp_exp_low Hpos) as Hl.
    set (e := ulp_exp x) in *.
    rewrite Qred_correct.
    pose proof (Qrne_err (x * 2 ^ (- e))) as He.
    pose proof (pow2_pos e) as Pe.
    pose proof (pow2_cancel e) as Pc.
    set (m := inject_Z (Qrne (x * 2 ^ (- e)))) in *.
    set (U := 2 ^ e) in *. set (V := 2 ^ (- e)) in *.
    assert (E1 : m * U - x == (m - x * V) * U).
    { transitivity (m * U - x * (V * U)); [rewrite Pc; ring|ring]. }
    rewrite E1, Qabs_Qmult, (Qabs_pos U) by lra.
    apply Qle_trans with ((1 # 2) * U).
    + apply Qmult_le_compat_r; [assumption|lra].
    + change (2 ^ 52) with (4503599627370496 # 1) in Hl.
      change (1 # 2 ^ 53) with (1 # 9007199254740992). lra.
Qed.

Lemma rnd_zero (x : Q) : x == 0 -> rnd x = 0.
Proof.
  intros H. unfold rnd. now rewrite (Qeq_eq_bool _ _ H).
Qed.

Lemma Qrne_mono (s t : Q) : s <= t -> (Qrne s <= Qrne t)%Z.
Proof.
  intros H. unfold Qle in H. unfold Qrne.
  set (a := Qnum s) in *. set (b := Z.pos (Qden s)) in *.
  set (a' := Qnum t) in *. set (b' := Z.pos (Qden t)) in *.
  assert (Hb : (0 < b)%Z) by (unfold b; lia).
  assert (Hb' : (0 < b')%Z) by (unfold b'; lia).
  pose proof (Z.div_mod a b ltac:(lia)) as Hdm.
  pose proof (Z.mod_pos_bound a b Hb) as Hr.
  pose proof (Z.div_mod a' b' ltac:(lia)) as Hdm'.
  pose proof (Z.mod_pos_bound a' b' Hb') as Hr'.
  set (q := (a / b)%Z) in *. set (r := (a mod b)%Z) in *.
  set (q' := (a' / b')%Z) in *. set (r' := (a' mod b')%Z) in *.
  assert (Hq : (q <= q')%Z).
  { destruct (Z_le_gt_dec q q') as [|Hgt]; [assumption|exfalso].
    assert (F1 : (b * b' * (q' + 1) <= b * b' * q)%Z)
      by (apply Z.mul_le_mono_nonneg_l; nia).
    assert (F2 : (r' * b < b' * b)%Z) by nia.
    assert (F3 : (0 <= r * b')%Z) by nia.
    rewrite Hdm, Hdm' in H. nia. }
  destruct (Z.eq_dec q q') as [Eq|Nq].
  - assert (Hrr : (r * b' <= r' * b)%Z).
    { rewrite Hdm, Hdm', <- Eq in H. nia. }
    rewrite <- Eq.
    destruct (Z.compare_spec (2 * r) b) as [E|E|E];
      destruct (Z.compare_spec (2 * r') b') as [E'|E'|E'];
      destruct (Z.even q); try lia; nia.
  - destruct (Z.compare_spec (2 * r) b) as [E|E|E];
      destruct (Z.compare_spec (2 * r') b') as [E'|E'|E'];
      destruct (Z.even q); destruct (Z.even q'); lia.
Qed.

Lemma Qilog2_high (x : Q) : 0 < x -> x < 2 ^ (Qilog2 x + 1).
Proof.
  intros Hx.
  assert (Hk : x < 2 ^ (Z.log2 (Qnum x) - Z.log2 (Z.pos (Qden x)) + 1)).
  { destruct x as [n d]. cbn [Qnum Qden] in *.
    assert (Hn : (0 < n)%Z) by (unfold Qlt in Hx; simpl in Hx; lia).
    pose proof (Z.log2_spec n Hn) as [_ Hn2].
    pose proof (Z.log2_spec (Z.pos d) ltac:(lia)) as [Hd1 _].
    pose proof (Z.log2_nonneg n) as Ln.
    pose proof (Z.log2_nonneg (Z.pos d)) as Ld.
    assert (H1 : inject_Z n < inject_Z (2 ^ Z.succ (Z.log2 n)))
      by (rewrite <- Zlt_Qlt; lia).
    assert (H2 : inject_Z (2 ^ Z.log2 (Z.pos d)) <= inject_Z (Z.pos d))
      by (rewrite <- Zle_Qle; lia).
    rewrite <- !pow2_nonneg_exp in H1, H2 by lia.
    replace (Z.log2 n - Z.log2 (Z.pos d) + 1)%Z
      with (Z.succ (Z.log2 n) + - Z.log2 (Z.pos d))%Z by lia.
    rewrite Qpower_plus by discriminate. rewrite Qpower_opp.
    pose proof (pow2_pos (Z.succ (Z.log2 n))) as P1.
    pose proof (pow2_pos (Z.log2 (Z.pos d))) as P2.
    set (A := 2 ^ Z.succ (Z.log2 n)) in *. set (B := 2 ^ Z.log2 (Z.pos d)) in *.
    rewrite (Qmake_Qdiv n d).
    assert (Hd0 : 0 < inject_Z (Z.pos d)) by (unfold Qlt; simpl; lia).
    set (N := inject_Z n) in *. set (D := inject_Z (Z.pos d)) in *.
    apply Qlt_shift_div_r; [assumption|].
    assert (P3 : 0 < A * / B).
    { apply Qmult_lt_0_compat; [assumption|]. now apply Qinv_lt_0_compat. }
    apply Qlt_le_trans with (A * / B * B).
    - assert (E2 : A * / B * B == A) by (field; lra). rewrite E2. exact H1.
    - apply Qmult_le_l; assumption. }
  unfold Qilog2.
  set (k := (Z.log2 (Qnum x) - Z.log2 (Z.pos (Qden x)))%Z) in *.
  destruct (Qle_bool (2 ^ k) x) eqn:E; [exact Hk|].
  replace (k - 1 + 1)%Z with k by lia.
  apply Qnot_le_lt. intros Hc. apply Qle_bool_iff in Hc. congruence.
Qed.

Lemma ulp_exp_high (x : Q) : 0 < x -> x < 2 ^ 53 * 2 ^ ulp_exp x.
Proof.
  intros Hx. unfold ulp_exp. rewrite (Qabs_nonneg_eq (x := x)) by lra.
  rewrite <- Qpower_plus by discriminate.
  replace (53 + (Qilog2 x - 52))%Z with (Qilog2 x + 1)%Z by lia.
  now apply Qilog2_high.
Qed.

Lemma ulp_exp_mono (x y : Q) : 0 < x -> x <= y -> (ulp_exp x <= ulp_exp y)%Z.
Proof.
  intros Hx Hxy.
  pose proof (ulp_exp_low Hx) as Hl.
  assert (Hy : 0 < y) by lra.
  pose proof (ulp_exp_high Hy) as Hh.
  assert (H : 2 ^ 52 * 2 ^ ulp_exp x < 2 ^ 53 * 2 ^ ulp_exp y) by lra.
  rewrite <- !Qpower_plus in H by discriminate.
  apply Qpower_lt_compat_l_inv in H; [lia|reflexivity].
Qed.

Lemma rnd_pos_eq (x : Q) :
  0 < x -> rnd x == inject_Z (Qrne (x * 2 ^ (- ulp_exp x))) * 2 ^ ulp_exp x.
Proof.
  intros Hx. unfold rnd.
  destruct (Qeq_bool x 0) eqn:E0; [apply Qeq_bool_eq in E0; lra|].
  apply Qred_correct.
Qed.

Lemma rnd_mono (x y : Q) : 0 <= x -> x <= y -> rnd x <= rnd y.
Proof.
  intros Hx Hxy.
  destruct (Qeq_dec x 0) as [Ex|Ex].
  - rewrite (rnd_zero Ex). apply rnd_nonneg. lra.
  - assert (Hx0 : 0 < x) by lra. assert (Hy0 : 0 < y) by lra.
    rewrite (rnd_pos_eq Hx0), (rnd_pos_eq Hy0).
    pose proof (ulp_exp_mono Hx0 Hxy) as He.
    pose proof (pow2_pos (ulp_exp x)) as Px.
    pose proof (pow2_pos (ulp_exp y)) as Py.
    pose proof (pow2_pos (- ulp_exp x)) as Pnx.
    pose proof (pow2_pos (- ulp_exp y)) as Pny.
    destruct (Z.eq_dec (ulp_exp x) (ulp_exp y)) as [Ee|Ne].
    + rewrite <- Ee.
      apply Qmult_le_compat_r; [|lra].
      rewrite <- Zle_Qle. apply Qrne_mono.
      apply Qmult_le_compat_r; [assumption|lra].
    + assert (Hm : inject_Z (Qrne (x * 2 ^ (- ulp_exp x))) <= inject_Z (2 ^ 53)).
      { rewrite <- Zle_Qle. apply Qrne_le.
        pose proof (ulp_exp_high Hx0) as Hh.
        pose proof (pow2_cancel (ulp_exp x)) as Pc.
        set (U := 2 ^ ulp_exp x) in *. set (V := 2 ^ (- ulp_exp x)) in *.
        change (inject_Z (2 ^ 53)) with (2 ^ 53).
        assert (H1 : x * V <= 2 ^ 53 * U * V).
        { apply Qmult_le_compat_r; lra. }
        assert (H2 : 2 ^ 53 * U * V == 2 ^ 53).
        { rewrite <- Qmult_assoc, (Qmult_comm U V), Pc. ring. }
        lra. }
      assert (Hm' : inject_Z (2 ^ 52) <= inject_Z (Qrne (y * 2 ^ (- ulp_exp y)))).
      { rewrite <- Zle_Qle. apply Qrne_ge.
        pose proof (ulp_exp_low Hy0) as Hl.
        pose proof (pow2_cancel (ulp_exp y)) as Pc.
        set (U := 2 ^ ulp_exp y) in *. set (V := 2 ^ (- ulp_exp y)) in *.
        change (inject_Z (2 ^ 52)) with (2 ^ 52).
        assert (H1 : 2 ^ 52 * U * V <= y * V).
        { apply Qmult_le_compat_r; lra. }
        assert (H2 : 2 ^ 52 * U * V == 2 ^ 52).
        { rewrite <- Qmult_assoc, (Qmult_comm U V), Pc. ring. }
        lra. }
      assert (Hp : 2 ^ 53 * 2 ^ ulp_exp x <= 2 ^ 52 * 2 ^ ulp_exp y).
      { rewrite <- !Qpower_plus by discriminate.
        apply Qpower_le_compat_l; [lia|lra]. }
      change (inject_Z (2 ^ 53)) with (2 ^ 53) in Hm.
      change (inject_Z (2 ^ 52)) with (2 ^ 52) in Hm'.
      set (mx := inject_Z (Qrne (x * 2 ^ (- ulp_exp x)))) in *.
      set (my := inject_Z (Qrne (y * 2 ^ (- ulp_exp y)))) in *.
      set (Ux := 2 ^ ulp_exp x) in *. set (Uy := 2 ^ ulp_exp y) in *.
      apply Qle_trans with (2 ^ 53 * Ux).
      * apply Qmult_le_compat_r; lra.
      * apply Qle_trans with (2 ^ 52 * Uy); [exact Hp|].
        apply Qmult_le_compat_r; lra.
Qed.

(** A positive value is rounded to a significand of 53 bits on the grid of
    its binade, at most half a unit in the last place away. *)
Lemma rnd_binary64 (x : Q) :
  0 < x ->
  exists m : Z,
    rnd x == inject_Z m * 2 ^ ulp_exp x
    /\ (2 ^ 52 <= m <= 2 ^ 53)%Z
    /\ Qabs (rnd x - x) <= (1 # 2) * 2 ^ ulp_exp x.
Proof.
  intros Hx. exists (Qrne (x * 2 ^ (- ulp_exp x))).
  pose proof (rnd_pos_eq Hx) as He.
  pose proof (ulp_exp_low Hx) as Hl.
  pose proof (ulp_exp_high Hx) as Hh.
  pose proof (pow2_pos (ulp_exp x)) as Pu.
  pose proof (pow2_pos (- ulp_exp x)) as Pv.
  pose proof (pow2_cancel (ulp_exp x)) as Pc.
  pose proof (Qrne_err (x * 2 ^ (- ulp_exp x))) as Hr.
  set (U := 2 ^ ulp_exp x) in *. set (V := 2 ^ (- ulp_exp x)) in *.
  assert (H52 : 2 ^ 52 * U * V == 2 ^ 52).
  { rewrite <- Qmult_assoc, (Qmult_comm U V), Pc. ring. }
  assert (H53 : 2 ^ 53 * U * V == 2 ^ 53).
  { rewrite <- Qmult_assoc, (Qmult_comm U V), Pc. ring. }
  assert (L1 : 2 ^ 52 * U * V <= x * V) by (apply Qmult_le_compat_r; lra).
  assert (L2 : x * V <= 2 ^ 53 * U * V) by (apply Qmult_le_compat_r; lra).
  split; [exact He|]. split.
  - split.
    + apply Qrne_ge. change (inject_Z (2 ^ 52)) with (2 ^ 52). lra.
    + apply Qrne_le. change (inject_Z (2 ^ 53)) with (2 ^ 53). lra.
  - rewrite He.
    set (m := inject_Z (Qrne (x * V))) in *.
    assert (E1 : m * U - x == (m - x * V) * U).
    { transitivity (m * U - x * (V * U)); [rewrite Pc; ring|ring]. }
    rewrite E1, Qabs_Qmult, (Qabs_pos U) by lra.
    apply Qmult_le_compat_r; [assumption|lra].
Qed.

End FloatFacts.

Import FloatFacts.

(** ** The error monad and the frames *)

Lemma mapM_map_ok {A B C : Type} (f : B -> result C) (g : A -> B) (h : A -> C)
      (l : list A) :
  (forall a, In a l -> f (g a) = Ok (h a)) -> mapM f (map g l) = Ok (map h l).
Proof.
  induction l as [|a l IH]; intros H; simpl; [reflexivity|].
  rewrite (H a) by (now left). simpl.
  rewrite IH by (intros b Hb; apply H; now right). reflexivity.
Qed.

Lemma mapM_length {A B : Type} (f : A -> result B) (l : list A) (l' : list B) :
  mapM f l = Ok l' -> List.length l' = List.length l.
Proof.
  revert l'. induction l as [|a l IH]; intros l' H; simpl in H.
  - injection H as <-. reflexivity.
  - destruct (f a); simpl in H; [|discriminate].
    destruct (mapM f l) as [bs|]; simpl in H; [|discriminate].
    injection H as <-. simpl. f_equal. now apply IH.
Qed.

Lemma getitem_length (df : DataFrame) (c : string) (l : list cell) :
  getitem df c = Ok l -> List.length l = len df.
Proof.
  unfold getitem, len. destruct (has_column df c); [|discriminate].
  intros H. injection H as <-. apply length_map.
Qed.

Lemma getitem_has_column (df : DataFrame) (c : string) (l : list cell) :
  getitem df c = Ok l -> has_column df c = true /\ map (field c) (records df) = l.
Proof.
  unfold getitem. destruct (has_column df c); [|discriminate].
  intros H. injection H as <-. split; reflexivity.
Qed.

Lemma field_set_field (c : string) (v : cell) (r : list (string * cell)) :
  field c (set_field c v r) = v.
Proof.
  unfold field. induction r as [|[k w] r IH]; simpl.
  - now rewrite String.eqb_refl.
  - destruct (String.eqb k c) eqn:E; simpl.
    + now rewrite String.eqb_refl.
    + rewrite E. exact IH.
Qed.

Lemma field_set_field_other (c d : string) (v : cell) (r : list (string * cell)) :
  String.eqb c d = false -> field d (set_field c v r) = field d r.
Proof.
  intros Hcd. unfold field. induction r as [|[k w] r IH]; simpl.
  - now rewrite Hcd.
  - destruct (String.eqb k c) eqn:E; simpl.
    + apply String.eqb_eq in E. subst k. now rewrite Hcd.
    + destruct (String.eqb k d); [reflexivity|exact IH].
Qed.

Lemma existsb_app_last (c d : string) (l : list string) :
  existsb (String.eqb c) (l ++ [d]) = existsb (String.eqb c) l || String.eqb c d.
Proof. rewrite existsb_app. simpl. now rewrite orb_false_r. Qed.

Lemma has_column_setitem_same (df : DataFrame) (c : string) (vals : list cell) :
  has_column (setitem df c vals) c = true.
Proof.
  unfold has_column at 1, setitem. cbn [columns].
  destruct (has_column df c) eqn:E; [exact E|].
  rewrite existsb_app_last, String.eqb_refl. apply orb_true_r.
Qed.

Lemma records_setitem (df : DataFrame) (c : string) (vals : list cell) :
  List.length vals = len df ->
  map (field c) (records (setitem df c vals)) = vals.
Proof.
  unfold len, setitem. cbn [records].
  generalize (records df) as rs. intros rs. revert vals.
  induction rs as [|r rs IH]; intros [|v vals] H; simpl in *; try discriminate;
    [reflexivity|].
  rewrite field_set_field. f_equal. apply IH. lia.
Qed.

Lemma getitem_setitem_same (df : DataFrame) (c : string) (vals : list cell) :
  List.length vals = len df -> getitem (setitem df c vals) c = Ok vals.
Proof.
  intros H. unfold getitem.
  rewrite has_column_setitem_same, records_setitem by assumption. reflexivity.
Qed.

Lemma len_setitem (df : DataFrame) (c : string) (vals : list cell) :
  List.length vals = len df -> len (setitem df c vals) = len df.
Proof.
  intros H. unfold len, setitem in *. cbn [records].
  rewrite length_map, length_combine. lia.
Qed.

Lemma len_boolean_index {A : Type} (df : DataFrame) (p : A -> bool) (l : list A) :
  List.length l = len df ->
  len (boolean_index df (map p l)) = List.length (filter p l).
Proof.
  unfold len, boolean_index. cbn [records].
  generalize (records df) as rs. intros rs. revert l.
  induction rs as [|r rs IH]; intros [|a l] H; simpl in *; try discriminate;
    [reflexivity|].
  destruct (p a); simpl; rewrite IH by lia; reflexivity.
Qed.

Lemma length_filter_le {A : Type} (p : A -> bool) (l : list A) :
  (List.length (filter p l) <= List.length l)%nat.
Proof.
  induction l as [|a l IH]; simpl; [lia|]. destruct (p a); simpl; lia.
Qed.

Lemma filter_map_length {A B : Type} (p : B -> bool) (g : A -> B) (l : list A) :
  List.length (filter p (map g l)) = List.length (filter (fun a => p (g a)) l).
Proof.
  induction l as [|a l IH]; simpl; [reflexivity|].
  destruct (p (g a)); simpl; now rewrite IH.
Qed.

Lemma series_eq_map {A : Type} (f g : A -> cell) (l : list A) :
  series_eq (map f l) (map g l) = map (fun a => cell_eqb (f a) (g a)) l.
Proof.
  unfold series_eq. induction l as [|a l IH]; simpl; [reflexivity|].
  now rewrite IH.
Qed.

Lemma cell_eqb_code (a b : station_code) :
  cell_eqb (cell_of_code a) (cell_of_code b) = code_eqb a b.
Proof. destruct a, b; reflexivity. Qed.

(** ** The statistics on a frame of trips *)

Lemma filter_present_of_Z (l : list Z) :
  filter (fun f => negb (is_nan f)) (map of_Z l) = map of_Z l.
Proof. induction l as [|z l IH]; simpl; [reflexivity|now rewrite IH]. Qed.

Lemma series_mean_ints (l : list Z) :
  l <> [] -> series_mean (map VInt l) = Ok (moyenne l).
Proof.
  intros Hl. unfold series_mean.
  rewrite (mapM_map_ok numeric VInt of_Z) by reflexivity. simpl.
  rewrite filter_present_of_Z. unfold moyenne.
  destruct l as [|z l]; [congruence|].
  simpl map. cbv iota. cbn [List.length]. now rewrite length_map.
Qed.

Lemma dt_hour_times {A : Type} (f : A -> Z) (l : list A) :
  dt_hour (map (fun a => VTime (f a)) l) = Ok (map (fun a => VInt (hour_of (f a))) l).
Proof. unfold dt_hour. now apply mapM_map_ok. Qed.

Lemma pd_cut_ints {A : Type} (f : A -> Z) (l : list A) :
  pd_cut (map (fun a => VInt (f a)) l) bins labels true
  = Ok (map (fun a => cut_value bins labels true (inject_Z (f a))) l).
Proof. unfold pd_cut. now apply mapM_map_ok. Qed.

Lemma statistiques_trips (gdf : GeoDataFrame) (df : DataFrame) (ts : list Trip) :
  trips_of df ts -> ts <> [] -> statistiques gdf df = Ok (resultats_de gdf ts).
Proof.
  intros (Hsd & Hsc & Hec & Hd & Hm) Hne.
  assert (Hlen : List.length ts = len df).
  { apply getitem_length in Hd. now rewrite length_map in Hd. }
  unfold statistiques.
  rewrite Hd. cbn [bind].
  replace (map (fun t => VInt (duration_sec t)) ts)
    with (map VInt (map duration_sec ts)) by (now rewrite map_map).
  rewrite series_mean_ints by (destruct ts; [congruence|discriminate]).
  cbn [bind]. rewrite Hsc, Hec. cbn [bind].
  rewrite series_eq_map, len_boolean_index by assumption.
  rewrite <- Hlen.
  unfold py_truediv. destruct ts as [|t0 ts'] eqn:Ets; [congruence|].
  rewrite <- Ets in *. 
  replace (List.length ts) with (S (List.length ts')) at 1 by (subst ts; reflexivity).
  cbn [bind]. rewrite Hm. cbn [bind].
  unfold series_eq_int. rewrite !map_map, !len_boolean_index by assumption.
  rewrite Hsd. cbn [bind]. rewrite dt_hour_times. cbn [bind].
  rewrite getitem_setitem_same by (rewrite length_map; assumption).
  cbn [bind]. rewrite pd_cut_ints. cbn [bind].
  rewrite getitem_setitem_same
    by (rewrite length_map, len_setitem; rewrite ?length_map; assumption).
  cbn [bind].
  rewrite len_setitem
    by (rewrite length_map, len_setitem; rewrite ?length_map; assumption).
  rewrite len_setitem by (rewrite length_map; assumption).
  rewrite <- Hlen.
  rewrite (filter_ext _ est_boucle (fun t => cell_eqb_code _ _)).
  unfold value_counts. rewrite map_map. cbn [fst snd].
  rewrite (map_ext _ (fun lab => (lab, pourcentage (nb_periode lab ts) (List.length ts))))
    by (intros lab; unfold pourcentage, nb_periode, periode;
        now rewrite filter_map_length).
  subst ts. reflexivity.
Qed.

(** ** Hours and buckets *)

Lemma hour_of_range (ns : Z) : (0 <= hour_of ns <= 23)%Z.
Proof.
  unfold hour_of. pose proof (Z.mod_pos_bound (ns / ns_per_hour) 24). lia.
Qed.

Lemma cut_value_hour (h : Z) :
  (0 <= h <= 23)%Z -> cut_value bins labels true (inject_Z h) = VStr (etiquette h).
Proof.
  intros Hh.
  assert (Hin : In h (map Z.of_nat (seq 0 24))).
  { apply in_map_iff. exists (Z.to_nat h). split; [lia|].
    apply in_seq. lia. }
  simpl in Hin.
  repeat (destruct Hin as [<-|Hin]; [reflexivity|]). contradiction.
Qed.

Lemma periode_etiquette (t : Trip) :
  periode t = VStr (etiquette (hour_of (start_date t))).
Proof. unfold periode. apply cut_value_hour, hour_of_range. Qed.

Lemma length_filter_cons {A : Type} (p : A -> bool) (a : A) (l : list A) :
  List.length (filter p (a :: l))
  = ((if p a then 1 else 0) + List.length (filter p l))%nat.
Proof. simpl. destruct (p a); reflexivity. Qed.

Lemma nb_periode_total (ts : list Trip) :
  (nb_periode "0h-6h" ts + nb_periode "6h-12h" ts
   + nb_periode "12h-18h" ts + nb_periode "18h-24h" ts = List.length ts)%nat.
Proof.
  unfold nb_periode. induction ts as [|t ts IH]; [reflexivity|].
  rewrite !length_filter_cons. cbn [List.length].
  revert IH.
  generalize (List.length (filter (fun t => cell_eqb (VStr "0h-6h") (periode t)) ts)).
  generalize (List.length (filter (fun t => cell_eqb (VStr "6h-12h") (periode t)) ts)).
  generalize (List.length (filter (fun t => cell_eqb (VStr "12h-18h") (periode t)) ts)).
  generalize (List.length (filter (fun t => cell_eqb (VStr "18h-24h") (periode t)) ts)).
  intros n4 n3 n2 n1 IH.
  rewrite periode_etiquette. unfold etiquette.
  destruct (hour_of (start_date t) <=? 6)%Z;
    [|destruct (hour_of (start_date t) <=? 12)%Z;
      [|destruct (hour_of (start_date t) <=? 18)%Z]];
    cbn; lia.
Qed.

(** ** The dated rows of a column of start dates *)

Lemma dt_hour_inv (starts hours : list cell) :
  dt_hour starts = Ok hours ->
  hours = map heure_de starts
  /\ Forall (fun c => est_date c || est_sans_date c = true) starts.
Proof.
  unfold dt_hour. revert hours.
  induction starts as [|c l IH]; intros hours H; cbn [mapM] in H.
  - injection H as <-. split; [reflexivity|constructor].
  - destruct c; cbn [bind] in H; try discriminate;
      (destruct (mapM _ l) as [hs|] eqn:Hm; [|discriminate]);
      cbn [bind] in H; injection H as <-;
      destruct (IH hs eq_refl) as [-> HF];
      (split; [reflexivity|constructor; [reflexivity|exact HF]]).
Qed.

Lemma pd_cut_heures (starts : list cell) :
  Forall (fun c => est_date c || est_sans_date c = true) starts ->
  pd_cut (map heure_de starts) bins labels true = Ok (map periode_de starts).
Proof.
  unfold pd_cut. induction 1 as [|c l Hc _ IH]; [reflexivity|].
  cbn [map mapM]. rewrite IH.
  destruct c; try discriminate; cbn [heure_de periode_de cut_cell bind].
  - now rewrite (cut_value_hour (hour_of_range ns)).
  - reflexivity.
Qed.

Lemma count_periode_de (lab : string) (starts : list cell) :
  List.length (filter (cell_eqb (VStr lab)) (map periode_de starts))
  = dates_dans lab starts.
Proof.
  unfold dates_dans. rewrite filter_map_length. f_equal.
  apply filter_ext. intros c. destruct c; reflexivity.
Qed.

Lemma dates_dans_total (starts : list cell) :
  (dates_dans "0h-6h" starts + dates_dans "6h-12h" starts
   + dates_dans "12h-18h" starts + dates_dans "18h-24h" starts
   = nb_dates starts)%nat.
Proof.
  unfold dates_dans, nb_dates. induction starts as [|c l IH]; [reflexivity|].
  rewrite !length_filter_cons. revert IH.
  generalize (List.length (filter est_date l)).
  generalize (List.length
                (filter (fun c => match c with
                                  | VTime ns => String.eqb "0h-6h" (etiquette (hour_of ns))
                                  | _ => false end) l)).
  generalize (List.length
                (filter (fun c => match c with
                                  | VTime ns => String.eqb "6h-12h" (etiquette (hour_of ns))
                                  | _ => false end) l)).
  generalize (List.length
                (filter (fun c => match c with
                                  | VTime ns => String.eqb "12h-18h" (etiquette (hour_of ns))
                                  | _ => false end) l)).
  generalize (List.length
                (filter (fun c => match c with
                                  | VTime ns => String.eqb "18h-24h" (etiquette (hour_of ns))
                                  | _ => false end) l)).
  intros n4 n3 n2 n1 n IH.
  destruct c as [z|f|s|ns|]; cbn [est_date]; try lia.
  unfold etiquette.
  destruct (hour_of ns <=? 6)%Z;
    [|destruct (hour_of ns <=? 12)%Z; [|destruct (hour_of ns <=? 18)%Z]];
    cbn; lia.
Qed.

Lemma nb_dates_sans_date (starts : list cell) :
  Forall (fun c => est_date c || est_sans_date c = true) starts ->
  (nb_dates starts + nb_sans_date starts = List.length starts)%nat.
Proof.
  unfold nb_dates, nb_sans_date. induction 1 as [|c l Hc _ IH]; [reflexivity|].
  rewrite !length_filter_cons. cbn [List.length].
  destruct c; try discriminate; cbn [est_date est_sans_date]; lia.
Qed.

Lemma statistiques_repartition (gdf : GeoDataFrame) (df : DataFrame)
      (r : resultats) (starts : list cell) :
  statistiques gdf df = Ok r ->
  getitem df "start_date" = Ok starts ->
  Forall (fun c => est_date c || est_sans_date c = true) starts
  /\ repartition_periodes r
     = map (fun lab => (lab, pourcentage (dates_dans lab starts) (len df))) labels.
Proof.
  unfold statistiques. intros H Hsd.
  destruct (getitem df "duration_sec") as [d|]; [|discriminate]. cbn [bind] in H.
  destruct (series_mean d) as [m|]; [|discriminate]. cbn [bind] in H.
  destruct (getitem df "start_station_code") as [sc|]; [|discriminate].
  cbn [bind] in H.
  destruct (getitem df "end_station_code") as [ec|]; [|discriminate].
  cbn [bind] in H.
  destruct (py_truediv _ _) as [p|]; [|discriminate]. cbn [bind] in H.
  destruct (getitem df "is_member") as [im|]; [|discriminate]. cbn [bind] in H.
  rewrite Hsd in H. cbn [bind] in H.
  destruct (dt_hour starts) as [hours|] eqn:Hh; [|discriminate]. cbn [bind] in H.
  destruct (dt_hour_inv _ Hh) as [-> HF].
  assert (L : List.length starts = len df) by exact (getitem_length _ _ Hsd).
  rewrite getitem_setitem_same in H by (now rewrite length_map).
  cbn [bind] in H. rewrite (pd_cut_heures HF) in H. cbn [bind] in H.
  rewrite getitem_setitem_same in H
    by (rewrite length_map, len_setitem; rewrite ?length_map; assumption).
  cbn [bind] in H.
  rewrite len_setitem in H
    by (rewrite length_map, len_setitem; rewrite ?length_map; assumption).
  rewrite len_setitem in H by (now rewrite length_map).
  injection H as <-. split; [exact HF|].
  cbn [repartition_periodes]. rewrite !count_periode_de. reflexivity.
Qed.

(** ** Percentages *)

Local Open Scope Q_scope.

Lemma of_Z_100 : of_Z 100 = Fin 100.
Proof. reflexivity. Qed.

Lemma of_Z_60 : of_Z 60 = Fin 60.
Proof. reflexivity. Qed.

Lemma of_nat_exact (n : nat) :
  (Z.of_nat n < 2 ^ 53)%Z -> of_nat n = Fin (inject_Z (Z.of_nat n)).
Proof.
  intros H. unfold of_nat, of_Z. rewrite rnd_Z by lia. reflexivity.
Qed.

Lemma ratio_bounds (c n : nat) : (0 < n)%nat -> (c <= n)%nat -> 0 <= ratio c n <= 1.
Proof.
  intros Hn Hc. unfold ratio.
  assert (Hn' : 0 < inject_Z (Z.of_nat n)).
  { change 0 with (inject_Z 0). rewrite <- Zlt_Qlt. lia. }
  assert (Hc0 : 0 <= inject_Z (Z.of_nat c)).
  { change 0 with (inject_Z 0). rewrite <- Zle_Qle. lia. }
  assert (Hcn : inject_Z (Z.of_nat c) <= inject_Z (Z.of_nat n)).
  { rewrite <- Zle_Qle. lia. }
  split.
  - apply Qle_shift_div_l; [assumption|]. lra.
  - apply Qle_shift_div_r; [assumption|]. lra.
Qed.

(** [rnd (rnd r * 100)] for a proportion [r]: within [0, 100], and within a
    thousandth of [r] of [100 * r]. *)
Lemma percent_bounds (r : Q) :
  0 <= r <= 1 ->
  let v := rnd (rnd r * 100) in
  0 <= v <= 100 /\ Qabs (v - 100 * r) <= r * (1 # 1000).
Proof.
  intros [H0 H1]. cbv zeta.
  pose proof (rnd_nonneg H0) as Y0.
  pose proof (@rnd_le_Z r 1 H0 H1 ltac:(lia)) as Y1.
  change (inject_Z 1) with 1 in Y1.
  pose proof (rnd_rel_err H0) as Ey.
  apply Qabs_Qle_condition in Ey.
  set (y := rnd r) in *.
  assert (P0 : 0 <= y * 100) by lra.
  assert (P1 : y * 100 <= inject_Z 100) by (change (inject_Z 100) with 100; lra).
  pose proof (rnd_nonneg P0) as V0.
  pose proof (@rnd_le_Z (y * 100) 100 P0 P1 ltac:(lia)) as V1.
  change (inject_Z 100) with 100 in V1.
  pose proof (rnd_rel_err P0) as Ev.
  apply Qabs_Qle_condition in Ev.
  set (v := rnd (y * 100)) in *.
  change (1 # 2 ^ 53) with (1 # 9007199254740992) in *.
  split; [lra|].
  apply Qabs_Qle_condition. lra.
Qed.

Lemma rnd_one : rnd 1 = 1.
Proof. reflexivity. Qed.

(** The quotient of two rounded values against the exact quotient. *)
Lemma quotient_error (C N a b : Q) :
  0 <= C -> C <= N -> 1 <= N ->
  Qabs (a - C) <= C * (1 # 2 ^ 53) -> Qabs (b - N) <= N * (1 # 2 ^ 53) ->
  Qabs (a / b - C / N) <= 4 # 2 ^ 53.
Proof.
  intros HC HCN HN Ea Eb.
  apply Qabs_Qle_condition in Ea. apply Qabs_Qle_condition in Eb.
  change (1 # 2 ^ 53) with (1 # 9007199254740992) in *.
  change (4 # 2 ^ 53) with (4 # 9007199254740992).
  assert (Hb : 0 < b) by lra.
  assert (HbN : 0 < b * N) by (apply Qmult_lt_0_compat; lra).
  assert (Hkey : (a / b - C / N) * (b * N) == a * N - C * b) by (field; lra).
  assert (F1 : 0 <= C * N) by (apply Qmult_le_0_compat; lra).
  assert (F2 : C * N <= N * N) by (apply Qmult_le_compat_r; lra).
  assert (F3 : (N - N * (1 # 9007199254740992)) * N <= b * N)
    by (apply Qmult_le_compat_r; lra).
  assert (F4 : a * N <= (C + C * (1 # 9007199254740992)) * N)
    by (apply Qmult_le_compat_r; lra).
  assert (F5 : (C - C * (1 # 9007199254740992)) * N <= a * N)
    by (apply Qmult_le_compat_r; lra).
  assert (F6 : C * b <= C * (N + N * (1 # 9007199254740992))).
  { rewrite !(Qmult_comm C). apply Qmult_le_compat_r; lra. }
  assert (F7 : C * (N - N * (1 # 9007199254740992)) <= C * b).
  { rewrite !(Qmult_comm C). apply Qmult_le_compat_r; lra. }
  assert (G1 : (C + C * (1 # 9007199254740992)) * N
               == C * N + (1 # 9007199254740992) * (C * N)) by ring.
  assert (G2 : (C - C * (1 # 9007199254740992)) * N
               == C * N - (1 # 9007199254740992) * (C * N)) by ring.
  assert (G3 : C * (N + N * (1 # 9007199254740992))
               == C * N + (1 # 9007199254740992) * (C * N)) by ring.
  assert (G4 : C * (N - N * (1 # 9007199254740992))
               == C * N - (1 # 9007199254740992) * (C * N)) by ring.
  assert (G5 : (N - N * (1 # 9007199254740992)) * N
               == N * N - (1 # 9007199254740992) * (N * N)) by ring.
  rewrite G1 in F4. rewrite G2 in F5. rewrite G3 in F6. rewrite G4 in F7.
  rewrite G5 in F3.
  set (CN := C * N) in *. set (NN := N * N) in *.
  set (bN := b * N) in *. set (aN := a * N) in *. set (Cb := C * b) in *.
  set (d := a / b - C / N) in *.
  assert (Hup : d * bN <= (4 # 9007199254740992) * bN) by lra.
  assert (Hlo : (- (4 # 9007199254740992)) * bN <= d * bN) by lra.
  apply Qmult_le_r in Hup; [|assumption].
  apply Qmult_le_r in Hlo; [|assumption].
  apply Qabs_Qle_condition. lra.
Qed.

(** [(count / total) * 100] as numpy computes it on integer counts: both
    converted to float64, divided, and the quotient multiplied by 100. *)
Lemma pourcentage_bounds (c n : nat) :
  (0 < n)%nat -> (c <= n)%nat ->
  exists v, pourcentage c n = Fin v
            /\ 0 <= v <= 100
            /\ Qabs (v - 100 * ratio c n) <= 1 # 1000.
Proof.
  intros Hn Hc. unfold pourcentage, of_nat, of_Z, ratio.
  set (C := inject_Z (Z.of_nat c)). set (N := inject_Z (Z.of_nat n)).
  assert (HC : 0 <= C).
  { unfold C. change 0 with (inject_Z 0). rewrite <- Zle_Qle. lia. }
  assert (HCN : C <= N) by (unfold C, N; rewrite <- Zle_Qle; lia).
  assert (HN : 1 <= N).
  { unfold N. change 1 with (inject_Z 1). rewrite <- Zle_Qle. lia. }
  pose proof (rnd_nonneg HC) as Ha0.
  pose proof (rnd_mono HC HCN) as Hab.
  assert (Hb1 : 1 <= rnd N).
  { rewrite <- rnd_one at 1. apply rnd_mono; lra. }
  pose proof (rnd_rel_err HC) as Ea.
  pose proof (@rnd_rel_err N ltac:(lra)) as Eb.
  pose proof (quotient_error HC HCN HN Ea Eb) as Ew.
  change (rnd (inject_Z 100)) with 100.
  set (a := rnd C) in *. set (b := rnd N) in *.
  cbn [fdiv].
  destruct (Qeq_bool b 0) eqn:E0; [apply Qeq_bool_eq in E0; lra|].
  cbn [fmul].
  assert (Hw0 : 0 <= a / b) by (apply Qle_shift_div_l; lra).
  assert (Hw1 : a / b <= 1) by (apply Qle_shift_div_r; lra).
  set (w := a / b) in *.
  pose proof (rnd_nonneg Hw0) as Y0.
  pose proof (@rnd_le_Z w 1 Hw0 Hw1 ltac:(lia)) as Y1.
  change (inject_Z 1) with 1 in Y1.
  pose proof (rnd_rel_err Hw0) as Ey.
  set (y := rnd w) in *.
  assert (P0 : 0 <= y * 100) by lra.
  assert (P1 : y * 100 <= inject_Z 100) by (change (inject_Z 100) with 100; lra).
  pose proof (rnd_nonneg P0) as V0.
  pose proof (@rnd_le_Z (y * 100) 100 P0 P1 ltac:(lia)) as V1.
  change (inject_Z 100) with 100 in V1.
  pose proof (rnd_rel_err P0) as Ev.
  exists (rnd (y * 100)). split; [reflexivity|]. split; [lra|].
  set (v := rnd (y * 100)) in *. set (rho := C / N) in *.
  apply Qabs_Qle_condition in Ew, Ey, Ev.
  change (1 # 2 ^ 53) with (1 # 9007199254740992) in *.
  change (4 # 2 ^ 53) with (4 # 9007199254740992) in *.
  apply Qabs_Qle_condition. lra.
Qed.

(** [(a / b) * 100] as Python computes it on two integers: the quotient is
    rounded once. *)
Lemma proportion_bounds (c n : nat) :
  (0 < n)%nat -> (c <= n)%nat ->
  let v := rnd (rnd (ratio c n) * 100) in
  0 <= v <= 100 /\ Qabs (v - 100 * ratio c n) <= 1 # 1000.
Proof.
  intros Hn Hc. cbv zeta.
  pose proof (ratio_bounds Hn Hc) as Hr.
  destruct (percent_bounds Hr) as [Hv He]. cbv zeta in Hv, He.
  split; [exact Hv|]. eapply Qle_trans; [exact He|]. lra.
Qed.

Local Close Scope Q_scope.

(** ** The year selection *)

Lemma In_insert_sorted (x y : string) (l : list string) :
  In x (insert_sorted y l) <-> x = y \/ In x l.
Proof.
  induction l as [|z l IH]; simpl.
  - intuition congruence.
  - destruct (String.leb y z); simpl; [intuition congruence|].
    rewrite IH. intuition congruence.
Qed.

Lemma In_sort (x : string) (l : list string) : In x (sort l) <-> In x l.
Proof.
  unfold sort. induction l as [|y l IH]; simpl; [reflexivity|].
  rewrite In_insert_sorted, IH. intuition congruence.
Qed.

Lemma list_index_In (x : string) (l : list string) :
  In x l -> exists i, list_index x l = Ok i /\ nth_error l i = Some x.
Proof.
  induction l as [|y l IH]; simpl; [contradiction|].
  intros H. destruct (String.eqb y x) eqn:E.
  - apply String.eqb_eq in E. subst y. exists O. split; reflexivity.
  - destruct H as [H|H]; [subst y; now rewrite String.eqb_refl in E|].
    destruct (IH H) as (i & Hi & Hn). exists (S i). rewrite Hi. split; [reflexivity|exact Hn].
Qed.

Lemma list_index_not_In (x : string) (l : list string) :
  ~ In x l -> list_index x l = Raise (Exn ValueError ("'" ++ x ++ "' is not in list")).
Proof.
  induction l as [|y l IH]; simpl; [reflexivity|].
  intros H. destruct (String.eqb y x) eqn:E.
  - apply String.eqb_eq in E. subst y. exfalso. apply H. now left.
  - rewrite IH by (intros Hx; apply H; now right). reflexivity.
Qed.

Lemma lookup_In {A : Type} (k : string) (l : list (string * A)) (v : A) :
  lookup k l = Some v -> In k (map fst l).
Proof.
  induction l as [|[k' w] l IH]; simpl; [discriminate|].
  destruct (String.eqb k' k) eqn:E.
  - apply String.eqb_eq in E. now left.
  - intros H. right. now apply IH.
Qed.

(** A name is offered as a year exactly when it is a directory of
    [./bixis]. *)
Lemma annees_disponibles_spec (cwd : node) (annees : list string) (d : string) :
  annees_disponibles cwd = Ok annees ->
  (In d annees <-> os_path_isdir cwd (chemin_bixis ++ [d]) = true).
Proof.
  unfold annees_disponibles.
  destruct (os_listdir cwd chemin_bixis) as [noms|] eqn:El; [|discriminate].
  cbn [bind]. intros H. injection H as <-.
  rewrite In_sort, filter_In.
  split; [intros [_ H]; exact H|]. intros H. split; [|exact H].
  revert El H. unfold os_listdir, os_path_isdir, chemin_bixis.
  cbn [app resolve].
  destruct cwd as [text|es]; [discriminate|].
  destruct (lookup "bixis" es) as [[text|ys]|]; try discriminate.
  intros El. injection El as <-.
  destruct (lookup d ys) as [n|] eqn:Ed; [|discriminate].
  intros _. exact (lookup_In _ _ Ed).
Qed.

Lemma annee_selectionnee_present (cwd : node) (annees : list string) :
  annees_disponibles cwd = Ok annees -> In "2014" annees ->
  annee_selectionnee cwd = Ok "2014".
Proof.
  intros Ha Hin. unfold annee_selectionnee. rewrite Ha. cbn [bind].
  destruct (list_index_In _ _ Hin) as (i & Hi & Hn).
  rewrite Hi. cbn [bind]. unfold st_selectbox. now rewrite Hn.
Qed.

Lemma annee_selectionnee_absent (cwd : node) (annees : list string) :
  annees_disponibles cwd = Ok annees -> ~ In "2014" annees ->
  annee_selectionnee cwd = Raise (Exn ValueError "'2014' is not in list").
Proof.
  intros Ha Hin. unfold annee_selectionnee. rewrite Ha. cbn [bind].
  rewrite list_index_not_In by assumption. reflexivity.
Qed.

(** ** The stations and the map *)

Section MapFacts.

Context {E : Externals}.

Lemma creer_carte_markers (gdf : GeoDataFrame) (ms : list CircleMarker) :
  mapM (marqueur gdf) (combine (records (frame gdf)) (geometry gdf)) = Ok ms ->
  creer_carte gdf = Ok (carte_de ms).
Proof. intros H. unfold creer_carte. rewrite H. reflexivity. Qed.

Lemma validate_location_ok (lat lon : float64) :
  negb (is_nan lat) && negb (is_nan lon) = true ->
  validate_location (lat, lon) = Ok (lat, lon).
Proof.
  unfold validate_location. cbn [fst snd].
  destruct (is_nan lat), (is_nan lon); simpl; intros H;
    first [discriminate|reflexivity].
Qed.

Lemma validate_location_nan (lat lon : float64) :
  negb (is_nan lat) && negb (is_nan lon) = false ->
  validate_location (lat, lon)
  = Raise (Exn ValueError "Location values cannot contain NaNs.").
Proof.
  unfold validate_location. cbn [fst snd].
  destruct (is_nan lat), (is_nan lon); simpl; intros H;
    first [discriminate|reflexivity].
Qed.

Lemma marqueurs_stations (gdf : GeoDataFrame) (ss : list Station) :
  geo_stations_of gdf ss ->
  forallb a_ses_coordonnees ss = true ->
  mapM (marqueur gdf) (combine (records (frame gdf)) (geometry gdf))
  = Ok (map marqueur_de ss).
Proof.
  intros [Hn Hg]. apply getitem_has_column in Hn. destruct Hn as [Hc Hn].
  rewrite Hg. clear Hg. revert Hn. generalize (records (frame gdf)) as rs.
  induction ss as [|s ss IH]; intros [|r rs] Hn Hv; simpl in Hn; try discriminate;
    [reflexivity|].
  injection Hn as Hr Hrs. cbn [forallb] in Hv.
  apply andb_true_iff in Hv. destruct Hv as [Hs Hv].
  cbn [map combine mapM].
  unfold marqueur at 1. unfold row_getitem. rewrite Hc. cbn [bind fst snd].
  cbn [point_of_station px py].
  rewrite (validate_location_ok _ _ Hs). cbn [bind].
  rewrite Hr, py_str_VStr. rewrite (IH rs Hrs Hv). reflexivity.
Qed.

Lemma attacher_geometrie_stations (df : DataFrame) (ss : list Station) :
  stations_of df ss ->
  attacher_geometrie df
  = Ok {| frame := df; geometry := map point_of_station ss |}.
Proof.
  intros (Hn & Hlat & Hlon). unfold attacher_geometrie.
  rewrite Hlon, Hlat. cbn [bind].
  assert (Hg : mapM point_of
                 (combine (map (fun s => VFloat (longitude s)) ss)
                          (map (fun s => VFloat (latitude s)) ss))
               = Ok (map point_of_station ss)).
  { clear. induction ss as [|s ss IH]; [reflexivity|].
    cbn [map combine mapM]. rewrite IH. reflexivity. }
  rewrite Hg. reflexivity.
Qed.

End MapFacts.

(** ** Reading the files of a year without trip files *)

Section LoadFacts.

Context {E : Externals}.
Variable cwd : node.

Lemma charger_donnees_ok (annee : string) (gdf : GeoDataFrame) (df : DataFrame)
      (ts : list Trip) :
  charger_fichiers cwd annee = Ok (gdf, df) -> trips_of df ts -> ts <> [] ->
  charger_donnees cwd annee = (Some (resultats_de gdf ts), []).
Proof.
  intros Hf Ht Hne. unfold charger_donnees, charger_corps.
  rewrite Hf. cbn [bind fst snd]. now rewrite (statistiques_trips gdf Ht Hne).
Qed.

Lemma charger_fichiers_sans_trajets (annee : string) (df : DataFrame)
      (gdf : GeoDataFrame) (noms : list string) :
  charger_stations cwd ((chemin_bixis ++ [annee])
                        ++ [("Stations_" ++ annee ++ ".csv")%string]) = Ok df ->
  attacher_geometrie df = Ok gdf ->
  os_listdir cwd (chemin_bixis ++ [annee]) = Ok noms ->
  filter est_fichier_trajets noms = [] ->
  charger_fichiers cwd annee
  = Raise (Exn ValueError "No objects to concatenate").
Proof.
  intros Hs Hg Hl Hf. unfold charger_fichiers.
  rewrite Hs. cbn [bind]. rewrite Hg. cbn [bind]. rewrite Hl. cbn [bind].
  rewrite Hf. reflexivity.
Qed.

End LoadFacts.

Lemma code_eqb_eq (a b : station_code) : code_eqb a b = true <-> a = b.
Proof.
  destruct a, b; simpl; split; intros H; try discriminate.
  - apply Z.eqb_eq in H. now subst.
  - injection H as ->. apply Z.eqb_refl.
  - apply String.eqb_eq in H. now subst.
  - injection H as ->. apply String.eqb_refl.
Qed.

Lemma trips_of_frame_of_trips (ts : list Trip) : trips_of (frame_of_trips ts) ts.
Proof.
  unfold trips_of, getitem, frame_of_trips. cbn.
  rewrite !map_map. repeat split; reflexivity.
Qed.

Lemma stations_of_frame_of_stations (ss : list Station) :
  stations_of (frame_of_stations ss) ss.
Proof.
  unfold stations_of, getitem, frame_of_stations. cbn.
  rewrite !map_map. repeat split; reflexivity.
Qed.

(** ** The reference reader on a semicolon-delimited file *)

Lemma split_on_absent (c : ascii) (s : string) :
  contains_char c s = false -> Reference.split_on c s = [s].
Proof.
  induction s as [|d s IH]; simpl; [reflexivity|].
  intros H. apply orb_false_iff in H. destruct H as [Hd Hs].
  rewrite (IH Hs). rewrite Ascii.eqb_sym in Hd. now rewrite Hd.
Qed.

Lemma split_on_nonempty (c : ascii) (s : string) : Reference.split_on c s <> [].
Proof.
  destruct s as [|d s]; simpl; [discriminate|].
  destruct (Reference.split_on c s); [discriminate|].
  destruct (Ascii.eqb d c); discriminate.
Qed.

Lemma contains_char_split (c d : ascii) (s l : string) :
  In l (Reference.split_on c s) -> contains_char d l = true ->
  contains_char d s = true.
Proof.
  revert l. induction s as [|x s IH]; simpl; intros l Hin Hl.
  - destruct Hin as [<-|[]]. discriminate.
  - destruct (Reference.split_on c s) as [|w ws] eqn:Es;
      [now destruct (split_on_nonempty c s)|].
    destruct (Ascii.eqb x c).
    + destruct Hin as [<-|Hin]; [discriminate|].
      rewrite (IH l Hin Hl). apply orb_true_r.
    + destruct Hin as [<-|Hin].
      * simpl in Hl. apply orb_true_iff in Hl. destruct Hl as [Hl|Hl].
        -- rewrite Hl. reflexivity.
        -- rewrite (IH w (or_introl eq_refl) Hl). apply orb_true_r.
      * rewrite (IH l (or_intror Hin) Hl). apply orb_true_r.
Qed.

(** With the reference reader, a file that holds no comma and whose header
    holds a semicolon is read in two attempts as it is read directly with the
    semicolon. *)
Lemma reference_semicolon_file (cwd : node) (p : path) (text h : string)
      (ls : list string) :
  read_text cwd p = Ok text ->
  filter (fun l => negb (Reference.is_empty l))
         (Reference.split_on Reference.newline text) = h :: ls ->
  contains_char "," text = false ->
  contains_char ";" h = true ->
  charger_stations cwd p = Reference.parse_csv ";" text.
Proof.
  intros Hr Hl Hc Hh.
  assert (Hline : forall l, In l (h :: ls) -> contains_char "," l = false).
  { intros l Hin. rewrite <- Hl in Hin. apply filter_In in Hin.
    destruct Hin as [Hin _].
    destruct (contains_char "," l) eqn:El; [|reflexivity].
    rewrite (contains_char_split _ _ _ _ Hin El) in Hc. discriminate. }
  assert (Hrows : map (Reference.split_on ",") ls = map (fun l => [l]) ls).
  { apply map_ext_in. intros l Hin. apply split_on_absent, Hline. now right. }
  unfold charger_stations, pd_read_csv. rewrite Hr. cbn [bind].
  change (parse_csv "," text) with (Reference.parse_csv "," text).
  change (parse_csv ";" text) with (Reference.parse_csv ";" text).
  unfold Reference.parse_csv at 1. unfold Reference.read_table.
  rewrite Hl, Hrows, (split_on_absent _ _ (Hline h (or_introl eq_refl))).
  assert (Hf : forallb (fun r : list string => (List.length r <=? List.length [h])%nat)
                       (map (fun l => [l]) ls) = true).
  { apply forallb_forall. intros r Hin. apply in_map_iff in Hin.
    destruct Hin as (l & <- & _). reflexivity. }
  rewrite Hf. cbn [bind fst snd].
  change (columns (Reference.frame_of_table [h] (map (fun l => [l]) ls)))
    with [h].
  cbn [List.length Nat.eqb hd andb]. now rewrite Hh.
Qed.

(** * Properties of the program *)

(** C1. The bucket of a trip is computed by [pd.cut] with bins
    [0, 6, 12, 18, 24], closed on the right: a trip starting at 06:30 has
    hour 6 and is given the bucket labelled "0h-6h", and the hours 12 and 18
    are given "6h-12h" and "12h-18h", the buckets whose upper edge they are;
    on the sample year the trip of 06:30 is counted in "0h-6h" and none in
    "6h-12h". *)
Theorem C1_boundary_hours_fall_in_lower_bucket :
  dt_hour [VTime 1397543400000000000] = Ok [VInt 6]
  /\ pd_cut [VInt 6; VInt 12; VInt 18] bins labels true
     = Ok [VStr "0h-6h"; VStr "6h-12h"; VStr "12h-18h"]
  /\ pd_cut [VInt 0; VInt 23] bins labels true
     = Ok [VStr "0h-6h"; VStr "18h-24h"]
  /\ option_map repartition_periodes (fst (charger_donnees cwd_2014 "2014"))
     = Some [ ("0h-6h", Fin 100); ("6h-12h", Fin 0);
              ("12h-18h", Fin 0); ("18h-24h", Fin 0) ].
Proof. repeat split; vm_compute; reflexivity. Qed.

(** C2, counterexample. For the sample year without trip files the body of
    [charger_donnees] raises the [ValueError] of [pd.concat], not an error of
    its own, and the value returned is the one returned when the station file
    is missing: the caller cannot tell the two failures apart. *)
Lemma C2_no_distinct_error :
  charger_corps cwd_sans_trajets "2014"
  = Raise (Exn ValueError "No objects to concatenate")
  /\ fst (charger_donnees cwd_sans_trajets "2014") = None
  /\ fst (charger_donnees cwd_sans_trajets "2014")
     = fst (charger_donnees cwd_sans_stations "2014").
Proof. repeat split; vm_compute; reflexivity. Qed.

(** C2, amended. For every year whose station file is read and given its
    geometry and whose directory holds no trip file, [pd.concat] raises
    "No objects to concatenate"; [charger_donnees] shows that message through
    [st.error] and returns [None]: neither a crash nor a result. *)
Theorem C2_no_trip_files_reported `{E : Externals} (cwd : node) (annee : string)
        (df : DataFrame) (gdf : GeoDataFrame) (noms : list string) :
  charger_stations cwd ((chemin_bixis ++ [annee])
                        ++ [("Stations_" ++ annee ++ ".csv")%string]) = Ok df ->
  attacher_geometrie df = Ok gdf ->
  os_listdir cwd (chemin_bixis ++ [annee]) = Ok noms ->
  (forall f, In f noms -> est_fichier_trajets f = false) ->
  charger_corps cwd annee = Raise (Exn ValueError "No objects to concatenate")
  /\ charger_donnees cwd annee
     = (None,
        [StError "Erreur lors du chargement des données: No objects to concatenate"]).
Proof.
  intros Hs Hg Hl Hf.
  assert (Hnil : filter est_fichier_trajets noms = []).
  { clear Hl. induction noms as [|f l IH]; [reflexivity|]. simpl.
    rewrite (Hf f) by (now left). apply IH. intros g Hg'. apply Hf. now right. }
  assert (Hc : charger_corps cwd annee
               = Raise (Exn ValueError "No objects to concatenate")).
  { unfold charger_corps.
    now rewrite (charger_fichiers_sans_trajets cwd annee Hs Hg Hl Hnil). }
  split; [exact Hc|]. unfold charger_donnees. rewrite Hc. reflexivity.
Qed.

Lemma C2_no_trip_files_reported_witness :
  charger_stations cwd_sans_trajets ((chemin_bixis ++ ["2014"]) ++ ["Stations_2014.csv"])
  = Ok (frame_of_stations stations_2014)
  /\ attacher_geometrie (frame_of_stations stations_2014) = Ok gdf_2014
  /\ os_listdir cwd_sans_trajets (chemin_bixis ++ ["2014"]) = Ok ["Stations_2014.csv"]
  /\ est_fichier_trajets "Stations_2014.csv" = false
  /\ charger_donnees cwd_sans_trajets "2014"
     = (None,
        [StError "Erreur lors du chargement des données: No objects to concatenate"]).
Proof.
  assert (H1 : charger_stations cwd_sans_trajets
                 ((chemin_bixis ++ ["2014"]) ++ ["Stations_2014.csv"])
               = Ok (frame_of_stations stations_2014)) by (vm_compute; reflexivity).
  assert (H2 : attacher_geometrie (frame_of_stations stations_2014) = Ok gdf_2014)
    by (vm_compute; reflexivity).
  assert (H3 : os_listdir cwd_sans_trajets (chemin_bixis ++ ["2014"])
               = Ok ["Stations_2014.csv"]) by reflexivity.
  assert (H4 : est_fichier_trajets "Stations_2014.csv" = false) by reflexivity.
  repeat (split; [assumption|]).
  refine (proj2 (@C2_no_trip_files_reported reference cwd_sans_trajets "2014"
                   (frame_of_stations stations_2014) gdf_2014
                   ["Stations_2014.csv"] H1 H2 H3 _)).
  intros f [<-|[]]. exact H4.
Defined.

(** C3, counterexample. When [./bixis] holds the year 2015 only, the lookup
    of the preferred year raises and no year is selected. *)
Lemma C3_lookup_fails_without_2014 :
  annees_disponibles cwd_2015 = Ok ["2015"]
  /\ annee_selectionnee cwd_2015 = Raise (Exn ValueError "'2014' is not in list").
Proof. split; vm_compute; reflexivity. Qed.

(** C3, amended. The year selected when the page is first drawn is 2014
    whenever [./bixis/2014] is a directory; when it is not, [list.index]
    raises [ValueError] and [main], which has no handler, selects nothing. *)
Theorem C3_default_year (cwd : node) (annees : list string) :
  annees_disponibles cwd = Ok annees ->
  (os_path_isdir cwd (chemin_bixis ++ ["2014"]) = true ->
   In "2014" annees /\ annee_selectionnee cwd = Ok "2014")
  /\ (os_path_isdir cwd (chemin_bixis ++ ["2014"]) = false ->
      annee_selectionnee cwd = Raise (Exn ValueError "'2014' is not in list")).
Proof.
  intros Ha. pose proof (annees_disponibles_spec cwd "2014" Ha) as Hs. split.
  - intros Hd. apply Hs in Hd. split; [exact Hd|].
    exact (annee_selectionnee_present cwd Ha Hd).
  - intros Hd. apply (annee_selectionnee_absent cwd Ha).
    intros Hin. apply Hs in Hin. congruence.
Qed.

Lemma C3_default_year_witness :
  annees_disponibles cwd_2014 = Ok ["2014"]
  /\ os_path_isdir cwd_2014 (chemin_bixis ++ ["2014"]) = true
  /\ annee_selectionnee cwd_2014 = Ok "2014".
Proof.
  assert (Ha : annees_disponibles cwd_2014 = Ok ["2014"]) by (vm_compute; reflexivity).
  assert (Hd : os_path_isdir cwd_2014 (chemin_bixis ++ ["2014"]) = true)
    by reflexivity.
  split; [exact Ha|]. split; [exact Hd|].
  exact (proj2 (proj1 (C3_default_year cwd_2014 Ha) Hd)).
Defined.

(** C4. When the station file read with the default separator gives a single
    column whose label holds a semicolon, the two-attempt read of
    [charger_donnees] returns what the direct read of the same file with the
    semicolon as separator returns: the same columns and the same cells (and
    the same error when that read fails). *)
Theorem C4_two_attempt_parse `{E : Externals} (cwd : node) (p : path)
        (df1 : DataFrame) (h : string) :
  pd_read_csv cwd p "," = Ok df1 ->
  columns df1 = [h] ->
  contains_char ";" h = true ->
  charger_stations cwd p = lecture_point_virgule cwd p
  /\ forall df, lecture_point_virgule cwd p = Ok df ->
                exists df', charger_stations cwd p = Ok df'
                            /\ List.length (columns df') = List.length (columns df)
                            /\ columns df' = columns df
                            /\ records df' = records df.
Proof.
  intros H1 Hc Hh.
  assert (Heq : charger_stations cwd p = lecture_point_virgule cwd p).
  { unfold charger_stations, lecture_point_virgule.
    rewrite H1. cbn [bind]. rewrite Hc. cbn [List.length hd Nat.eqb andb].
    now rewrite Hh. }
  split; [exact Heq|]. intros df Hdf. rewrite Heq.
  exists df. repeat split. exact Hdf.
Qed.

Lemma C4_two_attempt_parse_witness :
  let p := ["bixis"; "2014"; "Stations_2014.csv"] in
  let df1 :=
    {| columns := ["code;name;latitude;longitude"];
       records :=
         [ [("code;name;latitude;longitude",
             VStr "6001;Metcalfe / Square Dorchester;45.5;-73.5703125")];
           [("code;name;latitude;longitude",
             VStr "6002;Parc Jeanne-Mance;45.515625;-73.59375")] ] |} in
  pd_read_csv cwd_point_virgule p "," = Ok df1
  /\ contains_char ";" "code;name;latitude;longitude" = true
  /\ charger_stations cwd_point_virgule p = lecture_point_virgule cwd_point_virgule p
  /\ charger_stations cwd_point_virgule p = Ok (frame_of_stations stations_2014).
Proof.
  intros p df1.
  assert (H1 : pd_read_csv cwd_point_virgule p "," = Ok df1)
    by (vm_compute; reflexivity).
  assert (H2 : contains_char ";" "code;name;latitude;longitude" = true)
    by reflexivity.
  split; [exact H1|]. split; [exact H2|].
  split; [|vm_compute; reflexivity].
  exact (proj1 (@C4_two_attempt_parse reference cwd_point_virgule p df1
                  "code;name;latitude;longitude" H1 eq_refl H2)).
Defined.

Lemma ratio_sum4 (c1 c2 c3 c4 n : nat) :
  (0 < n)%nat -> (c1 + c2 + c3 + c4 = n)%nat ->
  (ratio c1 n + ratio c2 n + ratio c3 n + ratio c4 n == 1)%Q.
Proof.
  intros Hn Hs. unfold ratio.
  assert (Hd : (0 < inject_Z (Z.of_nat n))%Q).
  { change 0%Q with (inject_Z 0). rewrite <- Zlt_Qlt. lia. }
  assert (Hq : (inject_Z (Z.of_nat c1) + inject_Z (Z.of_nat c2)
                + inject_Z (Z.of_nat c3) + inject_Z (Z.of_nat c4)
                == inject_Z (Z.of_nat n))%Q).
  { rewrite <- !inject_Z_plus. apply inject_Z_injective. lia. }
  set (d := inject_Z (Z.of_nat n)) in *.
  set (a1 := inject_Z (Z.of_nat c1)) in *. set (a2 := inject_Z (Z.of_nat c2)) in *.
  set (a3 := inject_Z (Z.of_nat c3)) in *. set (a4 := inject_Z (Z.of_nat c4)) in *.
  transitivity ((a1 + a2 + a3 + a4) / d)%Q; [field; lra|].
  rewrite Hq. field. lra.
Qed.

Lemma nb_periode_le (lab : string) (ts : list Trip) :
  (nb_periode lab ts <= List.length ts)%nat.
Proof. apply length_filter_le. Qed.

Lemma fsum4_error (v1 v2 v3 v4 : Q) :
  (0 <= v1 <= 100 -> 0 <= v2 <= 100 -> 0 <= v3 <= 100 -> 0 <= v4 <= 100 ->
   Qabs (rnd (rnd (rnd (rnd (0 + v1) + v2) + v3) + v4) - (v1 + v2 + v3 + v4))
   <= 1 # 1000)%Q.
Proof.
  intros H1 H2 H3 H4.
  assert (P1 : (0 <= 0 + v1)%Q) by lra.
  pose proof (rnd_nonneg P1) as N1. pose proof (rnd_rel_err P1) as E1.
  set (s1 := rnd (0 + v1)) in *.
  assert (P2 : (0 <= s1 + v2)%Q) by lra.
  pose proof (rnd_nonneg P2) as N2. pose proof (rnd_rel_err P2) as E2.
  set (s2 := rnd (s1 + v2)) in *.
  assert (P3 : (0 <= s2 + v3)%Q) by lra.
  pose proof (rnd_nonneg P3) as N3. pose proof (rnd_rel_err P3) as E3.
  set (s3 := rnd (s2 + v3)) in *.
  assert (P4 : (0 <= s3 + v4)%Q) by lra.
  pose proof (rnd_rel_err P4) as E4.
  set (s4 := rnd (s3 + v4)) in *.
  apply Qabs_Qle_condition in E1, E2, E3, E4.
  change (1 # 2 ^ 53)%Q with (1 # 9007199254740992)%Q in *.
  apply Qabs_Qle_condition. lra.
Qed.

Lemma dans_heure_hour_of (ns h : Z) : dans_heure ns h -> hour_of ns = h.
Proof.
  intros [Hh [d Hd]]. unfold hour_of.
  assert (Hq : (ns / ns_per_hour = d * 24 + h)%Z).
  { symmetry. apply Z.div_unique with (r := (ns - (d * 24 + h) * ns_per_hour)%Z).
    - left. unfold ns_per_hour in *. lia.
    - ring. }
  rewrite Hq, Z.add_comm, Z.mod_add by lia. apply Z.mod_small. lia.
Qed.

Lemma dt_hour_debuts (debuts : list (option Z)) :
  dt_hour (map cell_of_debut debuts) = Ok (map heure_de (map cell_of_debut debuts)).
Proof.
  unfold dt_hour. rewrite map_map. apply mapM_map_ok.
  intros [ns|] _; reflexivity.
Qed.

Lemma debuts_dates_ou_manquants (debuts : list (option Z)) :
  Forall (fun c => est_date c || est_sans_date c = true) (map cell_of_debut debuts).
Proof.
  induction debuts as [|[ns|] l IH]; constructor; first [reflexivity|exact IH].
Qed.

(** The statistics are computed on every frame of trips that has a row, the
    start dates being there or not. *)
Lemma statistiques_debuts (gdf : GeoDataFrame) (df : DataFrame)
      (debuts : list (option Z)) (ts : list Trip) :
  trips_of_debuts df debuts ts -> ts <> [] ->
  List.length debuts = List.length ts
  /\ exists r, statistiques gdf df = Ok r.
Proof.
  intros (Hsd & Hsc & Hec & Hd & Hm) Hne.
  assert (Hlen : List.length ts = len df).
  { apply getitem_length in Hd. now rewrite length_map in Hd. }
  assert (Hld : List.length debuts = len df).
  { apply getitem_length in Hsd. now rewrite length_map in Hsd. }
  split; [congruence|].
  unfold statistiques.
  rewrite Hd. cbn [bind].
  replace (map (fun t => VInt (duration_sec t)) ts)
    with (map VInt (map duration_sec ts)) by (now rewrite map_map).
  rewrite series_mean_ints by (destruct ts; [congruence|discriminate]).
  cbn [bind]. rewrite Hsc, Hec. cbn [bind].
  unfold py_truediv.
  destruct (len df) as [|k] eqn:Ek;
    [destruct ts; [congruence|discriminate]|].
  cbn [bind]. rewrite Hm. cbn [bind]. rewrite Hsd. cbn [bind].
  rewrite dt_hour_debuts. cbn [bind].
  rewrite getitem_setitem_same by (rewrite !length_map; congruence).
  cbn [bind]. rewrite (pd_cut_heures (debuts_dates_ou_manquants debuts)).
  cbn [bind].
  rewrite getitem_setitem_same
    by (rewrite length_map, len_setitem; rewrite ?length_map; congruence).
  cbn [bind]. eexists. reflexivity.
Qed.

Lemma charger_donnees_statistiques `{E : Externals} (cwd : node) (annee : string)
      (gdf : GeoDataFrame) (df : DataFrame) (r : resultats) :
  charger_fichiers cwd annee = Ok (gdf, df) -> statistiques gdf df = Ok r ->
  charger_donnees cwd annee = (Some r, []).
Proof.
  intros Hf Hs. unfold charger_donnees, charger_corps.
  rewrite Hf. cbn [bind fst snd]. now rewrite Hs.
Qed.

(** The rows a label is given, counted on the hours of the starts. *)
Lemma dates_dans_heures (lab : string) (debuts hs : list (option Z)) :
  Forall2 heure_de_debut debuts hs ->
  dates_dans lab (map cell_of_debut debuts)
  = List.length
      (filter (fun h => match h with
                        | Some h => String.eqb lab (etiquette h)
                        | None => false
                        end) hs).
Proof.
  unfold dates_dans. induction 1 as [|d h l l' Hd _ IH]; [reflexivity|].
  cbn [map]. rewrite !length_filter_cons, IH. f_equal.
  destruct d as [ns|], h as [h|]; cbn in Hd; try contradiction; [|reflexivity].
  cbn [cell_of_debut]. now rewrite (dans_heure_hour_of Hd).
Qed.

Lemma heures_du_jour (debuts hs : list (option Z)) :
  Forall2 heure_de_debut debuts hs ->
  Forall (fun h => match h with
                   | Some h => (0 <= h < 24)%Z
                   | None => True
                   end) hs.
Proof.
  induction 1 as [|d h l l' Hd _ IH]; constructor; [|exact IH].
  destruct d as [ns|], h as [h|]; cbn in Hd; try contradiction; [|exact I].
  exact (proj1 Hd).
Qed.

Lemma length_filter_impl {A : Type} (P : A -> Prop) (p q : A -> bool) (l : list A) :
  Forall P l -> (forall x, P x -> p x = true -> q x = true) ->
  (List.length (filter p l) <= List.length (filter q l))%nat.
Proof.
  intros HF Hpq. induction HF as [|x l Hx _ IH]; [apply Nat.le_refl|].
  rewrite !length_filter_cons. specialize (Hpq x Hx).
  destruct (p x), (q x); cbn; lia.
Qed.

Lemma heure_parmi (h : Z) :
  (0 <= h < 24)%Z -> In h (map Z.of_nat (seq 0 24)).
Proof.
  intros Hh. apply in_map_iff. exists (Z.to_nat h). split; [lia|].
  apply in_seq. lia.
Qed.

(** The rows given a label are at least those of the hours strictly inside
    its bucket, and at most those of the hours of the bucket with its two
    edges. *)
Lemma etiquette_bornes (lab : string) (a' b' a b : Z) (hs : list (option Z)) :
  In (lab, (a', b'), (a, b))
     [ ("0h-6h", (0, 5), (0, 6)); ("6h-12h", (7, 11), (6, 12));
       ("12h-18h", (13, 17), (12, 18)); ("18h-24h", (19, 23), (18, 24)) ]%Z ->
  Forall (fun h => match h with
                   | Some h => (0 <= h < 24)%Z
                   | None => True
                   end) hs ->
  let c := List.length
             (filter (fun h => match h with
                               | Some h => String.eqb lab (etiquette h)
                               | None => false
                               end) hs) in
  (nb_heures a' b' hs <= c)%nat /\ (c <= nb_heures a b hs)%nat.
Proof.
  intros Hin HF. cbv zeta. unfold nb_heures.
  split; (eapply length_filter_impl; [exact HF|]);
    intros [h|] Hh; try discriminate;
    apply heure_parmi in Hh; cbn in Hh, Hin;
    repeat (destruct Hin as [Hin|Hin];
            [injection Hin as <- <- <- <- <-;
             repeat (destruct Hh as [<-|Hh]; [cbn; congruence|]);
             contradiction|]);
    contradiction.
Qed.

Lemma nb_dates_debuts (debuts : list (option Z)) :
  nb_dates (map cell_of_debut debuts) = List.length (filter a_un_debut debuts).
Proof.
  unfold nb_dates. rewrite filter_map_length. f_equal.
  apply filter_ext. intros [ns|]; reflexivity.
Qed.

Lemma filter_tous {A : Type} (p : A -> bool) (l : list A) :
  (forall x, In x l -> p x = true) -> filter p l = l.
Proof.
  induction l as [|a l IH]; intros H; [reflexivity|]. simpl.
  rewrite (H a) by (now left). f_equal. apply IH. intros x Hx. apply H. now right.
Qed.

Lemma ratio_add4 (c1 c2 c3 c4 n : nat) :
  (0 < n)%nat ->
  (ratio c1 n + ratio c2 n + ratio c3 n + ratio c4 n
   == ratio (c1 + c2 + c3 + c4) n)%Q.
Proof.
  intros Hn. unfold ratio.
  assert (Hd : (0 < inject_Z (Z.of_nat n))%Q).
  { change 0%Q with (inject_Z 0). rewrite <- Zlt_Qlt. lia. }
  rewrite !Nat2Z.inj_add, !inject_Z_plus.
  field. lra.
Qed.

Lemma ratio_tous (n : nat) : (0 < n)%nat -> (ratio n n == 1)%Q.
Proof.
  intros Hn. unfold ratio.
  assert (Hd : (0 < inject_Z (Z.of_nat n))%Q).
  { change 0%Q with (inject_Z 0). rewrite <- Zlt_Qlt. lia. }
  field. lra.
Qed.

(** C5, counterexample. The sample year of two trips, of which the second
    has no start date in its file, is analysed: the trip of 00:01 gives 50
    under "0h-6h", the other trip is in the total and under no label, and the
    four values sum to 50, not to 100 within 0.01. *)
Lemma C5_sum_is_50_with_a_missing_start :
  exists r,
    charger_donnees cwd_sans_date "2014" = (Some r, [])
    /\ membres r = 1%nat /\ occasionnels r = 1%nat
    /\ repartition_periodes r
       = [ ("0h-6h", Fin 50); ("6h-12h", Fin 0);
           ("12h-18h", Fin 0); ("18h-24h", Fin 0) ]
    /\ (somme (map snd (repartition_periodes r)) == 50)%Q
    /\ ~ (Qabs (somme (map snd (repartition_periodes r)) - 100) <= 1 # 100)%Q.
Proof.
  destruct (charger_donnees cwd_sans_date "2014") as [[r|] [|ev evs]] eqn:Hr;
    try (vm_compute in Hr; discriminate).
  exists r. split; [reflexivity|].
  vm_compute in Hr. injection Hr as <-.
  cbn [membres occasionnels repartition_periodes].
  repeat (split; [reflexivity|]).
  vm_compute. intros H. apply H. reflexivity.
Qed.

(** C5, amended. For every year with at least one trip, the period
    distribution holds, for each of the four labels, the float
    [(count / total) * 100] of the rows counted under that label, as computed
    and not normalised, where a row without a start date is in the total and
    under no label: the count of a label takes every row that starts in an
    hour strictly inside its bucket (and in hour 0 for the first), and no row
    outside the hours 0 to 6, 6 to 12, 12 to 18 or 18 to 23 of its bucket;
    the four counts add up to the number of rows with a start date.  Each
    value is finite, lies in [0, 100] and is within 0.001 of the exact
    [100 * count / total]; the four values sum, exactly or in float64, to
    [100 * dated / total] within 0.01, hence to 100 within 0.01 when every
    row has a start date. *)
Theorem C5_period_distribution `{E : Externals} (cwd : node) (annee : string)
        (gdf : GeoDataFrame) (df : DataFrame) (ts : list Trip)
        (debuts hs : list (option Z)) :
  charger_fichiers cwd annee = Ok (gdf, df) ->
  trips_of_debuts df debuts ts ->
  ts <> [] ->
  Forall2 heure_de_debut debuts hs ->
  let n := List.length ts in
  let dates := List.length (filter a_un_debut debuts) in
  exists r c1 c2 c3 c4,
    charger_donnees cwd annee = (Some r, [])
    /\ repartition_periodes r
       = [ ("0h-6h", fmul (fdiv (of_nat c1) (of_nat n)) (of_Z 100));
           ("6h-12h", fmul (fdiv (of_nat c2) (of_nat n)) (of_Z 100));
           ("12h-18h", fmul (fdiv (of_nat c3) (of_nat n)) (of_Z 100));
           ("18h-24h", fmul (fdiv (of_nat c4) (of_nat n)) (of_Z 100)) ]
    /\ (nb_heures 0 5 hs <= c1 <= nb_heures 0 6 hs)%nat
    /\ (nb_heures 7 11 hs <= c2 <= nb_heures 6 12 hs)%nat
    /\ (nb_heures 13 17 hs <= c3 <= nb_heures 12 18 hs)%nat
    /\ (nb_heures 19 23 hs <= c4 <= nb_heures 18 24 hs)%nat
    /\ (c1 + c2 + c3 + c4 = dates)%nat
    /\ (dates <= n)%nat
    /\ Forall2 (fun c lv => est_pourcentage c n (snd lv))
               [c1; c2; c3; c4] (repartition_periodes r)
    /\ (Qabs (somme (map snd (repartition_periodes r)) - 100 * ratio dates n)
        <= 1 # 100)%Q
    /\ (exists s, fold_left fadd (map snd (repartition_periodes r)) (Fin 0) = Fin s
                  /\ (Qabs (s - 100 * ratio dates n) <= 1 # 100)%Q)
    /\ ((forall d, In d debuts -> d <> None) ->
        (Qabs (somme (map snd (repartition_periodes r)) - 100) <= 1 # 100)%Q
        /\ exists s, fold_left fadd (map snd (repartition_periodes r)) (Fin 0) = Fin s
                     /\ (Qabs (s - 100) <= 1 # 100)%Q).
Proof.
  intros Hf Ht Hne Hh. cbv zeta.
  destruct (statistiques_debuts gdf Ht Hne) as [Hld [r Hs]].
  pose proof (proj1 Ht) as Hsd.
  destruct (statistiques_repartition _ _ Hs Hsd) as [_ Hrep].
  assert (Hlen : len df = List.length ts).
  { destruct Ht as (_ & _ & _ & Hd & _).
    apply getitem_length in Hd. now rewrite length_map in Hd. }
  rewrite Hlen in Hrep. unfold labels in Hrep. cbn [map] in Hrep.
  pose proof (heures_du_jour Hh) as Hj.
  pose proof (dates_dans_total (map cell_of_debut debuts)) as Htot.
  rewrite nb_dates_debuts in Htot.
  rewrite !(fun lab => dates_dans_heures lab Hh) in Hrep, Htot.
  pose proof (@etiquette_bornes "0h-6h" 0 5 0 6 hs ltac:(cbn; auto) Hj) as B1.
  pose proof (@etiquette_bornes "6h-12h" 7 11 6 12 hs ltac:(cbn; auto) Hj) as B2.
  pose proof (@etiquette_bornes "12h-18h" 13 17 12 18 hs ltac:(cbn; auto 6) Hj)
    as B3.
  pose proof (@etiquette_bornes "18h-24h" 19 23 18 24 hs ltac:(cbn; auto 6) Hj)
    as B4.
  cbv zeta in B1, B2, B3, B4.
  set (c1 := List.length (filter _ hs)) in B1, Hrep, Htot.
  set (c2 := List.length (filter _ hs)) in B2, Hrep, Htot.
  set (c3 := List.length (filter _ hs)) in B3, Hrep, Htot.
  set (c4 := List.length (filter _ hs)) in B4, Hrep, Htot.
  set (dates := List.length (filter a_un_debut debuts)) in *.
  set (n := List.length ts) in *.
  assert (Hn : (0 < n)%nat) by (unfold n; destruct ts; [congruence|simpl; lia]).
  assert (Hdn : (dates <= n)%nat).
  { unfold dates. rewrite <- Hld. apply length_filter_le. }
  exists r, c1, c2, c3, c4.
  split; [exact (charger_donnees_statistiques cwd annee Hf Hs)|].
  split; [exact Hrep|].
  do 4 (split; [assumption|]).
  split; [exact Htot|]. split; [exact Hdn|].
  destruct (@pourcentage_bounds c1 n Hn ltac:(lia)) as (v1 & E1 & R1 & A1).
  destruct (@pourcentage_bounds c2 n Hn ltac:(lia)) as (v2 & E2 & R2 & A2).
  destruct (@pourcentage_bounds c3 n Hn ltac:(lia)) as (v3 & E3 & R3 & A3).
  destruct (@pourcentage_bounds c4 n Hn ltac:(lia)) as (v4 & E4 & R4 & A4).
  rewrite Hrep, E1, E2, E3, E4. cbn [map snd fst].
  split.
  { repeat constructor; cbn [snd]; eexists; (split; [reflexivity|]); split;
      assumption. }
  pose proof (ratio_add4 c1 c2 c3 c4 Hn) as Hsum. rewrite Htot in Hsum.
  pose proof (fsum4_error R1 R2 R3 R4) as Ef.
  apply Qabs_Qle_condition in A1, A2, A3, A4, Ef.
  assert (S1 : (Qabs (somme [Fin v1; Fin v2; Fin v3; Fin v4]
                      - 100 * ratio dates n) <= 1 # 100)%Q).
  { cbn [somme map value_of fold_right]. apply Qabs_Qle_condition. lra. }
  assert (S2 : exists s, fold_left fadd [Fin v1; Fin v2; Fin v3; Fin v4] (Fin 0)
                         = Fin s
                         /\ (Qabs (s - 100 * ratio dates n) <= 1 # 100)%Q).
  { cbn [fold_left fadd]. eexists. split; [reflexivity|].
    apply Qabs_Qle_condition. lra. }
  split; [exact S1|]. split; [exact S2|].
  intros Hall.
  assert (Hdat : dates = n).
  { unfold dates. rewrite <- Hld. f_equal. apply filter_tous.
    intros [ns|] Hd; [reflexivity|]. now destruct (Hall None Hd). }
  pose proof (ratio_tous Hn) as Hone. rewrite <- Hdat in Hone at 1.
  destruct S2 as (s & Es & As).
  apply Qabs_Qle_condition in S1, As.
  split; [apply Qabs_Qle_condition; lra|].
  exists s. split; [exact Es|]. apply Qabs_Qle_condition. lra.
Qed.

Lemma C5_period_distribution_witness :
  exists gdf df,
    charger_fichiers cwd_mixte "2014" = Ok (gdf, df)
    /\ trips_of_debuts df debuts_mixtes trajets_mixtes
    /\ Forall2 heure_de_debut debuts_mixtes [Some 0; None; Some 6; Some 13]%Z
    /\ exists r c1 c2 c3 c4,
         charger_donnees cwd_mixte "2014" = (Some r, [])
         /\ (1 <= c1 <= 2)%nat /\ (0 <= c2 <= 1)%nat
         /\ (1 <= c3 <= 1)%nat /\ (0 <= c4 <= 0)%nat
         /\ (c1 + c2 + c3 + c4 = 3)%nat
         /\ (Qabs (somme (map snd (repartition_periodes r)) - 75) <= 1 # 100)%Q.
Proof.
  destruct (charger_fichiers cwd_mixte "2014") as [[gdf df]|e] eqn:Hf;
    [|vm_compute in Hf; discriminate].
  assert (Ht : trips_of_debuts df debuts_mixtes trajets_mixtes).
  { vm_compute in Hf. injection Hf as <- <-. repeat split; vm_compute; reflexivity. }
  assert (Hh : Forall2 heure_de_debut debuts_mixtes [Some 0; None; Some 6; Some 13]%Z).
  { assert (H0 : dans_heure 1397520060000000000 0)
      by (split; [lia|exists 16175%Z; unfold ns_per_hour; lia]).
    assert (H6 : dans_heure 1397543400000000000 6)
      by (split; [lia|exists 16175%Z; unfold ns_per_hour; lia]).
    assert (H13 : dans_heure 1397567100000000000 13)
      by (split; [lia|exists 16175%Z; unfold ns_per_hour; lia]).
    unfold debuts_mixtes.
    apply Forall2_cons; [exact H0|]. apply Forall2_cons; [exact I|].
    apply Forall2_cons; [exact H6|]. apply Forall2_cons; [exact H13|].
    apply Forall2_nil. }
  assert (Hne : trajets_mixtes <> []) by discriminate.
  exists gdf, df. split; [reflexivity|]. split; [exact Ht|]. split; [exact Hh|].
  destruct (@C5_period_distribution reference cwd_mixte "2014" gdf df
              trajets_mixtes debuts_mixtes _ Hf Ht Hne Hh)
    as (r & c1 & c2 & c3 & c4 & Hr & _ & B1 & B2 & B3 & B4 & Htot & _ & _ & Hsum & _).
  exists r, c1, c2, c3, c4. split; [exact Hr|].
  do 4 (split; [assumption|]). split; [exact Htot|].
  assert (H75 : (100 * ratio 3 4 == 75)%Q) by reflexivity.
  change (List.length (filter a_un_debut debuts_mixtes)) with 3%nat in Hsum.
  change (List.length trajets_mixtes) with 4%nat in Hsum.
  apply Qabs_Qle_condition in Hsum. apply Qabs_Qle_condition. lra.
Defined.

(** C6. For every year with at least one trip, the loop proportion is the
    float [(loops / total) * 100], [loops] being the number of trips whose
    start and end station codes are equal: it is finite, within 0.001 of the
    exact [100 * loops / total], lies in [0, 100], and is 0 when no trip
    ends at the station it started from. *)
Theorem C6_loop_proportion `{E : Externals} (cwd : node) (annee : string)
        (gdf : GeoDataFrame) (df : DataFrame) (ts : list Trip) :
  charger_fichiers cwd annee = Ok (gdf, df) ->
  trips_of df ts ->
  ts <> [] ->
  exists r q,
    charger_donnees cwd annee = (Some r, [])
    /\ proportion_boucle r = Fin q
    /\ q = rnd (rnd (ratio (nb_boucles ts) (List.length ts)) * 100)
    /\ (Qabs (q - 100 * ratio (nb_boucles ts) (List.length ts)) <= 1 # 1000)%Q
    /\ (0 <= q <= 100)%Q
    /\ ((forall t, In t ts -> start_station_code t <> end_station_code t) ->
        proportion_boucle r = Fin 0).
Proof.
  intros Hf Ht Hne.
  assert (Hn : (0 < List.length ts)%nat) by (destruct ts; [congruence|simpl; lia]).
  assert (Hle : (nb_boucles ts <= List.length ts)%nat) by apply length_filter_le.
  pose proof (proportion_bounds Hn Hle) as [Hv Herr]. cbv zeta in Hv, Herr.
  exists (resultats_de gdf ts),
         (rnd (rnd (ratio (nb_boucles ts) (List.length ts)) * 100)).
  split; [exact (charger_donnees_ok cwd annee Hf Ht Hne)|].
  cbn [resultats_de proportion_boucle]. rewrite of_Z_100. cbn [fmul].
  fold (ratio (nb_boucles ts) (List.length ts)).
  split; [reflexivity|]. split; [reflexivity|].
  split; [exact Herr|].
  split; [exact Hv|].
  intros Hno.
  assert (H0 : nb_boucles ts = 0%nat).
  { unfold nb_boucles. clear -Hno. induction ts as [|t ts IH]; [reflexivity|].
    simpl. destruct (est_boucle t) eqn:Eb.
    - exfalso. apply (Hno t); [now left|]. now apply code_eqb_eq.
    - apply IH. intros u Hu. apply Hno. now right. }
  rewrite H0.
  assert (Hz : (ratio 0 (List.length ts) == 0)%Q).
  { unfold ratio. simpl. unfold Qdiv. now rewrite Qmult_0_l. }
  rewrite (rnd_zero Hz). reflexivity.
Qed.

Lemma C6_loop_proportion_witness :
  charger_fichiers cwd_2014 "2014" = Ok (gdf_2014, frame_of_trips trajets_2014)
  /\ trips_of (frame_of_trips trajets_2014) trajets_2014
  /\ nb_boucles trajets_2014 = 1%nat
  /\ exists r, charger_donnees cwd_2014 "2014" = (Some r, [])
               /\ proportion_boucle r = Fin 50.
Proof.
  assert (Hf : charger_fichiers cwd_2014 "2014"
               = Ok (gdf_2014, frame_of_trips trajets_2014))
    by (vm_compute; reflexivity).
  assert (Ht : trips_of (frame_of_trips trajets_2014) trajets_2014)
    by apply trips_of_frame_of_trips.
  assert (Hne : trajets_2014 <> []) by discriminate.
  split; [exact Hf|]. split; [exact Ht|]. split; [reflexivity|].
  destruct (@C6_loop_proportion reference cwd_2014 "2014" gdf_2014
              (frame_of_trips trajets_2014) trajets_2014 Hf Ht Hne)
    as (r & q & Hr & Hq & Hv & _).
  exists r. split; [exact Hr|]. rewrite Hq, Hv. vm_compute. reflexivity.
Defined.




Lemma fold_fadd_exact (l : list Z) (a : Z) :
  Forall (fun z => 0 <= z)%Z l -> (0 <= a)%Z -> (a + total l < 2 ^ 53)%Z ->
  fold_left fadd (map of_Z l) (Fin (inject_Z a)) = Fin (inject_Z (a + total l)).
Proof.
  revert a. induction l as [|z l IH]; intros a Hl Ha Hb; simpl in *.
  - now rewrite Z.add_0_r.
  - inversion Hl as [|? ? Hz Hl']; subst.
    assert (Ht : (0 <= total l)%Z).
    { clear -Hl'. induction Hl'; simpl; [lia|]. unfold total in *. simpl. lia. }
    unfold of_Z at 1. rewrite rnd_Z by lia. cbn [fadd].
    rewrite <- inject_Z_plus, rnd_Z by lia.
    rewrite IH by (try assumption; lia). f_equal. f_equal. lia.
Qed.

Lemma moyenne_exact (l : list Z) :
  l <> [] -> Forall (fun z => 0 <= z)%Z l -> (total l < 2 ^ 53)%Z ->
  (Z.of_nat (List.length l) < 2 ^ 53)%Z ->
  moyenne l
  = Fin (rnd (inject_Z (total l) / inject_Z (Z.of_nat (List.length l)))).
Proof.
  intros Hne Hl Hb Hn. unfold moyenne.
  change (Fin 0) with (Fin (inject_Z 0)).
  rewrite fold_fadd_exact by (try assumption; lia).
  rewrite of_nat_exact by assumption. cbn [fdiv Z.add].
  destruct (Qeq_bool (inject_Z (Z.of_nat (List.length l))) 0) eqn:E; [|reflexivity].
  apply Qeq_bool_eq in E. unfold Qeq in E. simpl in E.
  destruct l; [congruence|]. simpl in E. lia.
Qed.

(** C8. For every year with at least one trip, the average duration is the
    float mean of [duration_sec] divided by 60, the mean being the float sum
    of the durations divided by their number; when no duration is negative
    and their sum and their number are below 2^53, that is the exact mean
    rounded, divided by 60 and rounded.  On two trips of 600 s (member, from
    A to A) and 1200 s (casual, from A to B) the average is 15.0 minutes, the
    loop proportion 50.0, the member count 1 and the casual count 1. *)
Theorem C8_average_duration `{E : Externals} (cwd : node) (annee : string)
        (gdf : GeoDataFrame) (df : DataFrame) (ts : list Trip) :
  charger_fichiers cwd annee = Ok (gdf, df) ->
  trips_of df ts ->
  ts <> [] ->
  exists r,
    charger_donnees cwd annee = (Some r, [])
    /\ duree_moyenne r
       = fdiv (fdiv (fold_left fadd (map of_Z (map duration_sec ts)) (Fin 0))
                    (of_nat (List.length ts)))
              (of_Z 60)
    /\ (Forall (fun t => 0 <= duration_sec t)%Z ts ->
        (total (map duration_sec ts) < 2 ^ 53)%Z ->
        (Z.of_nat (List.length ts) < 2 ^ 53)%Z ->
        duree_moyenne r
        = Fin (rnd (rnd (inject_Z (total (map duration_sec ts))
                         / inject_Z (Z.of_nat (List.length ts))) / 60)))
    /\ (map sans_dates ts
        = [ (600, 1, CodeStr "A", CodeStr "A"); (1200, 0, CodeStr "A", CodeStr "B") ]%Z ->
        duree_moyenne r = Fin 15
        /\ proportion_boucle r = Fin 50
        /\ membres r = 1%nat
        /\ occasionnels r = 1%nat).
Proof.
  intros Hf Ht Hne. exists (resultats_de gdf ts).
  split; [exact (charger_donnees_ok cwd annee Hf Ht Hne)|].
  split; [unfold resultats_de, duree_moyenne, moyenne; now rewrite length_map|].
  split.
  - intros Hpos Hsum Hlen. cbn [resultats_de duree_moyenne].
    rewrite moyenne_exact.
    + rewrite length_map, of_Z_60. reflexivity.
    + destruct ts; [congruence|discriminate].
    + apply Forall_map. exact Hpos.
    + exact Hsum.
    + now rewrite length_map.
  - intros Hex.
    destruct ts as [|[sd1 sc1 ed1 ec1 d1 m1] [|[sd2 sc2 ed2 ec2 d2 m2] [|t3 ts]]];
      try discriminate.
    unfold sans_dates in Hex. cbn in Hex.
    injection Hex as -> -> -> -> -> -> -> ->.
    repeat split; vm_compute; reflexivity.
Qed.

Lemma C8_average_duration_witness :
  charger_fichiers cwd_2014 "2014" = Ok (gdf_2014, frame_of_trips trajets_2014)
  /\ trips_of (frame_of_trips trajets_2014) trajets_2014
  /\ map sans_dates trajets_2014
     = [ (600, 1, CodeStr "A", CodeStr "A"); (1200, 0, CodeStr "A", CodeStr "B") ]%Z
  /\ exists r, charger_donnees cwd_2014 "2014" = (Some r, [])
               /\ duree_moyenne r = Fin 15
               /\ proportion_boucle r = Fin 50
               /\ membres r = 1%nat
               /\ occasionnels r = 1%nat.
Proof.
  assert (Hf : charger_fichiers cwd_2014 "2014"
               = Ok (gdf_2014, frame_of_trips trajets_2014))
    by (vm_compute; reflexivity).
  assert (Ht : trips_of (frame_of_trips trajets_2014) trajets_2014)
    by apply trips_of_frame_of_trips.
  assert (Hne : trajets_2014 <> []) by discriminate.
  split; [exact Hf|]. split; [exact Ht|]. split; [reflexivity|].
  destruct (@C8_average_duration reference cwd_2014 "2014" gdf_2014
              (frame_of_trips trajets_2014) trajets_2014 Hf Ht Hne)
    as (r & Hr & _ & _ & Hex).
  exists r. split; [exact Hr|]. apply Hex. reflexivity.
Defined.

(** C9, counterexample. On the sample year whose second station has no
    latitude in the station file, the analysis succeeds and hands its two
    stations to [creer_carte], which raises the [ValueError] of the marker
    that refuses a NaN in its location: no map is built. *)
Lemma C9_station_without_latitude :
  exists r,
    charger_donnees cwd_sans_latitude "2014" = (Some r, [])
    /\ geo_stations_of (stations r) stations_sans_latitude
    /\ creer_carte (stations r)
       = Raise (Exn ValueError "Location values cannot contain NaNs.").
Proof.
  destruct (charger_donnees cwd_sans_latitude "2014") as [[r|] [|ev evs]] eqn:Hr;
    try (vm_compute in Hr; discriminate).
  exists r. split; [reflexivity|].
  vm_compute in Hr. injection Hr as <-.
  split; [split|]; vm_compute; reflexivity.
Qed.

(** C9, amended. [creer_carte] succeeds on every station collection in which
    no station lacks its latitude or its longitude, the empty collection
    included: the map is centred on the floats written 45.5236 and -73.5985,
    at zoom 12, with no default tiles; it holds four tile layers offered in
    the layer control (Satellite, Terrain, Sombre for the dark one, and
    OpenStreetMap for the street map), one marker cluster with one marker per
    station, in order, each with the station name in bold as its popup, and
    the layer control; with no station the cluster is empty. *)
Theorem C9_map_document `{E : Externals} (gdf : GeoDataFrame) (ss : list Station) :
  geo_stations_of gdf ss \/ (records (frame gdf) = [] /\ ss = []) ->
  forallb a_ses_coordonnees ss = true ->
  exists carte c,
    creer_carte gdf = Ok carte
    /\ map_location carte = (lit (455236 # 10000), lit (- 735985 # 10000))
    /\ zoom_start carte = 12%Z
    /\ map_tiles carte = None
    /\ map (fun t => (tile_name t, tiles t, tile_control t)) (tile_layers carte)
       = [ ("Satellite", "https://mt1.google.com/vt/lyrs=s&x={x}&y={y}&z={z}", true);
           ("Terrain", "https://mt1.google.com/vt/lyrs=p&x={x}&y={y}&z={z}", true);
           ("Sombre", "cartodbdark_matter", true);
           ("OpenStreetMap", "cartodbpositron", true) ]
    /\ clusters carte = [c]
    /\ children carte = map Tile (tile_layers carte)
                        ++ [Cluster c; LayerControl "topright"]
    /\ List.length (markers c) = List.length ss
    /\ map popup (markers c) = map (fun s => ("<b>" ++ name s ++ "</b>")%string) ss
    /\ (ss = [] -> markers c = []).
Proof.
  intros H Hv.
  assert (Hm : mapM (marqueur gdf)
                    (combine (records (frame gdf)) (geometry gdf))
               = Ok (map marqueur_de ss)).
  { destruct H as [H|[H ->]]; [now apply marqueurs_stations|].
    rewrite H. reflexivity. }
  exists (carte_de (map marqueur_de ss)),
         {| cluster_name := "Stations BIXI"; overlay := true;
            cluster_control := true; markers := map marqueur_de ss |}.
  split; [now apply creer_carte_markers|].
  repeat (split; [reflexivity|]).
  cbn [markers]. split; [apply length_map|].
  split; [now rewrite map_map|].
  intros ->. reflexivity.
Qed.

Lemma C9_map_document_witness :
  geo_stations_of gdf_2014 stations_2014
  /\ forallb a_ses_coordonnees stations_2014 = true
  /\ exists carte c,
       creer_carte gdf_2014 = Ok carte
       /\ clusters carte = [c]
       /\ map popup (markers c)
          = ["<b>Metcalfe / Square Dorchester</b>"; "<b>Parc Jeanne-Mance</b>"].
Proof.
  assert (Hg : geo_stations_of gdf_2014 stations_2014) by (split; reflexivity).
  assert (Hv : forallb a_ses_coordonnees stations_2014 = true) by reflexivity.
  split; [exact Hg|]. split; [exact Hv|].
  destruct (@C9_map_document reference gdf_2014 stations_2014 (or_introl Hg) Hv)
    as (carte & c & Hc & _ & _ & _ & _ & Hcl & _ & _ & Hp & _).
  exists carte, c. split; [exact Hc|]. split; [exact Hcl|]. exact Hp.
Defined.

(** C10, counterexample. The station file of the sample year gives its
    second station no latitude: both stations receive their point, of
    abscissa the longitude and ordinate the latitude read from the file, but
    [creer_carte] raises on them, so that no marker is placed, not even for
    the first station, whose two coordinates are present. *)
Lemma C10_no_marker_beside_missing_latitude :
  charger_stations cwd_sans_latitude
    ((chemin_bixis ++ ["2014"]) ++ ["Stations_2014.csv"])
  = Ok (frame_of_stations stations_sans_latitude)
  /\ stations_of (frame_of_stations stations_sans_latitude) stations_sans_latitude
  /\ map a_ses_coordonnees stations_sans_latitude = [true; false]
  /\ exists gdf,
       attacher_geometrie (frame_of_stations stations_sans_latitude) = Ok gdf
       /\ map (fun p => (px p, py p)) (geometry gdf)
          = map (fun s => (longitude s, latitude s)) stations_sans_latitude
       /\ creer_carte gdf
          = Raise (Exn ValueError "Location values cannot contain NaNs.").
Proof.
  split; [vm_compute; reflexivity|].
  split; [apply stations_of_frame_of_stations|].
  split; [reflexivity|].
  eexists. split; [vm_compute; reflexivity|].
  split; vm_compute; reflexivity.
Qed.

(** C10, amended. For every station frame with its names, latitudes and
    longitudes in which no station lacks a coordinate, the geometry attached
    to a station is the point of abscissa its longitude and ordinate its
    latitude, and the marker [creer_carte] places for it is at (latitude,
    longitude), the values of the station file, in that order and in the
    order of the stations. *)
Theorem C10_marker_location `{E : Externals} (df : DataFrame) (ss : list Station) :
  stations_of df ss ->
  forallb a_ses_coordonnees ss = true ->
  exists gdf carte c,
    attacher_geometrie df = Ok gdf
    /\ map (fun p => (px p, py p)) (geometry gdf)
       = map (fun s => (longitude s, latitude s)) ss
    /\ creer_carte gdf = Ok carte
    /\ clusters carte = [c]
    /\ map location (markers c) = map (fun s => (latitude s, longitude s)) ss.
Proof.
  intros Hs Hv.
  pose proof (attacher_geometrie_stations Hs) as Ha.
  set (gdf := {| frame := df; geometry := map point_of_station ss |}) in *.
  assert (Hg : geo_stations_of gdf ss) by (split; [apply Hs|reflexivity]).
  exists gdf, (carte_de (map marqueur_de ss)),
         {| cluster_name := "Stations BIXI"; overlay := true;
            cluster_control := true; markers := map marqueur_de ss |}.
  split; [exact Ha|].
  split; [unfold gdf; cbn [geometry]; now rewrite map_map|].
  split; [apply creer_carte_markers; now apply marqueurs_stations|].
  split; [reflexivity|].
  cbn [markers]. now rewrite map_map.
Qed.

Lemma C10_marker_location_witness :
  stations_of (frame_of_stations stations_2014) stations_2014
  /\ forallb a_ses_coordonnees stations_2014 = true
  /\ exists gdf carte c,
       attacher_geometrie (frame_of_stations stations_2014) = Ok gdf
       /\ creer_carte gdf = Ok carte
       /\ clusters carte = [c]
       /\ map location (markers c)
          = [ (Fin (91 # 2), Fin (- 9417 # 128));
              (Fin (2913 # 64), Fin (- 2355 # 32)) ].
Proof.
  assert (Hs : stations_of (frame_of_stations stations_2014) stations_2014)
    by apply stations_of_frame_of_stations.
  assert (Hv : forallb a_ses_coordonnees stations_2014 = true) by reflexivity.
  split; [exact Hs|]. split; [exact Hv|].
  destruct (@C10_marker_location reference _ _ Hs Hv)
    as (gdf & carte & c & Ha & _ & Hc & Hcl & Hl).
  exists gdf, carte, c. repeat (split; [assumption|]).
  rewrite Hl. vm_compute. reflexivity.
Defined.

(** * Further properties of the program *)

(** ** Failures of the load *)

Lemma append_assoc (a b c : string) : ((a ++ b) ++ c = a ++ (b ++ c))%string.
Proof. induction a as [|x a IH]; simpl; [reflexivity|now rewrite IH]. Qed.

Lemma msg_no_such_file (annee f : string) :
  msg (no_such_file ((chemin_bixis ++ [annee]) ++ [f]))
  = ("[Errno 2] No such file or directory: './bixis/" ++ annee ++ "/" ++ f ++ "'")%string.
Proof.
  unfold no_such_file, path_str, chemin_bixis. cbn [msg app join].
  cbn [append]. rewrite !append_assoc. reflexivity.
Qed.

Lemma charger_donnees_raise `{E : Externals} (cwd : node) (annee : string) (e : exn) :
  charger_fichiers cwd annee = Raise e ->
  charger_donnees cwd annee = erreur_affichee (msg e).
Proof.
  intros H. unfold charger_donnees, charger_corps. rewrite H. reflexivity.
Qed.

(** X1. When the directory of the year is missing from [./bixis], or holds
    no station file named after the year, [charger_donnees] reads nothing
    else: it shows the "No such file or directory" error of the station path
    and returns [None]. *)
Theorem X1_missing_station_file `{E : Externals} (cwd : node) (annee : string)
        (ys : list (string * node)) :
  resolve cwd chemin_bixis = Some (Dir ys) ->
  lookup annee ys = None
  \/ (exists es, lookup annee ys = Some (Dir es)
                 /\ lookup ("Stations_" ++ annee ++ ".csv")%string es = None) ->
  charger_donnees cwd annee
  = erreur_affichee
      ("[Errno 2] No such file or directory: './bixis/" ++ annee
       ++ "/Stations_" ++ annee ++ ".csv'").
Proof.
  intros Hb Hy.
  assert (Hr : resolve cwd ((chemin_bixis ++ [annee])
                            ++ [("Stations_" ++ annee ++ ".csv")%string]) = None).
  { unfold chemin_bixis in *. cbn [app resolve] in *.
    destruct cwd as [t|top]; [discriminate|].
    destruct (lookup "bixis" top) as [n|]; [|discriminate].
    injection Hb as ->.
    destruct Hy as [Hy|(es & Hy & Hs)]; rewrite Hy; [reflexivity|].
    now rewrite Hs. }
  rewrite (@charger_donnees_raise E cwd annee
             (no_such_file ((chemin_bixis ++ [annee])
                            ++ [("Stations_" ++ annee ++ ".csv")%string]))).
  - unfold erreur_affichee. rewrite msg_no_such_file.
    cbn [append]. rewrite !append_assoc. reflexivity.
  - unfold charger_fichiers, charger_stations, pd_read_csv, read_text.
    rewrite Hr. reflexivity.
Qed.

Lemma X1_missing_station_file_witness :
  resolve cwd_sans_stations chemin_bixis
  = Some (Dir [ ("2014", Dir [ ("OD_2014-04.csv", File trajets_2014_04_csv) ]) ])
  /\ charger_donnees cwd_sans_stations "2014"
     = erreur_affichee
         "[Errno 2] No such file or directory: './bixis/2014/Stations_2014.csv'".
Proof.
  assert (Hb : resolve cwd_sans_stations chemin_bixis
               = Some (Dir [ ("2014",
                              Dir [ ("OD_2014-04.csv", File trajets_2014_04_csv) ]) ]))
    by reflexivity.
  split; [exact Hb|].
  refine (@X1_missing_station_file reference cwd_sans_stations "2014" _ Hb _).
  right. eexists. split; reflexivity.
Defined.

(** X2. When the station file is read but has no [longitude] column, or has
    one but no [latitude] column, [charger_donnees] shows the name of the
    missing column in quotes, as [KeyError] writes it, and returns [None];
    the trip files are not looked at. *)
Theorem X2_missing_coordinate_column `{E : Externals} (cwd : node)
        (annee : string) (df : DataFrame) :
  charger_stations cwd ((chemin_bixis ++ [annee])
                        ++ [("Stations_" ++ annee ++ ".csv")%string]) = Ok df ->
  (has_column df "longitude" = false ->
   charger_donnees cwd annee = erreur_affichee "'longitude'")
  /\ (has_column df "longitude" = true -> has_column df "latitude" = false ->
      charger_donnees cwd annee = erreur_affichee "'latitude'").
Proof.
  intros Hs. split.
  - intros Hl. apply (@charger_donnees_raise E cwd annee (key_error "longitude")).
    unfold charger_fichiers. rewrite Hs. cbn [bind].
    unfold attacher_geometrie, getitem. rewrite Hl. reflexivity.
  - intros Hl Hla. apply (@charger_donnees_raise E cwd annee (key_error "latitude")).
    unfold charger_fichiers. rewrite Hs. cbn [bind].
    unfold attacher_geometrie, getitem. rewrite Hl, Hla. reflexivity.
Qed.

Lemma X2_missing_coordinate_column_witness :
  (exists df, charger_stations cwd_sans_longitude
                ((chemin_bixis ++ ["2014"]) ++ ["Stations_2014.csv"]) = Ok df
              /\ has_column df "longitude" = false)
  /\ charger_donnees cwd_sans_longitude "2014" = erreur_affichee "'longitude'".
Proof.
  destruct (charger_stations cwd_sans_longitude
              ((chemin_bixis ++ ["2014"]) ++ ["Stations_2014.csv"]))
    as [df|e] eqn:Hs; [|vm_compute in Hs; discriminate].
  assert (Hl : has_column df "longitude" = false).
  { vm_compute in Hs. injection Hs as <-. reflexivity. }
  split; [exists df; split; [reflexivity|exact Hl]|].
  exact (proj1 (@X2_missing_coordinate_column reference cwd_sans_longitude
                  "2014" df Hs) Hl).
Defined.

(** X3. When the files of the year are read but hold no trip at all, the
    mean of the empty column is NaN without error and the division of the
    loop count by the row count raises: [charger_donnees] shows
    "division by zero" and returns [None] instead of statistics. *)
Theorem X3_no_trip_rows `{E : Externals} (cwd : node) (annee : string)
        (gdf : GeoDataFrame) (df : DataFrame) :
  charger_fichiers cwd annee = Ok (gdf, df) ->
  records df = [] ->
  has_column df "duration_sec" = true ->
  has_column df "start_station_code" = true ->
  has_column df "end_station_code" = true ->
  series_mean [] = Ok NaN
  /\ charger_donnees cwd annee = erreur_affichee "division by zero".
Proof.
  intros Hf Hr Hd Hs He. split; [reflexivity|].
  unfold charger_donnees, charger_corps. rewrite Hf. cbn [bind fst snd].
  unfold statistiques, getitem, len, boolean_index.
  rewrite Hd, Hs, He, Hr. reflexivity.
Qed.

Lemma X3_no_trip_rows_witness :
  (exists gdf df, charger_fichiers cwd_trajets_vides "2014" = Ok (gdf, df)
                  /\ records df = [])
  /\ charger_donnees cwd_trajets_vides "2014" = erreur_affichee "division by zero".
Proof.
  destruct (charger_fichiers cwd_trajets_vides "2014") as [[gdf df]|e] eqn:Hf;
    [|vm_compute in Hf; discriminate].
  assert (H : records df = []
              /\ has_column df "duration_sec" = true
              /\ has_column df "start_station_code" = true
              /\ has_column df "end_station_code" = true).
  { vm_compute in Hf. injection Hf as <- <-. repeat split. }
  destruct H as (Hr & Hd & Hs & He).
  split; [exists gdf, df; split; [reflexivity|exact Hr]|].
  exact (proj2 (@X3_no_trip_rows reference cwd_trajets_vides "2014" gdf df
                  Hf Hr Hd Hs He)).
Defined.

(** ** Which files are read *)

Lemma startswith_iff (s p : string) :
  startswith s p = true <-> exists r, s = (p ++ r)%string.
Proof.
  revert s. induction p as [|c p IH]; intros s.
  - split; [intros _; now exists s|intros _; now destruct s].
  - destruct s as [|d s].
    + split; [discriminate|intros [r Hr]; discriminate].
    + change (startswith (String d s) (String c p))
        with (Ascii.eqb c d && startswith s p).
      rewrite andb_true_iff, Ascii.eqb_eq, IH. split.
      * intros [-> [r ->]]. now exists r.
      * intros [r Hr]. simpl in Hr. injection Hr as -> ->.
        split; [reflexivity|now exists r].
Qed.

Lemma substring_suffix (a b : string) :
  substring (String.length a) (String.length b) (a ++ b) = b.
Proof.
  induction a as [|c a IH]; simpl; [|exact IH].
  induction b as [|d b IHb]; simpl; [reflexivity|now rewrite IHb].
Qed.

Lemma substring_all (s : string) : substring 0 (String.length s) s = s.
Proof. induction s as [|c s IH]; simpl; [reflexivity|now rewrite IH]. Qed.

Lemma substring_none (s : string) : substring 0 0 s = EmptyString.
Proof. destruct s; reflexivity. Qed.

Lemma split_at (n : nat) (s : string) :
  (n <= String.length s)%nat ->
  s = (substring 0 n s ++ substring n (String.length s - n) s)%string.
Proof.
  revert s. induction n as [|n IH]; intros s Hn.
  - rewrite Nat.sub_0_r, substring_none, substring_all. reflexivity.
  - destruct s as [|c s]; [simpl in Hn; lia|].
    cbn [String.length] in *. cbn [substring Nat.sub append].
    f_equal. apply IH. lia.
Qed.

Lemma length_append (a b : string) :
  String.length (a ++ b) = (String.length a + String.length b)%nat.
Proof. induction a as [|c a IH]; simpl; [reflexivity|now rewrite IH]. Qed.

Lemma endswith_iff (s p : string) :
  endswith s p = true <-> exists r, s = (r ++ p)%string.
Proof.
  unfold endswith. rewrite andb_true_iff, Nat.leb_le, String.eqb_eq. split.
  - intros [Hle Hs].
    exists (substring 0 (String.length s - String.length p) s).
    pose proof (@split_at (String.length s - String.length p) s ltac:(lia)) as Hsp.
    replace (String.length s - (String.length s - String.length p))%nat
      with (String.length p) in Hsp by lia.
    now rewrite Hs in Hsp.
  - intros [r ->]. rewrite length_append. split; [lia|].
    replace (String.length r + String.length p - String.length p)%nat
      with (String.length r) by lia.
    apply substring_suffix.
Qed.

(** X4. A name is read as a trip file exactly when it ends in ".csv" and
    does not begin with "Stations"; in particular the station file of the
    year, whatever the year, is never read as a trip file. *)
Theorem X4_trip_file_names (f : string) :
  (est_fichier_trajets f = true
   <-> (exists stem, f = (stem ++ ".csv")%string)
       /\ ~ (exists rest, f = ("Stations" ++ rest)%string))
  /\ forall annee, est_fichier_trajets ("Stations_" ++ annee ++ ".csv") = false.
Proof.
  split.
  - unfold est_fichier_trajets.
    rewrite andb_true_iff, negb_true_iff, endswith_iff, <- startswith_iff.
    split; intros [H1 H2]; (split; [exact H1|]).
    + now rewrite H2.
    + now destruct (startswith f "Stations").
  - intros annee. unfold est_fichier_trajets.
    replace (startswith ("Stations_" ++ annee ++ ".csv") "Stations") with true
      by reflexivity.
    apply andb_false_r.
Qed.

(** ** The rows of the year *)

Lemma length_flat_map_records (l : list DataFrame) :
  List.length (flat_map records l) = list_sum (map len l).
Proof.
  induction l as [|x l IH]; [reflexivity|].
  cbn [flat_map map list_sum fold_right]. rewrite length_app, IH. reflexivity.
Qed.

Lemma len_pd_concat (dfs : list DataFrame) (df : DataFrame) :
  pd_concat dfs = Ok df -> len df = list_sum (map len dfs).
Proof.
  unfold pd_concat. destruct dfs as [|d dfs]; [discriminate|].
  intros H. injection H as <-.
  exact (length_flat_map_records (d :: dfs)).
Qed.

Section Rows.

Context {E : Externals}.
Variable cwd : node.

Lemma charger_fichiers_inv (annee : string) (gdf : GeoDataFrame) (df : DataFrame) :
  charger_fichiers cwd annee = Ok (gdf, df) ->
  exists df_stations noms dfs df0,
    charger_stations cwd ((chemin_bixis ++ [annee])
                          ++ [("Stations_" ++ annee ++ ".csv")%string])
    = Ok df_stations
    /\ attacher_geometrie df_stations = Ok gdf
    /\ os_listdir cwd (chemin_bixis ++ [annee]) = Ok noms
    /\ mapM (fun fichier => pd_read_csv cwd ((chemin_bixis ++ [annee]) ++ [fichier]) ",")
            (filter est_fichier_trajets noms) = Ok dfs
    /\ pd_concat dfs = Ok df0
    /\ len df = len df0.
Proof.
  unfold charger_fichiers.
  destruct (charger_stations cwd _) as [df_stations|] eqn:Hs; [|discriminate].
  cbn [bind].
  destruct (attacher_geometrie df_stations) as [g|] eqn:Hg; [|discriminate].
  cbn [bind].
  destruct (os_listdir cwd _) as [noms|] eqn:Hl; [|discriminate].
  cbn [bind].
  destruct (mapM _ (filter est_fichier_trajets noms)) as [dfs|] eqn:Hm;
    [|discriminate].
  cbn [bind].
  destruct (pd_concat dfs) as [df0|] eqn:Hc; [|discriminate].
  cbn [bind].
  destruct (getitem df0 "start_date") as [sd|] eqn:Hsd; [|discriminate].
  cbn [bind].
  destruct (to_datetime sd) as [sd'|] eqn:Htd; [|discriminate].
  cbn [bind].
  destruct (getitem (setitem df0 "start_date" sd') "end_date") as [ed|] eqn:Hed;
    [|discriminate].
  cbn [bind].
  destruct (to_datetime ed) as [ed'|] eqn:Hte; [|discriminate].
  cbn [bind]. intros H. injection H as <- <-.
  exists df_stations, noms, dfs, df0.
  repeat (split; [first [assumption|reflexivity]|]).
  assert (L1 : List.length sd' = len df0).
  { rewrite (to_datetime_length _ Htd). exact (getitem_length _ _ Hsd). }
  assert (L2 : len (setitem df0 "start_date" sd') = len df0)
    by (now apply len_setitem).
  assert (L3 : List.length ed' = len (setitem df0 "start_date" sd')).
  { rewrite (to_datetime_length _ Hte). exact (getitem_length _ _ Hed). }
  rewrite len_setitem by assumption. exact L2.
Qed.

End Rows.

(** X5. The trips analysed are all the rows of all the trip files: when the
    files of a year are read, the number of rows of the yearly frame is the
    sum of the numbers of rows of the files whose names pass the trip-file
    test, parsing the dates neither adding nor dropping a row. *)
Theorem X5_rows_of_all_trip_files `{E : Externals} (cwd : node) (annee : string)
        (noms : list string) (dfs : list DataFrame)
        (gdf : GeoDataFrame) (df : DataFrame) :
  os_listdir cwd (chemin_bixis ++ [annee]) = Ok noms ->
  mapM (fun fichier => pd_read_csv cwd ((chemin_bixis ++ [annee]) ++ [fichier]) ",")
       (filter est_fichier_trajets noms) = Ok dfs ->
  charger_fichiers cwd annee = Ok (gdf, df) ->
  List.length dfs = List.length (filter est_fichier_trajets noms)
  /\ len df = list_sum (map len dfs).
Proof.
  intros Hl Hm Hf. split; [exact (mapM_length _ _ Hm)|].
  destruct (charger_fichiers_inv cwd annee Hf)
    as (dfs0 & noms' & dfs' & df0 & _ & _ & Hl' & Hm' & Hc & Hlen).
  rewrite Hl in Hl'. injection Hl' as <-.
  rewrite Hm in Hm'. injection Hm' as <-.
  rewrite Hlen. exact (len_pd_concat _ Hc).
Qed.

Lemma X5_rows_of_all_trip_files_witness :
  os_listdir cwd_deux_fichiers (chemin_bixis ++ ["2014"])
  = Ok ["OD_2014-05.csv"; "Stations_2014.csv"; "OD_2014-04.csv"]
  /\ exists gdf df,
       charger_fichiers cwd_deux_fichiers "2014" = Ok (gdf, df) /\ len df = 4%nat.
Proof.
  assert (Hl : os_listdir cwd_deux_fichiers (chemin_bixis ++ ["2014"])
               = Ok ["OD_2014-05.csv"; "Stations_2014.csv"; "OD_2014-04.csv"])
    by reflexivity.
  split; [exact Hl|].
  destruct (charger_fichiers cwd_deux_fichiers "2014") as [[gdf df]|e] eqn:Hf;
    [|vm_compute in Hf; discriminate].
  destruct (mapM (fun fichier =>
                    pd_read_csv cwd_deux_fichiers
                                ((chemin_bixis ++ ["2014"]) ++ [fichier]) ",")
                 (filter est_fichier_trajets
                         ["OD_2014-05.csv"; "Stations_2014.csv"; "OD_2014-04.csv"]))
    as [dfs|e] eqn:Hm; [|vm_compute in Hm; discriminate].
  exists gdf, df. split; [reflexivity|].
  rewrite (proj2 (@X5_rows_of_all_trip_files reference cwd_deux_fichiers "2014"
                    _ dfs gdf df Hl Hm Hf)).
  vm_compute in Hm. injection Hm as <-. reflexivity.
Defined.

Lemma mapM_ext_in {A B : Type} (f g : A -> result B) (l : list A) :
  (forall a, In a l -> f a = g a) -> mapM f l = mapM g l.
Proof.
  induction l as [|a l IH]; intros H; [reflexivity|].
  cbn [mapM]. rewrite (H a) by (now left).
  rewrite IH by (intros b Hb; apply H; now right). reflexivity.
Qed.

Lemma bind_ext {A B : Type} (r : result A) (k k' : A -> result B) :
  (forall a, k a = k' a) -> bind r k = bind r k'.
Proof. intros H. destruct r; simpl; [apply H|reflexivity]. Qed.

(** X6. [charger_donnees] depends on the working directory only through the
    station file of the year and the files whose names pass the trip-file
    test, in the order they are listed: two directories that agree on these
    give the same result and the same error, whatever else they hold. *)
Theorem X6_only_station_and_trip_files `{E : Externals} (cwd cwd' : node)
        (annee : string) (noms noms' : list string) :
  read_text cwd ((chemin_bixis ++ [annee])
                 ++ [("Stations_" ++ annee ++ ".csv")%string])
  = read_text cwd' ((chemin_bixis ++ [annee])
                    ++ [("Stations_" ++ annee ++ ".csv")%string]) ->
  os_listdir cwd (chemin_bixis ++ [annee]) = Ok noms ->
  os_listdir cwd' (chemin_bixis ++ [annee]) = Ok noms' ->
  filter est_fichier_trajets noms = filter est_fichier_trajets noms' ->
  (forall f, In f (filter est_fichier_trajets noms) ->
             read_text cwd ((chemin_bixis ++ [annee]) ++ [f])
             = read_text cwd' ((chemin_bixis ++ [annee]) ++ [f])) ->
  charger_donnees cwd annee = charger_donnees cwd' annee.
Proof.
  intros Hs Hl Hl' Hf Hr.
  assert (H1 : charger_stations cwd ((chemin_bixis ++ [annee])
                                     ++ [("Stations_" ++ annee ++ ".csv")%string])
               = charger_stations cwd' ((chemin_bixis ++ [annee])
                                        ++ [("Stations_" ++ annee ++ ".csv")%string])).
  { unfold charger_stations, pd_read_csv. now rewrite Hs. }
  assert (Hm : mapM (fun fichier =>
                       pd_read_csv cwd ((chemin_bixis ++ [annee]) ++ [fichier]) ",")
                    (filter est_fichier_trajets noms)
               = mapM (fun fichier =>
                         pd_read_csv cwd' ((chemin_bixis ++ [annee]) ++ [fichier]) ",")
                      (filter est_fichier_trajets noms')).
  { rewrite <- Hf. apply mapM_ext_in. intros f Hin.
    unfold pd_read_csv. now rewrite (Hr f Hin). }
  assert (Hc : charger_fichiers cwd annee = charger_fichiers cwd' annee).
  { unfold charger_fichiers. rewrite H1.
    apply bind_ext. intros df_stations. apply bind_ext. intros g.
    rewrite Hl, Hl'. cbn [bind]. now rewrite Hm. }
  unfold charger_donnees, charger_corps. now rewrite Hc.
Qed.

Lemma X6_only_station_and_trip_files_witness :
  os_listdir cwd_autres_fichiers (chemin_bixis ++ ["2014"])
  = Ok [ "LISEZMOI.txt"; "Stations_2014.csv"; "Stations_anciennes.csv";
         "OD_2014-04.csv"; "notes.csv.bak" ]
  /\ charger_donnees cwd_2014 "2014" = charger_donnees cwd_autres_fichiers "2014".
Proof.
  assert (Hl' : os_listdir cwd_autres_fichiers (chemin_bixis ++ ["2014"])
                = Ok [ "LISEZMOI.txt"; "Stations_2014.csv"; "Stations_anciennes.csv";
                       "OD_2014-04.csv"; "notes.csv.bak" ]) by reflexivity.
  split; [exact Hl'|].
  refine (@X6_only_station_and_trip_files reference cwd_2014 cwd_autres_fichiers
            "2014" ["Stations_2014.csv"; "OD_2014-04.csv"] _ _ _ Hl' _ _).
  - reflexivity.
  - reflexivity.
  - reflexivity.
  - intros f [<-|[]]. reflexivity.
Defined.

(** ** The order of the trips *)




(** ** The bucket of a trip *)



(** ** Rows without a start date *)

(** X9. A row whose start date is missing stays in the total but enters no
    bucket: whenever a year is analysed, each cell of its start dates is a
    date or missing, the percentage of a label is computed from the dated
    rows given that label over all the rows, and the four counts add up to
    the number of dated rows, which is the number of rows less the missing
    dates. *)
Theorem X9_rows_without_start_date `{E : Externals} (cwd : node) (annee : string)
        (gdf : GeoDataFrame) (df : DataFrame) (r : resultats)
        (starts : list cell) :
  charger_fichiers cwd annee = Ok (gdf, df) ->
  charger_donnees cwd annee = (Some r, []) ->
  getitem df "start_date" = Ok starts ->
  repartition_periodes r
  = map (fun lab => (lab, fmul (fdiv (of_nat (dates_dans lab starts))
                                     (of_nat (len df)))
                               (of_Z 100)))
        ["0h-6h"; "6h-12h"; "12h-18h"; "18h-24h"]
  /\ (dates_dans "0h-6h" starts + dates_dans "6h-12h" starts
      + dates_dans "12h-18h" starts + dates_dans "18h-24h" starts
      = nb_dates starts)%nat
  /\ (nb_dates starts + nb_sans_date starts = len df)%nat.
Proof.
  intros Hf Hr Hsd.
  assert (Hs : statistiques gdf df = Ok r).
  { unfold charger_donnees, charger_corps in Hr. rewrite Hf in Hr.
    cbn [bind fst snd] in Hr.
    destruct (statistiques gdf df); [|discriminate]. now injection Hr as ->. }
  destruct (statistiques_repartition _ _ Hs Hsd) as [HF Hrep].
  split; [exact Hrep|]. split; [apply dates_dans_total|].
  rewrite (nb_dates_sans_date HF). exact (getitem_length _ _ Hsd).
Qed.

Lemma X9_rows_without_start_date_witness :
  exists gdf df r starts,
    charger_fichiers cwd_sans_date "2014" = Ok (gdf, df)
    /\ charger_donnees cwd_sans_date "2014" = (Some r, [])
    /\ getitem df "start_date" = Ok starts
    /\ starts = [VTime 1397520060000000000; VNaT]
    /\ repartition_periodes r
       = [ ("0h-6h", Fin 50); ("6h-12h", Fin 0);
           ("12h-18h", Fin 0); ("18h-24h", Fin 0) ].
Proof.
  destruct (charger_fichiers cwd_sans_date "2014") as [[gdf df]|e] eqn:Hf;
    [|vm_compute in Hf; discriminate].
  destruct (charger_donnees cwd_sans_date "2014") as [[r|] [|ev evs]] eqn:Hr;
    try (vm_compute in Hr; discriminate).
  assert (Hsd : getitem df "start_date" = Ok [VTime 1397520060000000000; VNaT]).
  { vm_compute in Hf. injection Hf as <- <-. reflexivity. }
  exists gdf, df, r, [VTime 1397520060000000000; VNaT].
  repeat (split; [first [reflexivity|assumption]|]).
  rewrite (proj1 (@X9_rows_without_start_date reference cwd_sans_date "2014"
                    gdf df r _ Hf Hr Hsd)).
  assert (Hn : len df = 2%nat).
  { vm_compute in Hf. injection Hf as <- <-. reflexivity. }
  rewrite Hn. vm_compute. reflexivity.
Defined.

(** ** The map of any station table *)

Lemma marqueurs_avec_nom `{E : Externals} (gdf : GeoDataFrame)
      (l : list (list (string * cell) * Point)) :
  has_column (frame gdf) "name" = true ->
  forallb point_complet (map snd l) = true ->
  mapM (marqueur gdf) l = Ok (map marqueur_de_ligne l).
Proof.
  intros Hc. induction l as [|x l IH]; intros Hv; [reflexivity|].
  cbn [map forallb] in Hv. apply andb_true_iff in Hv. destruct Hv as [Hx Hv].
  cbn [mapM map]. rewrite (IH Hv). unfold marqueur at 1, row_getitem.
  rewrite Hc. cbn [bind]. rewrite (validate_location_ok _ _ Hx). reflexivity.
Qed.

Lemma marqueurs_sans_coordonnee `{E : Externals} (gdf : GeoDataFrame)
      (l : list (list (string * cell) * Point)) :
  has_column (frame gdf) "name" = true ->
  forallb point_complet (map snd l) = false ->
  mapM (marqueur gdf) l
  = Raise (Exn ValueError "Location values cannot contain NaNs.").
Proof.
  intros Hc. induction l as [|x l IH]; intros Hv; [discriminate|].
  cbn [map forallb] in Hv. cbn [mapM].
  unfold marqueur at 1, row_getitem. rewrite Hc. cbn [bind].
  destruct (point_complet (snd x)) eqn:Hx.
  - rewrite (validate_location_ok _ _ Hx). cbn [bind].
    rewrite (IH Hv). reflexivity.
  - rewrite (validate_location_nan _ _ Hx). reflexivity.
Qed.

Lemma combine_fst_snd {A B : Type} (l : list A) (l' : list B) :
  List.length l' = List.length l ->
  map fst (combine l l') = l /\ map snd (combine l l') = l'.
Proof.
  revert l'. induction l as [|a l IH]; intros [|b l'] H; simpl in *;
    try discriminate; [split; reflexivity|].
  destruct (IH l' ltac:(lia)) as [H1 H2]. now rewrite H1, H2.
Qed.

(** X10. On a station table that has rows but no [name] column,
    [creer_carte] raises [KeyError] for 'name' at the first station; nothing
    in [creer_carte] or in [main] catches it. *)
Theorem X10_map_needs_name_column `{E : Externals} (gdf : GeoDataFrame)
        (r : list (string * cell)) (rs : list (list (string * cell)))
        (p : Point) (ps : list Point) :
  records (frame gdf) = r :: rs ->
  geometry gdf = p :: ps ->
  has_column (frame gdf) "name" = false ->
  creer_carte gdf = Raise (Exn KeyError "'name'").
Proof.
  intros Hr Hg Hc. unfold creer_carte. rewrite Hr, Hg.
  cbn [combine mapM]. unfold marqueur at 1, row_getitem. rewrite Hc. reflexivity.
Qed.

Lemma X10_map_needs_name_column_witness :
  exists gdf df,
    charger_fichiers cwd_sans_nom "2014" = Ok (gdf, df)
    /\ has_column (frame gdf) "name" = false
    /\ creer_carte gdf = Raise (Exn KeyError "'name'").
Proof.
  destruct (charger_fichiers cwd_sans_nom "2014") as [[gdf df]|e] eqn:Hf;
    [|vm_compute in Hf; discriminate].
  exists gdf, df. split; [reflexivity|].
  assert (H : exists r p, records (frame gdf) = [r] /\ geometry gdf = [p]
                          /\ has_column (frame gdf) "name" = false).
  { vm_compute in Hf. injection Hf as <- <-. do 2 eexists. repeat split. }
  destruct H as (r & p & Hr & Hg & Hc). split; [exact Hc|].
  exact (@X10_map_needs_name_column reference gdf r [] p [] Hr Hg Hc).
Defined.

Lemma attacher_geometrie_length (df : DataFrame) (gdf : GeoDataFrame) :
  attacher_geometrie df = Ok gdf ->
  frame gdf = df /\ List.length (geometry gdf) = len df.
Proof.
  unfold attacher_geometrie.
  destruct (getitem df "longitude") as [lon|] eqn:Hlon; [|discriminate].
  cbn [bind].
  destruct (getitem df "latitude") as [lat|] eqn:Hlat; [|discriminate].
  cbn [bind].
  destruct (mapM point_of (combine lon lat)) as [g|] eqn:Hg; [|discriminate].
  cbn [bind]. intros H. injection H as <-. cbn [frame geometry].
  split; [reflexivity|].
  rewrite (mapM_length _ _ Hg), length_combine.
  rewrite (getitem_length _ _ Hlon), (getitem_length _ _ Hlat). lia.
Qed.

Lemma statistiques_stations (gdf : GeoDataFrame) (df : DataFrame) (r : resultats) :
  statistiques gdf df = Ok r -> stations r = gdf.
Proof.
  unfold statistiques. intros H.
  repeat (match type of H with
          | bind ?x _ = Ok _ => destruct x; [cbn [bind] in H|discriminate]
          end).
  now injection H as <-.
Qed.

(** X14. The station table of a successful analysis carries one point per
    row.  When it has a [name] column and no point lacks a coordinate,
    [creer_carte] succeeds on it with one marker per row, in order: the
    marker of a row stands at (y, x) of the point of that row and is labelled
    with [str] of its name in bold.  When it has a [name] column and some
    point lacks a coordinate, [creer_carte] raises the [ValueError] of the
    marker that refuses a NaN in its location. *)
Theorem X14_map_of_an_analysis `{E : Externals} (cwd : node) (annee : string)
        (r : resultats) :
  charger_donnees cwd annee = (Some r, []) ->
  has_column (frame (stations r)) "name" = true ->
  List.length (geometry (stations r)) = len (frame (stations r))
  /\ (forallb point_complet (geometry (stations r)) = true ->
      exists carte c,
        creer_carte (stations r) = Ok carte
        /\ clusters carte = [c]
        /\ List.length (markers c) = len (frame (stations r))
        /\ map location (markers c)
           = map (fun p => (py p, px p)) (geometry (stations r))
        /\ map popup (markers c)
           = map (fun rec => ("<b>" ++ py_str (field "name" rec) ++ "</b>")%string)
                 (records (frame (stations r))))
  /\ (forallb point_complet (geometry (stations r)) = false ->
      creer_carte (stations r)
      = Raise (Exn ValueError "Location values cannot contain NaNs.")).
Proof.
  intros Hr Hc.
  unfold charger_donnees, charger_corps in Hr.
  destruct (charger_fichiers cwd annee) as [[gdf df]|] eqn:Hf;
    [|discriminate].
  cbn [bind fst snd] in Hr.
  destruct (statistiques gdf df) as [r0|] eqn:Hs; [|discriminate].
  injection Hr as ->.
  rewrite (statistiques_stations _ _ Hs) in *.
  destruct (charger_fichiers_inv cwd annee Hf)
    as (dfs & _ & _ & _ & _ & Hg & _).
  destruct (attacher_geometrie_length _ Hg) as [Hfr Hlen].
  rewrite <- Hfr in Hlen. split; [exact Hlen|].
  destruct (combine_fst_snd (records (frame gdf)) (geometry gdf) Hlen)
    as [Hl1 Hl2].
  set (l := combine (records (frame gdf)) (geometry gdf)) in *.
  split.
  - intros Hv. rewrite <- Hl2 in Hv.
    exists (carte_de (map marqueur_de_ligne l)),
           {| cluster_name := "Stations BIXI"; overlay := true;
              cluster_control := true; markers := map marqueur_de_ligne l |}.
    split; [apply creer_carte_markers; now apply marqueurs_avec_nom|].
    split; [reflexivity|]. cbn [markers].
    split; [rewrite length_map; unfold l, len in *; rewrite length_combine; lia|].
    split.
    + rewrite <- Hl2, !map_map. reflexivity.
    + rewrite <- Hl1, !map_map. reflexivity.
  - intros Hv. rewrite <- Hl2 in Hv. unfold creer_carte. fold l.
    now rewrite (marqueurs_sans_coordonnee gdf l Hc Hv).
Qed.

Lemma X14_map_of_an_analysis_witness :
  (exists r carte c,
     charger_donnees cwd_2014 "2014" = (Some r, [])
     /\ has_column (frame (stations r)) "name" = true
     /\ forallb point_complet (geometry (stations r)) = true
     /\ creer_carte (stations r) = Ok carte
     /\ clusters carte = [c]
     /\ List.length (markers c) = 2%nat)
  /\ (exists r,
        charger_donnees cwd_sans_latitude "2014" = (Some r, [])
        /\ has_column (frame (stations r)) "name" = true
        /\ forallb point_complet (geometry (stations r)) = false
        /\ creer_carte (stations r)
           = Raise (Exn ValueError "Location values cannot contain NaNs.")).
Proof.
  split.
  - destruct (charger_donnees cwd_2014 "2014") as [[r|] [|ev evs]] eqn:Hr;
      try (vm_compute in Hr; discriminate).
    assert (H : has_column (frame (stations r)) "name" = true
                /\ forallb point_complet (geometry (stations r)) = true
                /\ len (frame (stations r)) = 2%nat).
    { vm_compute in Hr. injection Hr as <-. repeat split. }
    destruct H as (Hc & Hv & Hn).
    destruct (proj1 (proj2 (@X14_map_of_an_analysis reference cwd_2014 "2014"
                              r Hr Hc)) Hv)
      as (carte & c & Hm & Hcl & Hlen & _).
    exists r, carte, c. repeat (split; [first [reflexivity|assumption]|]).
    now rewrite Hlen.
  - destruct (charger_donnees cwd_sans_latitude "2014") as [[r|] [|ev evs]] eqn:Hr;
      try (vm_compute in Hr; discriminate).
    assert (H : has_column (frame (stations r)) "name" = true
                /\ forallb point_complet (geometry (stations r)) = false).
    { vm_compute in Hr. injection Hr as <-. split; reflexivity. }
    destruct H as (Hc & Hv).
    exists r. repeat (split; [first [reflexivity|assumption]|]).
    exact (proj2 (proj2 (@X14_map_of_an_analysis reference cwd_sans_latitude
                           "2014" r Hr Hc)) Hv).
Defined.

(** ** The list of years *)

Lemma insert_sorted_perm (x : string) (l : list string) :
  Permutation (insert_sorted x l) (x :: l).
Proof.
  induction l as [|y l IH]; simpl; [reflexivity|].
  destruct (String.leb x y); [reflexivity|].
  rewrite IH. apply perm_swap.
Qed.

Lemma sort_perm (l : list string) : Permutation (sort l) l.
Proof.
  unfold sort. induction l as [|x l IH]; simpl; [reflexivity|].
  rewrite insert_sorted_perm. now constructor.
Qed.

Lemma insert_sorted_sorted (x : string) (l : list string) :
  Sorted croissant l -> Sorted croissant (insert_sorted x l).
Proof.
  induction 1 as [|y l Hl IH Hd]; simpl.
  - repeat constructor.
  - destruct (String.leb x y) eqn:Exy.
    + constructor; [constructor; assumption|constructor; exact Exy].
    + constructor; [exact IH|].
      assert (Hyx : croissant y x).
      { destruct (String.leb_total x y) as [H|H]; [congruence|exact H]. }
      destruct l as [|z l]; simpl.
      * constructor. exact Hyx.
      * destruct (String.leb x z); constructor; [exact Hyx|].
        now inversion Hd.
Qed.

Lemma sort_sorted (l : list string) : Sorted croissant (sort l).
Proof.
  unfold sort. induction l as [|x l IH]; simpl; [constructor|].
  now apply insert_sorted_sorted.
Qed.

(** X11. The years [main] offers are the entries of [./bixis] that are
    directories, each once per entry, and no file; they are offered in
    ascending order of their names. *)
Theorem X11_years_offered (cwd : node) (noms annees : list string) :
  os_listdir cwd chemin_bixis = Ok noms ->
  annees_disponibles cwd = Ok annees ->
  Permutation annees
              (filter (fun d => os_path_isdir cwd (chemin_bixis ++ [d])) noms)
  /\ Sorted (fun a b => String.leb a b = true) annees
  /\ forall d, In d annees -> os_path_isdir cwd (chemin_bixis ++ [d]) = true.
Proof.
  intros Hl Ha. unfold annees_disponibles in Ha. rewrite Hl in Ha.
  cbn [bind] in Ha. injection Ha as <-.
  split; [apply sort_perm|]. split; [apply sort_sorted|].
  intros d Hd. apply In_sort, filter_In in Hd. exact (proj2 Hd).
Qed.

Lemma X11_years_offered_witness :
  os_listdir cwd_plusieurs_annees chemin_bixis
  = Ok ["2016"; "LISEZMOI.txt"; "2014"; "2015"]
  /\ annees_disponibles cwd_plusieurs_annees = Ok ["2014"; "2015"; "2016"]
  /\ Sorted (fun a b => String.leb a b = true) ["2014"; "2015"; "2016"].
Proof.
  assert (Hl : os_listdir cwd_plusieurs_annees chemin_bixis
               = Ok ["2016"; "LISEZMOI.txt"; "2014"; "2015"]) by reflexivity.
  assert (Ha : annees_disponibles cwd_plusieurs_annees = Ok ["2014"; "2015"; "2016"])
    by (vm_compute; reflexivity).
  split; [exact Hl|]. split; [exact Ha|].
  exact (proj1 (proj2 (X11_years_offered cwd_plusieurs_annees Hl Ha))).
Defined.

(** ** Exact values and bounds of the statistics *)

Local Open Scope Q_scope.

Lemma Qilog2_Qeq (x y : Q) : 0 < x -> x == y -> Qilog2 x = Qilog2 y.
Proof.
  intros Hx Hxy.
  assert (Hy : 0 < y) by (rewrite <- Hxy; exact Hx).
  pose proof (Qilog2_low Hx) as Lx. pose proof (Qilog2_high Hx) as Ux.
  pose proof (Qilog2_low Hy) as Ly. pose proof (Qilog2_high Hy) as Uy.
  assert (H1 : 2 ^ Qilog2 x < 2 ^ (Qilog2 y + 1)).
  { apply Qle_lt_trans with x; [exact Lx|]. rewrite Hxy. exact Uy. }
  assert (H2 : 2 ^ Qilog2 y < 2 ^ (Qilog2 x + 1)).
  { apply Qle_lt_trans with y; [exact Ly|]. rewrite <- Hxy. exact Ux. }
  apply Qpower_lt_compat_l_inv in H1; [|reflexivity].
  apply Qpower_lt_compat_l_inv in H2; [|reflexivity].
  lia.
Qed.

Lemma Qrne_Qeq (s t : Q) : s == t -> Qrne s = Qrne t.
Proof.
  intros H. apply Z.le_antisymm; apply Qrne_mono; rewrite H; apply Qle_refl.
Qed.

(** Rounding does not depend on how the rational is written. *)
Lemma rnd_Qeq (x y : Q) : x == y -> rnd x = rnd y.
Proof.
  intros Hxy. destruct (Qeq_dec x 0) as [Hx|Hx].
  - rewrite (rnd_zero Hx). symmetry. apply rnd_zero. now rewrite <- Hxy.
  - assert (Hy : ~ y == 0) by (now rewrite <- Hxy).
    unfold rnd.
    destruct (Qeq_bool x 0) eqn:Ex; [apply Qeq_bool_eq in Ex; contradiction|].
    destruct (Qeq_bool y 0) eqn:Ey; [apply Qeq_bool_eq in Ey; contradiction|].
    assert (He : ulp_exp x = ulp_exp y).
    { unfold ulp_exp. f_equal. apply Qilog2_Qeq; [|now rewrite Hxy].
      pose proof (Qabs_nonneg x) as Hn.
      apply Qnot_le_lt. intros Hle.
      assert (Hz : Qabs x == 0) by (apply Qle_antisym; assumption).
      apply Hx. destruct x as [n d]. unfold Qabs, Qeq in *. simpl in *. lia. }
    rewrite He. apply Qred_complete.
    rewrite (Qrne_Qeq (s := x * 2 ^ (- ulp_exp y)) (t := y * 2 ^ (- ulp_exp y)))
      by (now rewrite Hxy).
    reflexivity.
Qed.

Lemma ratio_same (n : nat) : (0 < n)%nat -> ratio n n == 1.
Proof.
  intros Hn. unfold ratio.
  assert (Hd : 0 < inject_Z (Z.of_nat n)).
  { change 0 with (inject_Z 0). rewrite <- Zlt_Qlt. lia. }
  field. lra.
Qed.

(** X12. When every trip of a year ends at the station it started from, the
    loop proportion is exactly 100.0: neither the quotient nor the product
    rounds. *)
Theorem X12_all_loops `{E : Externals} (cwd : node) (annee : string)
        (gdf : GeoDataFrame) (df : DataFrame) (ts : list Trip) :
  charger_fichiers cwd annee = Ok (gdf, df) ->
  trips_of df ts ->
  ts <> [] ->
  (forall t, In t ts -> start_station_code t = end_station_code t) ->
  exists r, charger_donnees cwd annee = (Some r, [])
            /\ proportion_boucle r = Fin 100.
Proof.
  intros Hf Ht Hne Hall.
  exists (resultats_de gdf ts).
  split; [exact (charger_donnees_ok cwd annee Hf Ht Hne)|].
  assert (Hn : (0 < List.length ts)%nat) by (destruct ts; [congruence|simpl; lia]).
  assert (Hb : nb_boucles ts = List.length ts).
  { unfold nb_boucles. clear -Hall. induction ts as [|t ts IH]; [reflexivity|].
    simpl. replace (est_boucle t) with true.
    - simpl. f_equal. apply IH. intros u Hu. apply Hall. now right.
    - symmetry. apply code_eqb_eq. apply Hall. now left. }
  cbn [resultats_de proportion_boucle]. rewrite Hb, of_Z_100.
  rewrite (rnd_Qeq (ratio_same Hn)). cbn [fmul]. reflexivity.
Qed.

Lemma X12_all_loops_witness :
  charger_fichiers cwd_boucles "2014"
  = Ok (gdf_2014, frame_of_trips trajets_boucles)
  /\ map est_boucle trajets_boucles = [true; true; true]
  /\ exists r, charger_donnees cwd_boucles "2014" = (Some r, [])
               /\ proportion_boucle r = Fin 100.
Proof.
  assert (Hf : charger_fichiers cwd_boucles "2014"
               = Ok (gdf_2014, frame_of_trips trajets_boucles))
    by (vm_compute; reflexivity).
  split; [exact Hf|]. split; [reflexivity|].
  refine (@X12_all_loops reference cwd_boucles "2014" gdf_2014 _ trajets_boucles
            Hf (trips_of_frame_of_trips _) _ _).
  - discriminate.
  - intros t [<-|[<-|[<-|[]]]]; reflexivity.
Defined.

Lemma total_bounds (a b : Z) (l : list Z) :
  Forall (fun z => a <= z <= b)%Z l ->
  (Z.of_nat (List.length l) * a <= total l <= Z.of_nat (List.length l) * b)%Z.
Proof.
  unfold total. induction 1 as [|z l Hz _ IH]; [simpl; lia|].
  cbn [fold_right List.length]. lia.
Qed.

(** X13. The average duration lies between the shortest and the longest
    trip: when every duration of the year is between [a] and [b] seconds,
    with [0 <= a], and the sum of the durations and the number of trips are
    below 2^53, the average is a finite float between [a / 60] and [b / 60],
    each rounded. *)
Theorem X13_average_between_bounds `{E : Externals} (cwd : node) (annee : string)
        (gdf : GeoDataFrame) (df : DataFrame) (ts : list Trip) (a b : Z) :
  charger_fichiers cwd annee = Ok (gdf, df) ->
  trips_of df ts ->
  ts <> [] ->
  (0 <= a)%Z ->
  (forall t, In t ts -> a <= duration_sec t <= b)%Z ->
  (total (map duration_sec ts) < 2 ^ 53)%Z ->
  (Z.of_nat (List.length ts) < 2 ^ 53)%Z ->
  exists r q,
    charger_donnees cwd annee = (Some r, [])
    /\ duree_moyenne r = Fin q
    /\ rnd (inject_Z a / 60) <= q <= rnd (inject_Z b / 60).
Proof.
  intros Hf Ht Hne Ha Hab Hsum Hlen.
  set (S := total (map duration_sec ts)) in *.
  set (n := Z.of_nat (List.length ts)) in *.
  assert (Hn : (1 <= n)%Z) by (unfold n; destruct ts; [congruence|simpl; lia]).
  assert (HF : Forall (fun z => a <= z <= b)%Z (map duration_sec ts)).
  { apply Forall_map, Forall_forall. exact Hab. }
  pose proof (total_bounds HF) as Hb. rewrite length_map in Hb.
  fold S in Hb. fold n in Hb.
  assert (Hpos : Forall (fun z => 0 <= z)%Z (map duration_sec ts)).
  { eapply Forall_impl; [|exact HF]. simpl. intros z Hz. lia. }
  assert (Hm : moyenne (map duration_sec ts) = Fin (rnd (inject_Z S / inject_Z n))).
  { unfold S, n. rewrite <- (length_map duration_sec ts).
    apply moyenne_exact; try assumption.
    - destruct ts; [congruence|discriminate].
    - now rewrite length_map. }
  exists (resultats_de gdf ts), (rnd (rnd (inject_Z S / inject_Z n) / 60)).
  split; [exact (charger_donnees_ok cwd annee Hf Ht Hne)|].
  split.
  { cbn [resultats_de duree_moyenne]. rewrite Hm, of_Z_60. reflexivity. }
  assert (Qn : 0 < inject_Z n).
  { change 0 with (inject_Z 0). rewrite <- Zlt_Qlt. lia. }
  assert (Qa : 0 <= inject_Z a).
  { change 0 with (inject_Z 0). rewrite <- Zle_Qle. lia. }
  assert (Hlo : inject_Z a <= inject_Z S / inject_Z n).
  { apply Qle_shift_div_l; [exact Qn|].
    rewrite <- inject_Z_mult, <- Zle_Qle. lia. }
  assert (Hhi : inject_Z S / inject_Z n <= inject_Z (Z.min b S)).
  { apply Qle_shift_div_r; [exact Qn|].
    rewrite <- inject_Z_mult, <- Zle_Qle.
    destruct (Z.min_spec b S) as [[_ ->]|[_ ->]]; nia. }
  assert (Hx0 : 0 <= inject_Z S / inject_Z n) by lra.
  assert (Ma : inject_Z a <= rnd (inject_Z S / inject_Z n)).
  { rewrite <- (@rnd_Z a) by nia. now apply rnd_mono. }
  assert (Mb : rnd (inject_Z S / inject_Z n) <= inject_Z b).
  { apply Qle_trans with (inject_Z (Z.min b S)).
    - apply rnd_le_Z; [exact Hx0|exact Hhi|lia].
    - rewrite <- Zle_Qle. lia. }
  set (m := rnd (inject_Z S / inject_Z n)) in *.
  split; apply rnd_mono.
  - apply Qle_shift_div_l; lra.
  - apply Qmult_le_compat_r; [exact Ma|]. discriminate.
  - apply Qle_shift_div_l; lra.
  - apply Qmult_le_compat_r; [exact Mb|]. discriminate.
Qed.

Lemma X13_average_between_bounds_witness :
  charger_fichiers cwd_2014 "2014" = Ok (gdf_2014, frame_of_trips trajets_2014)
  /\ map duration_sec trajets_2014 = [600; 1200]%Z
  /\ exists r q,
       charger_donnees cwd_2014 "2014" = (Some r, [])
       /\ duree_moyenne r = Fin q
       /\ 10 <= q <= 20.
Proof.
  assert (Hf : charger_fichiers cwd_2014 "2014"
               = Ok (gdf_2014, frame_of_trips trajets_2014))
    by (vm_compute; reflexivity).
  split; [exact Hf|]. split; [reflexivity|].
  refine (@X13_average_between_bounds reference cwd_2014 "2014" gdf_2014 _
            trajets_2014 600 1200 Hf (trips_of_frame_of_trips _) _ _ _ _ _).
  - discriminate.
  - lia.
  - intros t [<-|[<-|[]]]; simpl; lia.
  - vm_compute; reflexivity.
  - vm_compute; reflexivity.
Defined.

Local Close Scope Q_scope.

(** X15. The trip files are taken by name only: when the first name that
    passes the trip-file test is a directory, reading it fails and
    [charger_donnees] shows "Is a directory" with its path and returns
    [None], whatever the other files hold. *)
Theorem X15_directory_named_as_trip_file `{E : Externals} (cwd : node)
        (annee : string) (df : DataFrame) (gdf : GeoDataFrame)
        (noms : list string) (f : string) (reste : list string)
        (es : list (string * node)) :
  charger_stations cwd ((chemin_bixis ++ [annee])
                        ++ [("Stations_" ++ annee ++ ".csv")%string]) = Ok df ->
  attacher_geometrie df = Ok gdf ->
  os_listdir cwd (chemin_bixis ++ [annee]) = Ok noms ->
  filter est_fichier_trajets noms = f :: reste ->
  resolve cwd ((chemin_bixis ++ [annee]) ++ [f]) = Some (Dir es) ->
  charger_donnees cwd annee
  = erreur_affichee
      ("[Errno 21] Is a directory: './bixis/" ++ annee ++ "/" ++ f ++ "'").
Proof.
  intros Hs Hg Hl Hf Hr.
  rewrite (@charger_donnees_raise E cwd annee
             (Exn IsADirectoryError
                  ("[Errno 21] Is a directory: '"
                   ++ path_str ((chemin_bixis ++ [annee]) ++ [f]) ++ "'"))).
  - unfold erreur_affichee, path_str, chemin_bixis. cbn [msg app join].
    cbn [append]. rewrite !append_assoc. reflexivity.
  - unfold charger_fichiers. rewrite Hs. cbn [bind]. rewrite Hg. cbn [bind].
    rewrite Hl. cbn [bind]. rewrite Hf. cbn [mapM].
    unfold pd_read_csv at 1, read_text. rewrite Hr. reflexivity.
Qed.

Lemma X15_directory_named_as_trip_file_witness :
  filter est_fichier_trajets ["Stations_2014.csv"; "archives.csv"; "OD_2014-04.csv"]
  = ["archives.csv"; "OD_2014-04.csv"]
  /\ charger_donnees cwd_dossier_csv "2014"
     = erreur_affichee "[Errno 21] Is a directory: './bixis/2014/archives.csv'".
Proof.
  split; [reflexivity|].
  refine (@X15_directory_named_as_trip_file reference cwd_dossier_csv "2014"
            (frame_of_stations stations_2014) gdf_2014
            ["Stations_2014.csv"; "archives.csv"; "OD_2014-04.csv"]
            "archives.csv" ["OD_2014-04.csv"] [] _ _ _ _ _).
  - vm_compute; reflexivity.
  - vm_compute; reflexivity.
  - reflexivity.
  - reflexivity.
  - reflexivity.
Defined.
